(** * RenoTracker: a shallow embedding of the application code

    The development follows the layout of the repository:
    - [Py]       the built-in string operations the code relies on;
    - [Dec]      the [decimal] module under its default context;
    - [Config]   [app/config.py];
    - [Models]   the rows of [app/models.py] and the tables;
    - [Runtime]  the world a request runs in, and the monad of computations
                 that read it, change it and may raise;
    - [Storage]  [app/storage.py];
    - [Seed]     [app/seed.py];
    - [Auth]     [app/auth.py];
    - [Main]     helpers and route handlers of [app/main.py];
    - [Spec]     notions worded after the specification;
    - [Sample]   a concrete environment in which the code runs.
    The properties follow the definitions.

    Strings are sequences of 8-bit characters read as the code points
    U+0000..U+00FF. *)

From stdpp Require Import gmap strings list fin_maps.
From Stdlib Require Import Ascii ZArith Lia.

(** ** Python built-ins used by the application *)
Module Py.

(** [str.isspace] on one character, for code points below 256. *)
Definition isspace (c : ascii) : bool :=
  let n := N_of_ascii c in
  ((9 <=? n) && (n <=? 13) || (28 <=? n) && (n <=? 32) || (n =? 133) || (n =? 160))%N.

(** [str.lower] on one character, for code points below 256. *)
Definition lower_char (c : ascii) : ascii :=
  let n := N_of_ascii c in
  if ((65 <=? n) && (n <=? 90) || (192 <=? n) && (n <=? 214) || (216 <=? n) && (n <=? 222))%N
  then ascii_of_N (n + 32) else c.

Fixpoint lower (s : string) : string :=
  match s with
  | EmptyString => EmptyString
  | String c s' => String (lower_char c) (lower s')
  end.

(** Truth value of a string: the empty string is false. *)
Definition truthy (s : string) : bool :=
  match s with EmptyString => false | String _ _ => true end.

(** [o or d] for an optional string [o]: [None] and the empty string are false. *)
Definition or_else (o : option string) (d : string) : string :=
  match o with
  | Some s => if truthy s then s else d
  | None => d
  end.

(** [x or None] for a string [x]. *)
Definition or_none (s : string) : option string :=
  if truthy s then Some s else None.

Fixpoint lstrip (s : string) : string :=
  match s with
  | EmptyString => EmptyString
  | String c s' => if isspace c then lstrip s' else s
  end.

Fixpoint rstrip (s : string) : string :=
  match s with
  | EmptyString => EmptyString
  | String c s' =>
      let r := rstrip s' in
      if isspace c && negb (truthy r) then EmptyString else String c r
  end.

(** [str.strip()] : leading white space is skipped, then trailing white space. *)
Definition strip (s : string) : string := rstrip (lstrip s).

(** [s.replace(a, b)] for one-character [a] and [b]. *)
Fixpoint replace (a b : ascii) (s : string) : string :=
  match s with
  | EmptyString => EmptyString
  | String c s' => String (if Ascii.eqb c a then b else c) (replace a b s')
  end.

(** [s.split(sep)] for a one-character separator: never the empty list. *)
Fixpoint split (sep : ascii) (s : string) : list string :=
  match s with
  | EmptyString => [EmptyString]
  | String c s' =>
      if Ascii.eqb c sep then EmptyString :: split sep s'
      else match split sep s' with
           | h :: t => String c h :: t
           | [] => [String c EmptyString]
           end
  end.

(** [sep.join(l)] *)
Fixpoint join (sep : string) (l : list string) : string :=
  match l with
  | [] => EmptyString
  | [x] => x
  | x :: rest => x +:+ sep +:+ join sep rest
  end.

End Py.

(** ** Exceptions and results *)

Inductive exn_class :=
| RuntimeError | NameError | TypeError | KeyError | ValueError | AttributeError
| InvalidOperation | Overflow
| IntegrityError | OperationalError
| ClientError.

Record exn := Exn { exn_cls : exn_class; exn_msg : string }.

Inductive result (A : Type) :=
| Ok (a : A)
| Raise (e : exn).
Arguments Ok {A} a.
Arguments Raise {A} e.

#[global] Instance exn_class_eq_dec : EqDecision exn_class.
Proof. solve_decision. Defined.

(** ** The decimal module: [Decimal] values under the default context
    (precision 28, ROUND_HALF_EVEN, Emax 999999, Emin -999999,
    traps InvalidOperation, DivisionByZero and Overflow). *)
Module Dec.
Import Py.
Local Open Scope Z_scope.

Inductive decimal :=
| Fin (neg : bool) (coef : N) (exp : Z)
| Inf (neg : bool)
| NaN (neg : bool) (payload : N)
| SNaN (neg : bool) (payload : N).

Definition prec : Z := 28.
Definition Emax : Z := 999999.
Definition Emin : Z := -999999.
Definition Etiny : Z := Emin - prec + 1.
Definition Etop : Z := Emax - prec + 1.

(** Number of decimal digits of a coefficient; the coefficient 0 has one digit. *)
Fixpoint ndigits_fuel (fuel : nat) (n : Z) : Z :=
  match fuel with
  | O => 1
  | S f => if n <? 10 then 1 else 1 + ndigits_fuel f (n / 10)
  end.

Definition ndigits (n : N) : Z := ndigits_fuel (N.to_nat (N.size n)) (Z.of_N n).

Definition signed (neg : bool) (c : N) : Z := if neg then - Z.of_N c else Z.of_N c.

Definition invalid_operation {A} (msg : string) : result A :=
  Raise (Exn InvalidOperation msg).

(** Round-half-even division of a coefficient by [10^k], for [k > 0]. *)
Definition round_half_even (c : Z) (k : Z) : Z :=
  let p := 10 ^ k in
  let q := c / p in
  let r := c mod p in
  if (2 * r >? p) || ((2 * r =? p) && Z.odd q) then q + 1 else q.

(** [Decimal._fix]: round a finite value to the context. *)
Definition fix_finite (neg : bool) (c : N) (e : Z) : result decimal :=
  if (c =? 0)%N then
    Ok (Fin neg 0 (Z.min (Z.max e Etiny) Emax))
  else
    let exp_min := ndigits c + e - prec in
    if exp_min >? Etop then Raise (Exn Overflow "above Emax")
    else
      let exp_min := if exp_min <? Etiny then Etiny else exp_min in
      if e <? exp_min then
        let digits := ndigits c + e - exp_min in
        let '(c1, e1) := if digits <? 0 then (1, exp_min - 1) else (Z.of_N c, e) in
        let coeff := round_half_even c1 (exp_min - e1) in
        let '(coeff, exp_min) :=
          if ndigits (Z.to_N coeff) >? prec then (coeff / 10, exp_min + 1)
          else (coeff, exp_min) in
        if exp_min >? Etop then Raise (Exn Overflow "above Emax")
        else Ok (Fin neg (Z.to_N coeff) exp_min)
      else Ok (Fin neg c e).

(** [Decimal._fix_nan]: the payload keeps its last [prec] digits. *)
Definition fix_nan (neg : bool) (payload : N) : decimal :=
  NaN neg (Z.to_N (Z.of_N payload mod 10 ^ prec)).

Definition negate (d : decimal) : decimal :=
  match d with
  | Fin s c e => Fin (negb s) c e
  | Inf s => Inf (negb s)
  | NaN s p => NaN (negb s) p
  | SNaN s p => SNaN (negb s) p
  end.

(** [Decimal._check_nans] *)
Definition check_nans (a b : decimal) : option (result decimal) :=
  match a, b with
  | SNaN _ _, _ => Some (invalid_operation "sNaN")
  | _, SNaN _ _ => Some (invalid_operation "sNaN")
  | NaN s p, _ => Some (Ok (fix_nan s p))
  | _, NaN s p => Some (Ok (fix_nan s p))
  | _, _ => None
  end.

(** [Decimal.__add__]: the exact sum at the smaller exponent, then [_fix]. *)
Definition add (a b : decimal) : result decimal :=
  match check_nans a b with
  | Some r => r
  | None =>
      match a, b with
      | Inf sa, Inf sb =>
          if Bool.eqb sa sb then Ok (Inf sa) else invalid_operation "-INF + INF"
      | Inf sa, _ => Ok (Inf sa)
      | _, Inf sb => Ok (Inf sb)
      | Fin s1 c1 e1, Fin s2 c2 e2 =>
          let e := Z.min e1 e2 in
          if (c1 =? 0)%N && (c2 =? 0)%N then fix_finite (s1 && s2) 0 e
          else
            let z := signed s1 c1 * 10 ^ (e1 - e) + signed s2 c2 * 10 ^ (e2 - e) in
            if z =? 0 then fix_finite false 0 e
            else fix_finite (z <? 0) (Z.abs_N z) e
      | _, _ => invalid_operation "unreachable"
      end
  end.

(** [Decimal.__sub__] *)
Definition sub (a b : decimal) : result decimal :=
  match check_nans a b with
  | Some r => r
  | None => add a (negate b)
  end.

(** *** The constructor [Decimal(str)] *)

Definition is_digit (c : ascii) : bool :=
  let n := N_of_ascii c in ((48 <=? n) && (n <=? 57))%N.

(** Reads a maximal run of digits, continuing the number [acc]. *)
Fixpoint take_digits (s : string) (acc : N) (count : Z) : N * Z * string :=
  match s with
  | String c s' =>
      if is_digit c then take_digits s' (acc * 10 + (N_of_ascii c - 48))%N (count + 1)
      else (acc, count, s)
  | EmptyString => (acc, count, s)
  end.

Fixpoint remove_char (a : ascii) (s : string) : string :=
  match s with
  | EmptyString => EmptyString
  | String c s' => if Ascii.eqb c a then remove_char a s' else String c (remove_char a s')
  end.

Fixpoint strip_prefix (p s : string) : option string :=
  match p, s with
  | EmptyString, _ => Some s
  | String a p', String b s' => if Ascii.eqb a b then strip_prefix p' s' else None
  | String _ _, EmptyString => None
  end.

Definition parse_sign (s : string) : bool * string :=
  match s with
  | String c r =>
      if Ascii.eqb c "-" then (true, r)
      else if Ascii.eqb c "+" then (false, r)
      else (false, s)
  | EmptyString => (false, s)
  end.

(** The exponent part after the indicator: an optional sign and at least one digit. *)
Definition parse_exponent (s : string) : option Z :=
  let '(neg, r) := parse_sign s in
  let '(v, n, rest) := take_digits r 0 0 in
  if (0 <? n) && negb (truthy rest)
  then Some (if neg then - Z.of_N v else Z.of_N v) else None.

(** digits with an optional fractional part and an optional exponent;
    at least one digit before the exponent. *)
Definition parse_number (neg : bool) (s : string) : option decimal :=
  let '(i, ni, r1) := take_digits s 0 0 in
  let '(c, nf, r2) :=
    match r1 with
    | String d r => if Ascii.eqb d "." then take_digits r i 0 else (i, 0, r1)
    | EmptyString => (i, 0, r1)
    end in
  if (0 <? ni) || (0 <? nf) then
    match r2 with
    | EmptyString => Some (Fin neg c (- nf))
    | String d r =>
        if Ascii.eqb d "e" then
          match parse_exponent r with
          | Some x => Some (Fin neg c (x - nf))
          | None => None
          end
        else None
    end
  else None.

(** [NaN] or [sNaN] with optional diagnostic digits. *)
Definition parse_nan (neg : bool) (s : string) : option decimal :=
  let payload (r : string) (mk : N -> decimal) :=
    let '(v, _, rest) := take_digits r 0 0 in
    if truthy rest then None else Some (mk v) in
  match strip_prefix "nan" s with
  | Some r => payload r (NaN neg)
  | None =>
      match strip_prefix "snan" s with
      | Some r => payload r (SNaN neg)
      | None => None
      end
  end.

(** [Decimal(value)] for a string: surrounding white space and all
    underscores are removed, letters are matched without regard to case. *)
Definition Decimal (value : string) : result decimal :=
  let '(neg, body) := parse_sign (lower (remove_char "_" (strip value))) in
  let parsed :=
    if String.eqb body "inf" || String.eqb body "infinity" then Some (Inf neg)
    else match parse_number neg body with
         | Some d => Some d
         | None => parse_nan neg body
         end in
  match parsed with
  | Some d => Ok d
  | None => invalid_operation "Invalid literal for Decimal"
  end.

End Dec.

(** ** app/config.py *)
Module Config.
Import Py.

(** [s.rstrip(a)] for a one-character set [a]. *)
Fixpoint rstrip_char (a : ascii) (s : string) : string :=
  match s with
  | EmptyString => EmptyString
  | String c s' =>
      let r := rstrip_char a s' in
      if Ascii.eqb c a && negb (truthy r) then EmptyString else String c r
  end.

(** [os.getenv(name)] *)
Definition getenv (environ : gmap string string) (name : string) : option string :=
  environ !! name.

(** [os.getenv(name, d)]: the default applies only when the variable is unset. *)
Definition getenv_default (environ : gmap string string) (name d : string) : string :=
  default d (environ !! name).

Record Settings := {
  app_env : string;
  database_url : string;
  session_secret : string;
  minio_endpoint : string;
  minio_public_endpoint : string;
  minio_access_key : string;
  minio_secret_key : string;
  minio_bucket : string;
  admin_email : string;
  admin_password : string;
  admin_name : string;
  admin_update : bool;
}.

(** The class body of [Settings], evaluated once against the process environment. *)
Definition load (environ : gmap string string) : Settings := {|
  app_env := getenv_default environ "APP_ENV" "prod";
  database_url :=
    getenv_default environ "DATABASE_URL"
      "postgresql+psycopg://reno:reno_pass_change_me@db:5432/renotracker";
  session_secret := getenv_default environ "SESSION_SECRET" "change_me";
  minio_endpoint := rstrip_char "/" (getenv_default environ "MINIO_ENDPOINT" "http://minio:9000");
  minio_public_endpoint := rstrip_char "/" (getenv_default environ "MINIO_PUBLIC_ENDPOINT" EmptyString);
  minio_access_key := getenv_default environ "MINIO_ACCESS_KEY" EmptyString;
  minio_secret_key := getenv_default environ "MINIO_SECRET_KEY" EmptyString;
  minio_bucket := getenv_default environ "MINIO_BUCKET" "renovation";
  admin_email := getenv_default environ "ADMIN_EMAIL" "jon@local";
  admin_password := getenv_default environ "ADMIN_PASSWORD" "vampire12";
  admin_name := getenv_default environ "ADMIN_NAME" "Jon";
  admin_update := String.eqb (getenv_default environ "ADMIN_UPDATE" "0") "1";
|}.

End Config.

(** ** app/models.py: the rows of the six tables *)
Module Models.
Import Dec.

Record date := Date { year : Z; month : Z; day : Z }.

(** Instants ([datetime]) are integers. *)
Definition datetime : Type := Z.

(** A user row: the columns that [class User] declares, the timestamps
    apart. The primary key is absent on a row the application built without
    one. *)
Record User := {
  u_id : option string;
  u_email : string;
  u_password_hash : string;
  u_active_project_id : option string;
}.

(** The attributes that [class User] declares. *)
Definition user_attributes : list string :=
  ["id"; "email"; "password_hash"; "active_project_id"; "created_at"; "updated_at"].

(** The constructor that the declarative base gives a mapped class:
    [for k in kwargs: if not hasattr(cls_, k): raise TypeError(...)], the
    keywords being taken in the order of the call. *)
Definition declarative_constructor (cls : string) (attributes : list string)
    (kwargs : list (string * string)) : result (list (string * string)) :=
  match List.find (fun kv => negb (existsb (String.eqb (fst kv)) attributes)) kwargs with
  | Some (k, _) =>
      Raise (Exn TypeError ("'" +:+ k +:+ "' is an invalid keyword argument for " +:+ cls))
  | None => Ok kwargs
  end.

(** The value given for the keyword [k], if any. *)
Definition kwarg (k : string) (kwargs : list (string * string)) : option string :=
  snd <$> List.find (fun kv => String.eqb (fst kv) k) kwargs.

(** [User(...)] called with keywords: the row built from the keywords that the constructor
    accepts; an attribute that is not given is absent (empty, for the two
    columns that a row cannot lack). *)
Definition new_user (kwargs : list (string * string)) : result User :=
  match declarative_constructor "User" user_attributes kwargs with
  | Ok given =>
      Ok {| u_id := kwarg "id" given;
            u_email := default EmptyString (kwarg "email" given);
            u_password_hash := default EmptyString (kwarg "password_hash" given);
            u_active_project_id := kwarg "active_project_id" given |}
  | Raise e => Raise e
  end.

Record Project := {
  p_id : string;
  p_name : string;
  p_description : option string;
  p_currency : string;
  p_is_archived : bool;
  p_created_at : datetime;
  p_updated_at : datetime;
}.

Record Room := {
  r_id : string;
  r_project_id : string;
  r_name : string;
  r_floor : option string;
  r_status : option string;
  r_created_at : datetime;
  r_updated_at : datetime;
}.

Record Task := {
  t_id : string;
  t_project_id : string;
  t_room_id : option string;
  t_title : string;
  t_description : option string;
  t_due_date : option date;
  t_priority : Z;
  t_status : option string;
  t_created_at : datetime;
  t_updated_at : datetime;
  t_completed_at : option datetime;
}.

Record Expense := {
  e_id : string;
  e_project_id : string;
  e_room_id : option string;
  e_task_id : option string;
  e_purchase_date : date;
  e_gross_amount : decimal;
  e_description : string;
  e_vat_rate : option decimal;
  e_vat_amount : option decimal;
  e_net_amount : option decimal;
  e_payment_method : option string;
  e_vendor : option string;
  e_notes : option string;
  e_is_refund : bool;
  e_created_at : datetime;
  e_updated_at : datetime;
}.

Record Document := {
  d_id : string;
  d_project_id : string;
  d_room_id : option string;
  d_expense_id : option string;
  d_doc_type : string;
  d_photo_group : option string;
  d_title : option string;
  d_notes : option string;
  d_tags : option string;
  d_original_filename : option string;
  d_content_type : option string;
  d_size_bytes : option Z;
  d_s3_key : string;
  d_created_at : datetime;
  d_updated_at : datetime;
}.

(** The tables. Rows with an application-made key are keyed by it; the
    [document_tasks] rows are keyed by (document id, task id) and hold [created_at]. *)
Record DB := {
  users : list User;
  projects : gmap string Project;
  rooms : gmap string Room;
  tasks : gmap string Task;
  expenses : gmap string Expense;
  documents : gmap string Document;
  document_tasks : gmap (string * string) datetime;
}.

Definition with_users (f : list User -> list User) (db : DB) : DB :=
  {| users := f (users db); projects := projects db; rooms := rooms db; tasks := tasks db;
     expenses := expenses db; documents := documents db; document_tasks := document_tasks db |}.
Definition with_projects (f : gmap string Project -> gmap string Project) (db : DB) : DB :=
  {| users := users db; projects := f (projects db); rooms := rooms db; tasks := tasks db;
     expenses := expenses db; documents := documents db; document_tasks := document_tasks db |}.
Definition with_rooms (f : gmap string Room -> gmap string Room) (db : DB) : DB :=
  {| users := users db; projects := projects db; rooms := f (rooms db); tasks := tasks db;
     expenses := expenses db; documents := documents db; document_tasks := document_tasks db |}.
Definition with_tasks (f : gmap string Task -> gmap string Task) (db : DB) : DB :=
  {| users := users db; projects := projects db; rooms := rooms db; tasks := f (tasks db);
     expenses := expenses db; documents := documents db; document_tasks := document_tasks db |}.
Definition with_expenses (f : gmap string Expense -> gmap string Expense) (db : DB) : DB :=
  {| users := users db; projects := projects db; rooms := rooms db; tasks := tasks db;
     expenses := f (expenses db); documents := documents db; document_tasks := document_tasks db |}.
Definition with_documents (f : gmap string Document -> gmap string Document) (db : DB) : DB :=
  {| users := users db; projects := projects db; rooms := rooms db; tasks := tasks db;
     expenses := expenses db; documents := f (documents db); document_tasks := document_tasks db |}.
Definition with_document_tasks
    (f : gmap (string * string) datetime -> gmap (string * string) datetime) (db : DB) : DB :=
  {| users := users db; projects := projects db; rooms := rooms db; tasks := tasks db;
     expenses := expenses db; documents := documents db; document_tasks := f (document_tasks db) |}.

Definition empty_db : DB :=
  {| users := []; projects := ∅; rooms := ∅; tasks := ∅; expenses := ∅; documents := ∅;
     document_tasks := ∅ |}.

End Models.

(** ** The world a request runs in: process environment, settings, database
    session, object store, log, and the sources of time, randomness and
    commit failures *)
Module Runtime.
Import Py Config Models.

(** What the environment decides: the readings of the clock, the random
    strings ([uuid4], salts), and whether the n-th commit fails. *)
Record Oracle := {
  clock : nat -> datetime;
  rand : nat -> string;
  commit_fault : nat -> option exn;
}.

Record S3Object := { o_body : string; o_content_type : option string }.

Record World := {
  environ : gmap string string;
  settings : Settings;
  oracle : Oracle;
  n_clock : nat;
  n_rand : nat;
  n_commit : nat;
  stored : DB;          (* committed rows *)
  work : DB;            (* the session's view: committed rows and pending changes *)
  s3 : gmap string (gmap string S3Object);   (* bucket -> key -> object *)
  log : list (string * exn);
}.

Definition set_work (f : DB -> DB) (w : World) : World :=
  {| environ := environ w; settings := settings w; oracle := oracle w;
     n_clock := n_clock w; n_rand := n_rand w; n_commit := n_commit w;
     stored := stored w; work := f (work w); s3 := s3 w; log := log w |}.
Definition set_stored (db : DB) (w : World) : World :=
  {| environ := environ w; settings := settings w; oracle := oracle w;
     n_clock := n_clock w; n_rand := n_rand w; n_commit := n_commit w;
     stored := db; work := work w; s3 := s3 w; log := log w |}.
Definition set_s3 (f : gmap string (gmap string S3Object) -> gmap string (gmap string S3Object))
    (w : World) : World :=
  {| environ := environ w; settings := settings w; oracle := oracle w;
     n_clock := n_clock w; n_rand := n_rand w; n_commit := n_commit w;
     stored := stored w; work := work w; s3 := f (s3 w); log := log w |}.
Definition add_log (entry : string * exn) (w : World) : World :=
  {| environ := environ w; settings := settings w; oracle := oracle w;
     n_clock := n_clock w; n_rand := n_rand w; n_commit := n_commit w;
     stored := stored w; work := work w; s3 := s3 w; log := log w ++ [entry] |}.
Definition tick_clock (w : World) : World :=
  {| environ := environ w; settings := settings w; oracle := oracle w;
     n_clock := S (n_clock w); n_rand := n_rand w; n_commit := n_commit w;
     stored := stored w; work := work w; s3 := s3 w; log := log w |}.
Definition tick_rand (w : World) : World :=
  {| environ := environ w; settings := settings w; oracle := oracle w;
     n_clock := n_clock w; n_rand := S (n_rand w); n_commit := n_commit w;
     stored := stored w; work := work w; s3 := s3 w; log := log w |}.
Definition tick_commit (w : World) : World :=
  {| environ := environ w; settings := settings w; oracle := oracle w;
     n_clock := n_clock w; n_rand := n_rand w; n_commit := S (n_commit w);
     stored := stored w; work := work w; s3 := s3 w; log := log w |}.

(** Computations that read and change the world and may raise. *)
Definition M (A : Type) : Type := World -> result A * World.

Definition ret {A} (a : A) : M A := fun w => (Ok a, w).
Definition bind {A B} (m : M A) (k : A -> M B) : M B :=
  fun w => match m w with
           | (Ok a, w') => k a w'
           | (Raise e, w') => (Raise e, w')
           end.
Definition raise {A} (e : exn) : M A := fun w => (Raise e, w).
Definition lift {A} (r : result A) : M A := fun w => (r, w).
Definition gets {A} (f : World -> A) : M A := fun w => (Ok (f w), w).
Definition modify (f : World -> World) : M unit := fun w => (Ok tt, f w).

(** [try: m except Exception as ex: h ex] *)
Definition try_except {A} (m : M A) (h : exn -> M A) : M A :=
  fun w => match m w with
           | (Raise e, w') => h e w'
           | r => r
           end.

Declare Scope py_scope.
Delimit Scope py_scope with py.
Notation "'do' x <- c1 ; c2" := (bind c1 (fun x => c2))
  (at level 10, x name, c1 at level 100, c2 at level 200) : py_scope.
Notation "'do' ' p <- c1 ; c2" := (bind c1 (fun x => match x with p => c2 end))
  (at level 10, p pattern, c1 at level 100, c2 at level 200) : py_scope.
Notation "'run' c1 ; c2" := (bind c1 (fun _ => c2))
  (at level 10, c1 at level 100, c2 at level 200) : py_scope.
Local Open Scope py_scope.

(** [for x in l: body x] *)
Fixpoint for_each {A} (l : list A) (body : A -> M unit) : M unit :=
  match l with
  | [] => ret tt
  | x :: rest => run body x; for_each rest body
  end.

(** [utcnow()] reads the clock. *)
Definition utcnow : M datetime :=
  fun w => (Ok (clock (oracle w) (n_clock w)), tick_clock w).

(** [str(uuid4())] *)
Definition uuid4 : M string :=
  fun w => (Ok (rand (oracle w) (n_rand w)), tick_rand w).

(** [db.commit()]: the pending changes become the committed rows, unless the
    database raises. *)
Definition commit : M unit :=
  fun w => match commit_fault (oracle w) (n_commit w) with
           | Some e => (Raise e, tick_commit w)
           | None => (Ok tt, set_stored (work w) (tick_commit w))
           end.

(** [db.rollback()]: the pending changes are dropped. *)
Definition rollback : M unit := fun w => (Ok tt, set_work (fun _ => stored w) w).

(** [_log_exception(prefix, ex)] *)
Definition _log_exception (prefix : string) (ex : exn) : M unit :=
  modify (add_log (prefix, ex)).

(** A client of the object store as [boto3.client] builds it. *)
Record Client := {
  endpoint_url : string;
  aws_access_key_id : string;
  aws_secret_access_key : string;
  region_name : string;
}.

(** Library functions whose results the application only passes on:
    the salted password hash behind [hash_password] (app/security.py),
    the signer behind [generate_presigned_url], [date.fromisoformat],
    and [strftime] with the format [%Y-%m]. *)
Class Externals := {
  password_hash : string -> string -> string;
  presign : Client -> string -> string -> Z -> string;
  date_fromisoformat : string -> result date;
  strftime_ym : datetime -> string;
}.

End Runtime.

(** ** app/storage.py *)
Module Storage.
Import Py Config Models Runtime.
Local Open Scope py_scope.

Section WithExternals.
Context {X : Externals}.

Definition s3_enabled : M bool :=
  do st <- gets settings;
  ret (truthy (minio_endpoint st) && truthy (minio_access_key st)
       && truthy (minio_secret_key st) && truthy (minio_bucket st)).

Definition _client (endpoint : string) : M Client :=
  do st <- gets settings;
  do env <- gets environ;
  ret {| endpoint_url := rstrip_char "/" endpoint;
         aws_access_key_id := minio_access_key st;
         aws_secret_access_key := minio_secret_key st;
         region_name := getenv_default env "AWS_REGION" "us-east-1" |}.

Definition get_s3_internal : M Client :=
  do st <- gets settings; _client (minio_endpoint st).

Definition get_s3_public_for_signing : M Client :=
  do st <- gets settings;
  _client (if truthy (minio_public_endpoint st) then minio_public_endpoint st
           else minio_endpoint st).

(** *** The store behind a client *)

Definition client_error {A} (code : string) : M A := raise (Exn ClientError code).

Definition head_bucket (c : Client) (bucket : string) : M unit :=
  do store <- gets s3;
  match store !! bucket with
  | Some _ => ret tt
  | None => client_error "404"
  end.

Definition create_bucket (c : Client) (bucket : string) : M unit :=
  do store <- gets s3;
  match store !! bucket with
  | Some _ => client_error "BucketAlreadyOwnedByYou"
  | None => modify (set_s3 (insert bucket ∅))
  end.

Definition put_object (c : Client) (bucket key body : string) (content_type : option string)
  : M unit :=
  do store <- gets s3;
  match store !! bucket with
  | Some objs =>
      modify (set_s3 (insert bucket
        (<[ key := {| o_body := body; o_content_type := content_type |} ]> objs)))
  | None => client_error "NoSuchBucket"
  end.

Definition client_delete_object (c : Client) (bucket key : string) : M unit :=
  do store <- gets s3;
  match store !! bucket with
  | Some objs => modify (set_s3 (insert bucket (delete key objs)))
  | None => client_error "NoSuchBucket"
  end.

Definition generate_presigned_url (c : Client) (bucket key : string) (expires_in : Z)
  : M string :=
  ret (presign c bucket key expires_in).

(** *** The functions of the module *)

Definition ensure_bucket_exists : M unit :=
  do enabled <- s3_enabled;
  if negb enabled then ret tt else
  do s3c <- get_s3_internal;
  do st <- gets settings;
  let bucket := minio_bucket st in
  fun w =>
    match head_bucket s3c bucket w with
    | (Raise e, w') =>
        if decide (exn_cls e = ClientError) then create_bucket s3c bucket w'
        else (Raise e, w')
    | r => r
    end.

Definition upload_bytes (key data : string) (content_type : option string) : M unit :=
  do enabled <- s3_enabled;
  if negb enabled then ret tt else
  do s3c <- get_s3_internal;
  do st <- gets settings;
  (* [if content_type:] an empty content type is left out *)
  put_object s3c (minio_bucket st) key data
    (match content_type with
     | Some ct => or_none ct
     | None => None
     end).

Definition presigned_get_url (key : string) (expires_seconds : Z) : M string :=
  do enabled <- s3_enabled;
  if negb enabled then raise (Exn RuntimeError "S3/MinIO not configured") else
  do s3c <- get_s3_public_for_signing;
  do st <- gets settings;
  generate_presigned_url s3c (minio_bucket st) key expires_seconds.

(** The names bound at module level in [storage.py], in order of binding. *)
Inductive global :=
| G_os | G_Optional | G_boto3 | G_Config | G_ClientError | G_settings
| G_s3_enabled | G__client | G_get_s3_internal | G_get_s3_public_for_signing
| G_ensure_bucket_exists | G_upload_bytes | G_presigned_get_url | G_delete_object.

Definition module_globals : list (string * global) :=
  [ ("os", G_os); ("Optional", G_Optional); ("boto3", G_boto3); ("Config", G_Config);
    ("ClientError", G_ClientError); ("settings", G_settings);
    ("s3_enabled", G_s3_enabled); ("_client", G__client);
    ("get_s3_internal", G_get_s3_internal);
    ("get_s3_public_for_signing", G_get_s3_public_for_signing);
    ("ensure_bucket_exists", G_ensure_bucket_exists); ("upload_bytes", G_upload_bytes);
    ("presigned_get_url", G_presigned_get_url); ("delete_object", G_delete_object) ].

(** Looking a name up at call time; no built-in is called [get_s3]. *)
Definition lookup_global (name : string) : M global :=
  match List.find (fun b => String.eqb (fst b) name) module_globals with
  | Some b => ret (snd b)
  | None => raise (Exn NameError ("name '" +:+ name +:+ "' is not defined"))
  end.

(** Calling a module-level name without arguments where a client is expected. *)
Definition call_for_client (g : global) : M Client :=
  match g with
  | G_get_s3_internal => get_s3_internal
  | G_get_s3_public_for_signing => get_s3_public_for_signing
  | _ => raise (Exn TypeError "not a client factory")
  end.

Definition delete_object (key : string) : M unit :=
  do enabled <- s3_enabled;
  if negb enabled then ret tt else
  do g <- lookup_global "get_s3";
  do s3c <- call_for_client g;
  do st <- gets settings;
  client_delete_object s3c (minio_bucket st) key.

End WithExternals.
End Storage.

(** ** app/seed.py *)
Module Seed.
Import Py Config Models Runtime.
Local Open Scope py_scope.

Section WithExternals.
Context {X : Externals}.

(** [hash_password(p)]: a fresh salt, then the hash. *)
Definition hash_password (p : string) : M string :=
  do salt <- uuid4; ret (password_hash salt p).

(** [db.query(User).filter(User.email == email).first()], with the position of the row. *)
Definition first_user_by_email (email : string) (db : DB) : option (nat * User) :=
  list_find (fun u => u_email u = email) (users db).

Definition desired_email (env : gmap string string) : string :=
  lower (strip (or_else (getenv env "ADMIN_EMAIL") "admin@local")).
Definition desired_password (env : gmap string string) : string :=
  or_else (getenv env "ADMIN_PASSWORD") "admin".
Definition desired_name (env : gmap string string) : string :=
  or_else (getenv env "ADMIN_NAME") "Admin".
Definition do_update (env : gmap string string) : bool :=
  String.eqb (strip (or_else (getenv env "ADMIN_UPDATE") "0")) "1".

Definition ensure_admin_user : M unit :=
  do env <- gets environ;
  do user <- gets (fun w => first_user_by_email (desired_email env) (work w));
  do default_user <- gets (fun w => first_user_by_email "admin@local" (work w));
  match user, default_user with
  | None, None =>
      (* Fresh install *)
      do h <- hash_password (desired_password env);
      do user <- lift (new_user [("email", desired_email env); ("password_hash", h);
                                 ("display_name", desired_name env)]);
      run modify (set_work (with_users (fun us => us ++ [user])));
      commit
  | None, Some (i, du) =>
      if do_update env then
        (* [default_user.display_name = desired_name] sets an attribute that is
           no column of the table: the row is not changed by it *)
        do h <- hash_password (desired_password env);
        let du' := {| u_id := u_id du; u_email := desired_email env; u_password_hash := h;
                      u_active_project_id := u_active_project_id du |} in
        run modify (set_work (with_users (fun us => <[ i := du' ]> us)));
        commit
      else ret tt
  | Some (i, u), _ =>
      if do_update env then
        (* [user.display_name = desired_name]: as above *)
        do h <- hash_password (desired_password env);
        let u' := {| u_id := u_id u; u_email := u_email u; u_password_hash := h;
                     u_active_project_id := u_active_project_id u |} in
        run modify (set_work (with_users (fun us => <[ i := u' ]> us)));
        commit
      else ret tt
  end.

End WithExternals.
End Seed.

(** ** app/auth.py *)
Module Auth.
Import Py Models Runtime.
Local Open Scope py_scope.

(** The signed session cookie holds one entry, [user_id]. *)
Record Request := { session_user_id : option string }.

(** [db.get(User, user_id)], with the position of the row. *)
Definition get_user (user_id : string) (db : DB) : option (nat * User) :=
  list_find (fun u => u_id u = Some user_id) (users db).

Definition get_current_user (request : Request) : M (option (nat * User)) :=
  match session_user_id request with
  | None => ret None
  | Some user_id =>
      if negb (truthy user_id) then ret None
      else gets (fun w => get_user user_id (work w))
  end.

End Auth.

(** ** app/main.py *)
Module Main.
Import Py Dec Config Models Runtime Auth.
Local Open Scope py_scope.

Inductive Response :=
| RedirectResponse (url : string) (status_code : Z)
| PlainTextResponse (body : string) (status_code : Z).

Definition _redirect (url : string) : Response := RedirectResponse url 303.

(** [_clean_str(v)] is [(v or "").strip()]. *)
Definition _clean_str (v : option string) : string := strip (or_else v EmptyString).

(** [needle in hay] *)
Fixpoint contains (needle hay : string) : bool :=
  match strip_prefix needle hay with
  | Some _ => true
  | None =>
      match hay with
      | EmptyString => false
      | String _ hay' => contains needle hay'
      end
  end.

Definition _is_unique_violation (ex : exn) : bool :=
  let msg := lower (exn_msg ex) in
  contains "duplicate key value violates unique constraint" msg
  || (contains "unique" msg && contains "violat" msg).

(** [x in (a, b, ...)] for strings *)
Definition in_tuple (x : string) (l : list string) : bool := existsb (String.eqb x) l.

Definition _require_user_and_project (request : Request) : M User :=
  do user <- get_current_user request;
  match user with
  | None => raise (Exn RuntimeError "AUTH_REQUIRED_REDIRECT:/login")
  | Some (_, user) =>
      match u_active_project_id user with
      | None => raise (Exn RuntimeError "AUTH_REQUIRED_REDIRECT:/projects")
      | Some a =>
          if negb (truthy a) then raise (Exn RuntimeError "AUTH_REQUIRED_REDIRECT:/projects")
          else ret user
      end
  end.

(** The value of [user.active_project_id] where the guard above has passed. *)
Definition active_id (user : User) : string := default EmptyString (u_active_project_id user).

(** [row.project_id != user.active_project_id] *)
Definition not_owned (project_id : string) (user : User) : bool :=
  negb (bool_decide (Some project_id = u_active_project_id user)).

(** The part of [msg] after the first colon: [msg.split(":", 1)[1]]. *)
Fixpoint after_colon (msg : string) : string :=
  match msg with
  | EmptyString => EmptyString
  | String c rest => if Ascii.eqb c ":" then rest else after_colon rest
  end.

(** The application's handler for [RuntimeError]. *)
Definition runtime_redirect_handler (ex : exn) : Response :=
  let msg := exn_msg ex in
  match strip_prefix "AUTH_REQUIRED_REDIRECT:" msg with
  | Some _ => _redirect (after_colon msg)
  | None => PlainTextResponse msg 500
  end.

(** A route as the application serves it: a [RuntimeError] leaving the
    handler is turned into a response, any other error leaves the application. *)
Definition serve (handler : M Response) : M Response :=
  try_except handler (fun ex =>
    if decide (exn_cls ex = RuntimeError) then ret (runtime_redirect_handler ex)
    else raise ex).

Definition _norm_doc_type (v : string) : string :=
  let v := or_else (Some (lower (_clean_str (Some v)))) "receipt" in
  if negb (in_tuple v ["receipt"; "photo"; "warranty"; "paperwork"; "recipe"])
  then "receipt" else v.

Definition _norm_photo_group (doc_type v : string) : option string :=
  if negb (String.eqb doc_type "photo") then None else
  let pg := or_else (Some (lower (_clean_str (Some v)))) "before" in
  if negb (in_tuple pg ["before"; "during"; "after"]) then Some "before" else Some pg.

(** One iteration of an order-preserving de-duplication loop:
    [seen] is the set of keys met so far, [out] the items kept. *)
Definition seen_step (key : string -> string) (st : gset string * list string) (p : string)
  : gset string * list string :=
  let k := key p in
  if decide (k ∈ st.1) then st else ({[ k ]} ∪ st.1, st.2 ++ [p]).

Definition _norm_tags (v : string) : option string :=
  let raw := _clean_str (Some v) in
  if negb (truthy raw) then None else
  let parts := map strip (split "," (replace ";" "," raw)) in
  let parts := List.filter truthy parts in
  match parts with
  | [] => None
  | _ =>
      let st := fold_left (seen_step lower) parts (∅, []) in
      Some (join "," st.2)
  end.

(** The [task_ids] form field: absent, one value, or a list. *)
Inductive TaskIdsField :=
| NoTaskIds
| OneTaskId (v : string)
| ManyTaskIds (vs : list string).

Definition _parse_task_ids (task_ids : TaskIdsField) : list string :=
  match task_ids with
  | NoTaskIds => []
  | _ =>
      let vals := match task_ids with
                  | ManyTaskIds vs => vs
                  | OneTaskId v => [v]
                  | NoTaskIds => []
                  end in
      let cleaned := List.filter truthy (map (fun v => _clean_str (Some v)) vals) in
      (fold_left (seen_step (fun x => x)) cleaned (∅, [])).2
  end.

(** *** The kanban board of [tasks_board] *)

(** [cols] maps a key to a list object; list objects live in a heap, so two
    keys may name the same list. *)
Record Board := {
  cols : gmap (option string) nat;
  lists : gmap nat (list Task);
}.

(** [{"todo": [], "doing": [], "blocked": [], "done": []}]: four fresh lists. *)
Definition new_board : Board := {|
  cols := <[Some "done" := 3%nat]> (<[Some "blocked" := 2%nat]>
            (<[Some "doing" := 1%nat]> (<[Some "todo" := 0%nat]> ∅)));
  lists := <[3%nat := []]> (<[2%nat := []]> (<[1%nat := []]> (<[0%nat := []]> ∅)));
|}.

(** [cols[k]] *)
Definition getitem (b : Board) (k : option string) : result nat :=
  match cols b !! k with
  | Some l => Ok l
  | None => Raise (Exn KeyError (default "None" k))
  end.

(** [cols.setdefault(k, d)] *)
Definition setdefault (b : Board) (k : option string) (d : nat) : Board * nat :=
  match cols b !! k with
  | Some l => (b, l)
  | None => ({| cols := <[k := d]> (cols b); lists := lists b |}, d)
  end.

(** [l.append(t)] on the list object [l] *)
Definition list_append (b : Board) (l : nat) (t : Task) : Board :=
  {| cols := cols b; lists := alter (fun ts => ts ++ [t]) l (lists b) |}.

(** [cols.setdefault(t.status, cols["todo"]).append(t)] *)
Definition board_step (b : Board) (t : Task) : result Board :=
  match getitem b (Some "todo") with
  | Raise e => Raise e
  | Ok d => let '(b', l) := setdefault b (t_status t) d in Ok (list_append b' l t)
  end.

Fixpoint board_loop (b : Board) (tasks : list Task) : result Board :=
  match tasks with
  | [] => Ok b
  | t :: rest =>
      match board_step b t with
      | Ok b' => board_loop b' rest
      | Raise e => Raise e
      end
  end.

(** Lines 818-820 of [tasks_board]. *)
Definition board_of (tasks : list Task) : result Board := board_loop new_board tasks.

(** The list that a key of [cols] names. *)
Definition column (b : Board) (name : option string) : option (list Task) :=
  match cols b !! name with
  | Some l => lists b !! l
  | None => None
  end.

(** *** Route handlers *)

Section Handlers.
Context {X : Externals}.

(** [db.add(row)] and attribute assignment on a loaded row: the session's
    view holds the new state of the row under its key. *)
Definition put_room (r : Room) : M unit := modify (set_work (with_rooms (insert (r_id r) r))).
Definition put_task (t : Task) : M unit := modify (set_work (with_tasks (insert (t_id t) t))).
Definition put_expense (e : Expense) : M unit :=
  modify (set_work (with_expenses (insert (e_id e) e))).
Definition put_document (d : Document) : M unit :=
  modify (set_work (with_documents (insert (d_id d) d))).
Definition put_project (p : Project) : M unit :=
  modify (set_work (with_projects (insert (p_id p) p))).

(** [user.active_project_id = pid] on the user row at position [i]. *)
Definition set_active_project (i : nat) (user : User) (pid : string) : M unit :=
  modify (set_work (with_users (fun us =>
    <[ i := {| u_id := u_id user; u_email := u_email user;
               u_password_hash := u_password_hash user;
               u_active_project_id := Some pid |} ]> us))).

(** [try: db.commit() except Exception as ex: db.rollback(); log; return redirect(err)],
    followed by [return redirect(ok)]. *)
Definition commit_or_redirect (prefix err ok : string) : M Response :=
  try_except (run commit; ret (_redirect ok))
    (fun ex => run rollback; run _log_exception prefix ex; ret (_redirect err)).

(** **** Projects *)

Definition projects_create (request : Request) (name description : string) : M Response :=
  do user <- get_current_user request;
  match user with
  | None => ret (_redirect "/login")
  | Some (i, user) =>
      do now <- utcnow;
      do id <- uuid4;
      let p := {| p_id := id; p_name := _clean_str (Some name);
                  p_description := or_none (_clean_str (Some description));
                  p_currency := "GBP"; p_is_archived := false;
                  p_created_at := now; p_updated_at := now |} in
      run put_project p;
      run commit;
      run set_active_project i user (p_id p);
      run commit;
      ret (_redirect "/dashboard")
  end.

Definition projects_set_active (project_id : string) (request : Request) : M Response :=
  do user <- get_current_user request;
  match user with
  | None => ret (_redirect "/login")
  | Some (i, user) =>
      do p <- gets (fun w => projects (work w) !! project_id);
      match p with
      | None => ret (_redirect "/projects")
      | Some p =>
          if p_is_archived p then ret (_redirect "/projects") else
          run set_active_project i user (p_id p);
          run commit;
          ret (_redirect "/dashboard")
      end
  end.

(** **** Rooms *)

Definition room_name_taken (a name : string) (excluding : option string) (db : DB) : bool :=
  bool_decide (map_Exists (fun _ r =>
    r_project_id r = a ∧ lower (r_name r) = lower name ∧ Some (r_id r) ≠ excluding) (rooms db)).

Definition rooms_create (request : Request) (name floor status : string) : M Response :=
  do user <- _require_user_and_project request;
  let room_name := _clean_str (Some name) in
  if negb (truthy room_name) then ret (_redirect "/rooms?err=missing_name") else
  do exists_ <- gets (fun w => room_name_taken (active_id user) room_name None (work w));
  if exists_ : bool then ret (_redirect "/rooms?err=duplicate") else
  do now <- utcnow;
  do id <- uuid4;
  let r := {| r_id := id; r_project_id := active_id user; r_name := room_name;
              r_floor := or_none (_clean_str (Some floor));
              r_status := or_none (_clean_str (Some status));
              r_created_at := now; r_updated_at := now |} in
  run put_room r;
  try_except (run commit; ret (_redirect "/rooms"))
    (fun ex =>
       if decide (exn_cls ex = IntegrityError) then
         run rollback;
         run _log_exception "rooms_create IntegrityError" ex;
         if _is_unique_violation ex then ret (_redirect "/rooms?err=duplicate")
         else ret (_redirect "/rooms?err=save_failed")
       else
         run rollback;
         run _log_exception "rooms_create Exception" ex;
         ret (_redirect "/rooms?err=save_failed")).

Definition rooms_update (room_id : string) (request : Request) (name floor status : string)
  : M Response :=
  do user <- _require_user_and_project request;
  do r <- gets (fun w => rooms (work w) !! room_id);
  match r with
  | None => ret (_redirect "/rooms")
  | Some r =>
      if not_owned (r_project_id r) user then ret (_redirect "/rooms") else
      let room_name := _clean_str (Some name) in
      if negb (truthy room_name) then ret (_redirect "/rooms?err=missing_name") else
      do dup <- gets (fun w =>
                  room_name_taken (active_id user) room_name (Some (r_id r)) (work w));
      if dup : bool then ret (_redirect "/rooms?err=duplicate") else
      do now <- utcnow;
      run put_room {| r_id := r_id r; r_project_id := r_project_id r; r_name := room_name;
                      r_floor := or_none (_clean_str (Some floor));
                      r_status := or_none (_clean_str (Some status));
                      r_created_at := r_created_at r; r_updated_at := now |};
      commit_or_redirect "rooms_update Exception" "/rooms?err=save_failed" "/rooms"
  end.

Definition unlink_task_room (a rid : string) (t : Task) : Task :=
  if decide (t_project_id t = a ∧ t_room_id t = Some rid) then
    {| t_id := t_id t; t_project_id := t_project_id t; t_room_id := None;
       t_title := t_title t; t_description := t_description t; t_due_date := t_due_date t;
       t_priority := t_priority t; t_status := t_status t; t_created_at := t_created_at t;
       t_updated_at := t_updated_at t; t_completed_at := t_completed_at t |}
  else t.

Definition set_expense_links (room task : option string) (e : Expense) : Expense :=
  {| e_id := e_id e; e_project_id := e_project_id e; e_room_id := room; e_task_id := task;
     e_purchase_date := e_purchase_date e; e_gross_amount := e_gross_amount e;
     e_description := e_description e; e_vat_rate := e_vat_rate e;
     e_vat_amount := e_vat_amount e; e_net_amount := e_net_amount e;
     e_payment_method := e_payment_method e; e_vendor := e_vendor e; e_notes := e_notes e;
     e_is_refund := e_is_refund e; e_created_at := e_created_at e;
     e_updated_at := e_updated_at e |}.

Definition unlink_expense_room (a rid : string) (e : Expense) : Expense :=
  if decide (e_project_id e = a ∧ e_room_id e = Some rid)
  then set_expense_links None (e_task_id e) e else e.

Definition unlink_expense_task (a tid : string) (e : Expense) : Expense :=
  if decide (e_project_id e = a ∧ e_task_id e = Some tid)
  then set_expense_links (e_room_id e) None e else e.

Definition set_document_links (room expense : option string) (d : Document) : Document :=
  {| d_id := d_id d; d_project_id := d_project_id d; d_room_id := room;
     d_expense_id := expense; d_doc_type := d_doc_type d; d_photo_group := d_photo_group d;
     d_title := d_title d; d_notes := d_notes d; d_tags := d_tags d;
     d_original_filename := d_original_filename d; d_content_type := d_content_type d;
     d_size_bytes := d_size_bytes d; d_s3_key := d_s3_key d;
     d_created_at := d_created_at d; d_updated_at := d_updated_at d |}.

Definition unlink_document_room (a rid : string) (d : Document) : Document :=
  if decide (d_project_id d = a ∧ d_room_id d = Some rid)
  then set_document_links None (d_expense_id d) d else d.

Definition unlink_document_expense (a eid : string) (d : Document) : Document :=
  if decide (d_project_id d = a ∧ d_expense_id d = Some eid)
  then set_document_links (d_room_id d) None d else d.

Definition rooms_delete (room_id : string) (request : Request) : M Response :=
  do user <- _require_user_and_project request;
  do r <- gets (fun w => rooms (work w) !! room_id);
  match r with
  | None => ret (_redirect "/rooms")
  | Some r =>
      if not_owned (r_project_id r) user then ret (_redirect "/rooms") else
      let a := active_id user in
      run modify (set_work (with_tasks (fmap (unlink_task_room a (r_id r)))));
      run modify (set_work (with_expenses (fmap (unlink_expense_room a (r_id r)))));
      run modify (set_work (with_documents (fmap (unlink_document_room a (r_id r)))));
      run modify (set_work (with_rooms (delete (r_id r))));
      commit_or_redirect "rooms_delete Exception" "/rooms?err=delete_failed" "/rooms"
  end.

(** **** Expenses *)

(** [Decimal(v) if _clean_str(v) else None] *)
Definition optional_decimal (v : string) : result (option decimal) :=
  if truthy (_clean_str (Some v)) then
    match Decimal v with
    | Ok d => Ok (Some d)
    | Raise e => Raise e
    end
  else Ok None.

(** [(gross - va) if va is not None else None] *)
Definition net_amount (gross : decimal) (va : option decimal) : result (option decimal) :=
  match va with
  | Some va =>
      match sub gross va with
      | Ok n => Ok (Some n)
      | Raise e => Raise e
      end
  | None => Ok None
  end.

Definition expenses_create (request : Request)
    (purchase_date gross_amount description room_id task_id vat_rate vat_amount
     payment_method vendor notes : string) : M Response :=
  do user <- _require_user_and_project request;
  do now <- utcnow;
  do d <- lift (date_fromisoformat purchase_date);
  do gross <- lift (Decimal gross_amount);
  do vr <- lift (optional_decimal vat_rate);
  do va <- lift (optional_decimal vat_amount);
  do net <- lift (net_amount gross va);
  do id <- uuid4;
  run put_expense
    {| e_id := id; e_project_id := active_id user;
       e_room_id := or_none (_clean_str (Some room_id));
       e_task_id := or_none (_clean_str (Some task_id));
       e_purchase_date := d; e_gross_amount := gross;
       e_description := _clean_str (Some description);
       e_vat_rate := vr; e_vat_amount := va; e_net_amount := net;
       e_payment_method := or_none (_clean_str (Some payment_method));
       e_vendor := or_none (_clean_str (Some vendor));
       e_notes := or_none (_clean_str (Some notes));
       e_is_refund := false; e_created_at := now; e_updated_at := now |};
  commit_or_redirect "expenses_create Exception" "/expenses?err=save_failed" "/expenses".

Definition expenses_update (expense_id : string) (request : Request)
    (purchase_date gross_amount description room_id task_id vat_rate vat_amount
     payment_method vendor notes : string) : M Response :=
  do user <- _require_user_and_project request;
  do e <- gets (fun w => expenses (work w) !! expense_id);
  match e with
  | None => ret (_redirect "/expenses")
  | Some e =>
      if not_owned (e_project_id e) user then ret (_redirect "/expenses") else
      try_except
        (do d <- lift (date_fromisoformat purchase_date);
         do gross <- lift (Decimal gross_amount);
         do vr <- lift (optional_decimal vat_rate);
         do va <- lift (optional_decimal vat_amount);
         do net <- lift (net_amount gross va);
         do now <- utcnow;
         run put_expense
           {| e_id := e_id e; e_project_id := e_project_id e;
              e_room_id := or_none (_clean_str (Some room_id));
              e_task_id := or_none (_clean_str (Some task_id));
              e_purchase_date := d; e_gross_amount := gross;
              e_description := _clean_str (Some description);
              e_vat_rate := vr; e_vat_amount := va; e_net_amount := net;
              e_payment_method := or_none (_clean_str (Some payment_method));
              e_vendor := or_none (_clean_str (Some vendor));
              e_notes := or_none (_clean_str (Some notes));
              e_is_refund := e_is_refund e; e_created_at := e_created_at e;
              e_updated_at := now |};
         run commit;
         ret (_redirect "/expenses"))
        (fun ex =>
           run rollback;
           run _log_exception "expenses_update Exception" ex;
           ret (_redirect "/expenses?err=save_failed"))
  end.

Definition expenses_delete (expense_id : string) (request : Request) : M Response :=
  do user <- _require_user_and_project request;
  do e <- gets (fun w => expenses (work w) !! expense_id);
  match e with
  | None => ret (_redirect "/expenses")
  | Some e =>
      if not_owned (e_project_id e) user then ret (_redirect "/expenses") else
      try_except
        (run modify (set_work (with_documents
               (fmap (unlink_document_expense (active_id user) (e_id e)))));
         run modify (set_work (with_expenses (delete (e_id e))));
         run commit;
         ret (_redirect "/expenses"))
        (fun ex =>
           run rollback;
           run _log_exception "expenses_delete Exception" ex;
           ret (_redirect "/expenses?err=delete_failed"))
  end.

(** **** Tasks *)

(** [date.fromisoformat(v) if _clean_str(v) else None] *)
Definition optional_date (v : string) : result (option date) :=
  if truthy (_clean_str (Some v)) then
    match date_fromisoformat v with
    | Ok d => Ok (Some d)
    | Raise e => Raise e
    end
  else Ok None.

Definition recognized_status (st : string) : bool :=
  in_tuple st ["todo"; "doing"; "blocked"; "done"].

Definition tasks_create (request : Request)
    (title description room_id due_date : string) (priority : Z) : M Response :=
  do user <- _require_user_and_project request;
  do dd <- lift (optional_date due_date);
  do now <- utcnow;
  do id <- uuid4;
  run put_task
    {| t_id := id; t_project_id := active_id user;
       t_room_id := or_none (_clean_str (Some room_id));
       t_title := _clean_str (Some title);
       t_description := or_none (_clean_str (Some description));
       t_due_date := dd; t_priority := priority; t_status := Some "todo";
       t_created_at := now; t_updated_at := now; t_completed_at := None |};
  commit_or_redirect "tasks_create Exception" "/tasks?err=save_failed" "/tasks".

(** The three statements that follow a recognized status [st]:
    [t.status = st];
    [if st == "done" and not t.completed_at: t.completed_at = utcnow()];
    [if st != "done": t.completed_at = None].
    A [datetime] is always true, so [not t.completed_at] holds exactly when the
    column is absent. Returns the new status and completion time. *)
Definition apply_status (st : string) (completed_at : option datetime)
  : M (option string * option datetime) :=
  do completed_at <-
    (if String.eqb st "done" && negb (bool_decide (is_Some completed_at))
     then (do now <- utcnow; ret (Some now))
     else ret completed_at);
  let completed_at := if negb (String.eqb st "done") then None else completed_at in
  ret (Some st, completed_at).

Definition tasks_move (task_id : string) (request : Request) (status : string) : M Response :=
  do user <- _require_user_and_project request;
  do t <- gets (fun w => tasks (work w) !! task_id);
  match t with
  | None => ret (_redirect "/tasks")
  | Some t =>
      if not_owned (t_project_id t) user then ret (_redirect "/tasks") else
      let status := lower (_clean_str (Some status)) in
      if negb (recognized_status status) then ret (_redirect "/tasks") else
      do '(st, completed) <- apply_status status (t_completed_at t);
      do now <- utcnow;
      run put_task
        {| t_id := t_id t; t_project_id := t_project_id t; t_room_id := t_room_id t;
           t_title := t_title t; t_description := t_description t;
           t_due_date := t_due_date t; t_priority := t_priority t; t_status := st;
           t_created_at := t_created_at t; t_updated_at := now;
           t_completed_at := completed |};
      run commit;
      ret (_redirect "/tasks")
  end.

Definition tasks_update (task_id : string) (request : Request)
    (title description room_id due_date : string) (priority : Z) (status : string)
  : M Response :=
  do user <- _require_user_and_project request;
  do t <- gets (fun w => tasks (work w) !! task_id);
  match t with
  | None => ret (_redirect "/tasks")
  | Some t =>
      if not_owned (t_project_id t) user then ret (_redirect "/tasks") else
      let title_c := _clean_str (Some title) in
      if negb (truthy title_c) then ret (_redirect "/tasks?err=missing_title") else
      do dd <- lift (optional_date due_date);
      let st := lower (_clean_str (Some status)) in
      do '(st', completed) <-
        (if recognized_status st then apply_status st (t_completed_at t)
         else ret (t_status t, t_completed_at t));
      do now <- utcnow;
      run put_task
        {| t_id := t_id t; t_project_id := t_project_id t;
           t_room_id := or_none (_clean_str (Some room_id));
           t_title := title_c;
           t_description := or_none (_clean_str (Some description));
           t_due_date := dd; t_priority := priority; t_status := st';
           t_created_at := t_created_at t; t_updated_at := now;
           t_completed_at := completed |};
      commit_or_redirect "tasks_update Exception" "/tasks?err=save_failed" "/tasks"
  end.

Definition tasks_delete (task_id : string) (request : Request) : M Response :=
  do user <- _require_user_and_project request;
  do t <- gets (fun w => tasks (work w) !! task_id);
  match t with
  | None => ret (_redirect "/tasks")
  | Some t =>
      if not_owned (t_project_id t) user then ret (_redirect "/tasks") else
      run modify (set_work (with_document_tasks
            (filter (fun kv : string * string * datetime => kv.1.2 ≠ t_id t))));
      run modify (set_work (with_expenses
            (fmap (unlink_expense_task (active_id user) (t_id t)))));
      run modify (set_work (with_tasks (delete (t_id t))));
      commit_or_redirect "tasks_delete Exception" "/tasks?err=delete_failed" "/tasks"
  end.

(** **** Documents *)

Record UploadFile := {
  filename : option string;
  content_type : option string;
  content : string;
}.

(** [db.add(DocumentTask(document_id, task_id, created_at=utcnow()))] for a
    task that exists in the active project; other ids are skipped. *)
Definition link_task (user : User) (doc_id tid : string) : M unit :=
  do t <- gets (fun w => tasks (work w) !! tid);
  match t with
  | Some t =>
      if not_owned (t_project_id t) user then ret tt else
      do now <- utcnow;
      modify (set_work (with_document_tasks (insert (doc_id, tid) now)))
  | None => ret tt
  end.

Definition documents_upload (request : Request) (file : UploadFile)
    (doc_type title notes tags room_id expense_id : string) (task_ids : TaskIdsField)
    (photo_group : string) : M Response :=
  do user <- _require_user_and_project request;
  let room_id := or_none (_clean_str (Some room_id)) in
  let expense_id := or_none (_clean_str (Some expense_id)) in
  let task_ids_list := _parse_task_ids task_ids in
  let doc_type_n := _norm_doc_type doc_type in
  let photo_group_n := _norm_photo_group doc_type_n photo_group in
  let tags_n := _norm_tags tags in
  let safe_title := or_else (Some (_clean_str (Some title))) (or_else (filename file) "document") in
  do t0 <- utcnow;
  let ym := strftime_ym t0 in
  let original := replace " " "_" (or_else (filename file) "upload") in
  do u <- uuid4;
  let key := active_id user +:+ "/" +:+ ym +:+ "/" +:+ u +:+ "_" +:+ original in
  run Storage.upload_bytes key (content file) (content_type file);
  do now <- utcnow;
  do id <- uuid4;
  let d := {| d_id := id; d_project_id := active_id user; d_room_id := room_id;
              d_expense_id := expense_id; d_doc_type := doc_type_n;
              d_photo_group := photo_group_n; d_title := Some safe_title;
              d_notes := or_none (_clean_str (Some notes)); d_tags := tags_n;
              d_original_filename := filename file; d_content_type := content_type file;
              d_size_bytes := Some (Z.of_nat (String.length (content file)));
              d_s3_key := key; d_created_at := now; d_updated_at := now |} in
  run put_document d;
  run commit;
  run for_each task_ids_list (link_task user (d_id d));
  run commit;
  ret (_redirect "/documents").

Definition documents_update (doc_id : string) (request : Request)
    (doc_type photo_group title notes tags room_id expense_id : string)
    (task_ids : TaskIdsField) : M Response :=
  do user <- _require_user_and_project request;
  do d <- gets (fun w => documents (work w) !! doc_id);
  match d with
  | None => ret (_redirect "/documents")
  | Some d =>
      if not_owned (d_project_id d) user then ret (_redirect "/documents") else
      let doc_type_n := _norm_doc_type doc_type in
      let photo_group_n := _norm_photo_group doc_type_n photo_group in
      do now <- utcnow;
      run put_document
        {| d_id := d_id d; d_project_id := d_project_id d;
           d_room_id := or_none (_clean_str (Some room_id));
           d_expense_id := or_none (_clean_str (Some expense_id));
           d_doc_type := doc_type_n; d_photo_group := photo_group_n;
           d_title := Some (or_else (Some (_clean_str (Some title)))
                              (or_else (d_original_filename d) "document"));
           d_notes := or_none (_clean_str (Some notes)); d_tags := _norm_tags tags;
           d_original_filename := d_original_filename d;
           d_content_type := d_content_type d; d_size_bytes := d_size_bytes d;
           d_s3_key := d_s3_key d; d_created_at := d_created_at d; d_updated_at := now |};
      let new_task_ids : gset string := list_to_set (_parse_task_ids task_ids) in
      do existing_ids <- gets (fun w =>
        (set_map snd (dom (filter (fun kv : string * string * datetime => kv.1.1 = d_id d)
                             (document_tasks (work w)))) : gset string));
      let to_remove := existing_ids ∖ new_task_ids in
      run (if bool_decide (to_remove ≠ ∅) then
             modify (set_work (with_document_tasks
               (filter (fun kv : string * string * datetime =>
                          ¬ (kv.1.1 = d_id d ∧ kv.1.2 ∈ to_remove)))))
           else ret tt);
      let to_add := new_task_ids ∖ existing_ids in
      run for_each (elements to_add) (link_task user (d_id d));
      run commit;
      ret (_redirect "/documents")
  end.

Definition documents_delete (doc_id : string) (request : Request) : M Response :=
  do user <- _require_user_and_project request;
  do d <- gets (fun w => documents (work w) !! doc_id);
  match d with
  | None => ret (_redirect "/documents")
  | Some d =>
      if not_owned (d_project_id d) user then ret (_redirect "/documents") else
      run modify (set_work (with_documents (delete (d_id d))));
      run commit;
      ret (_redirect "/documents")
  end.

Definition documents_download (doc_id : string) (request : Request) : M Response :=
  do user <- _require_user_and_project request;
  do d <- gets (fun w => documents (work w) !! doc_id);
  match d with
  | None => ret (_redirect "/documents")
  | Some d =>
      if not_owned (d_project_id d) user then ret (_redirect "/documents") else
      do url <- Storage.presigned_get_url (d_s3_key d) 3600;
      ret (RedirectResponse url 302)
  end.

End Handlers.
End Main.

(** ** Reference definitions worded after the specification *)
Module Spec.
Import Py.

(** A tag separator: a comma or a semicolon. *)
Definition is_tag_separator (c : ascii) : bool := Ascii.eqb c "," || Ascii.eqb c ";".

(** Splitting at every character that satisfies [sep]. *)
Fixpoint split_where (sep : ascii -> bool) (s : string) : list string :=
  match s with
  | EmptyString => [EmptyString]
  | String c s' =>
      if sep c then EmptyString :: split_where sep s'
      else match split_where sep s' with
           | h :: t => String c h :: t
           | [] => [String c EmptyString]
           end
  end.

(** Same tag up to case. *)
Definition same_tag (a b : string) : bool := String.eqb (lower a) (lower b).

(** Keeps a token exactly when no token before it ([earlier], kept or not)
    is the same up to case. *)
Fixpoint keep_first_seen (earlier toks : list string) : list string :=
  match toks with
  | [] => []
  | t :: rest =>
      if existsb (same_tag t) earlier then keep_first_seen (earlier ++ [t]) rest
      else t :: keep_first_seen (earlier ++ [t]) rest
  end.

(** Split on commas and semicolons, trim each token, drop empty tokens,
    de-duplicate without regard to case keeping the first casing and the
    order, rejoin with commas; absent if no tokens remain. *)
Definition norm_tags_spec (v : string) : option string :=
  let toks := List.filter truthy (map strip (split_where is_tag_separator v)) in
  match toks with
  | [] => None
  | _ => Some (join "," (keep_first_seen [] toks))
  end.

(** The column of the board a status belongs to: its own when it is one of
    the four recognized values, "todo" otherwise. *)
Definition column_of (status : option string) : string :=
  match status with
  | Some st => if Main.recognized_status st then st else "todo"
  | None => "todo"
  end.

(** The list object of the board a status ends up in. *)
Definition slot (k : option string) : nat :=
  let c := column_of k in
  if String.eqb c "doing" then 1
  else if String.eqb c "blocked" then 2
  else if String.eqb c "done" then 3
  else 0.

(** What holds of the board once the tasks [seen] have been placed: the four
    keys name their own lists, every other key names the "todo" list, and each
    list holds, in order, the tasks that belong to it. *)
Record board_inv (b : Main.Board) (seen : list Models.Task) : Prop := {
  inv_four : forall st,
    Main.recognized_status st = true -> Main.cols b !! Some st = Some (slot (Some st));
  inv_alias : forall k l, Main.cols b !! k = Some l -> l = slot k;
  inv_lists : forall i, (i < 4)%nat ->
    Main.lists b !! i
    = Some (List.filter (fun t => Nat.eqb (slot (Models.t_status t)) i) seen);
}.

(** The user rows that carry a given email. *)
Definition user_rows (email : string) (db : Models.DB) : list Models.User :=
  List.filter (fun u => String.eqb (Models.u_email u) email) (Models.users db).

(** [n] is the exact difference of [g] and [v]: all three are finite and,
    counted in units of the finest of the three exponents, [n = g - v]. *)
Definition exact_difference (g v n : Dec.decimal) : Prop :=
  match g, v, n with
  | Dec.Fin sg cg eg, Dec.Fin sv cv ev, Dec.Fin sn cn en =>
      let e := Z.min eg (Z.min ev en) in
      (Dec.signed sn cn * 10 ^ (en - e)
       = Dec.signed sg cg * 10 ^ (eg - e) - Dec.signed sv cv * 10 ^ (ev - e))%Z
  | _, _, _ => False
  end.

(** [g] and [v] are finite and their exact difference fits the context:
    at most 28 digits at the smaller exponent, which lies within the bounds. *)
Definition within_context (g v : Dec.decimal) : Prop :=
  match g, v with
  | Dec.Fin sg cg eg, Dec.Fin sv cv ev =>
      let e := Z.min eg ev in
      (Dec.Etiny <= e <= Dec.Etop
       /\ Z.abs (Dec.signed sg cg * 10 ^ (eg - e) - Dec.signed sv cv * 10 ^ (ev - e))
          < 10 ^ Dec.prec)%Z
  | _, _ => False
  end.

(** The request comes from an authenticated user whose active project is [a]. *)
Definition signed_in (request : Auth.Request) (w : Runtime.World) (user : Models.User)
    (a : string) : Prop :=
  exists uid i,
    Auth.session_user_id request = Some uid
    /\ truthy uid = true
    /\ Auth.get_user uid (Runtime.work w) = Some (i, user)
    /\ Models.u_active_project_id user = Some a
    /\ truthy a = true.

(** The completion time of a task after a move to the status [st]: into
    "done" the time already set is kept, or the current time [now] is taken
    when none is set; any other status clears it. *)
Definition completed_after (st : string) (before : option Models.datetime)
    (now : Models.datetime) : option Models.datetime :=
  if String.eqb st "done" then Some (default now before) else None.

End Spec.

(** ** A concrete environment for running the code *)
Module Sample.
Import Py Dec Config Models Runtime.
Local Open Scope Z_scope.

(** [YYYY-MM-DD] with a month in 1..12 and a day in 1..31. *)
Definition iso_date (v : string) : result date :=
  let bad := Raise (Exn ValueError "Invalid isoformat string") in
  let '(y, ny, r1) := take_digits v 0 0 in
  match r1 with
  | String c1 r1' =>
      let '(m, nm, r2) := take_digits r1' 0 0 in
      match r2 with
      | String c2 r2' =>
          let '(d, nd, r3) := take_digits r2' 0 0 in
          if Ascii.eqb c1 "-" && Ascii.eqb c2 "-" && (ny =? 4)%Z && (nm =? 2)%Z && (nd =? 2)%Z
             && negb (truthy r3)
             && (1 <=? m)%N && (m <=? 12)%N && (1 <=? d)%N && (d <=? 31)%N
          then Ok (Date (Z.of_N y) (Z.of_N m) (Z.of_N d))
          else bad
      | EmptyString => bad
      end
  | EmptyString => bad
  end.

#[export] Instance externals : Externals := {|
  password_hash := fun salt p => "$" +:+ salt +:+ "$" +:+ p;
  presign := fun c bucket key _ => endpoint_url c +:+ "/" +:+ bucket +:+ "/" +:+ key;
  date_fromisoformat := iso_date;
  strftime_ym := fun _ => "2024-03";
|}.

(** A clock that advances by one at each reading, distinct random strings,
    and a database that accepts every commit. *)
Definition calm : Oracle := {|
  clock := fun n => 1000 + Z.of_nat n;
  rand := fun n => "id-" +:+ String (ascii_of_nat (97 + n)%nat) EmptyString;
  commit_fault := fun _ => None;
|}.

(** The same, with a database that rejects the next commit. *)
Definition failing (ex : exn) : Oracle := {|
  clock := clock calm;
  rand := rand calm;
  commit_fault := fun n => match n with O => Some ex | S _ => None end;
|}.

(** A process started with the given environment, on the given committed rows. *)
Definition boot (env : gmap string string) (o : Oracle) (db : DB) : World := {|
  environ := env; settings := load env; oracle := o;
  n_clock := 0%nat; n_rand := 0%nat; n_commit := 0%nat;
  stored := db; work := db; s3 := ∅; log := [];
|}.

(** One signed-in user with the active project "A", and a database that
    holds one room, task, expense and document of the project [p]. *)
Definition alice : User :=
  {| u_id := Some "u1"; u_email := "alice@local"; u_password_hash := "h";
     u_active_project_id := Some "A" |}.

Definition alice_request : Auth.Request := {| Auth.session_user_id := Some "u1" |}.

Definition room_of (p : string) : Room :=
  {| r_id := "r1"; r_project_id := p; r_name := "Kitchen"; r_floor := None;
     r_status := None; r_created_at := 10; r_updated_at := 10 |}.

Definition task_of (p : string) (status : string) (completed_at : option datetime) : Task :=
  {| t_id := "t1"; t_project_id := p; t_room_id := Some "r1"; t_title := "Plaster";
     t_description := None; t_due_date := None; t_priority := 3; t_status := Some status;
     t_created_at := 20; t_updated_at := 20; t_completed_at := completed_at |}.

Definition expense_of (p : string) : Expense :=
  {| e_id := "e1"; e_project_id := p; e_room_id := Some "r1"; e_task_id := Some "t1";
     e_purchase_date := Date 2024 3 1; e_gross_amount := Fin false 12000 (-2);
     e_description := "Plaster"; e_vat_rate := None; e_vat_amount := None;
     e_net_amount := None; e_payment_method := None; e_vendor := None; e_notes := None;
     e_is_refund := false; e_created_at := 30; e_updated_at := 30 |}.

Definition document_of (p : string) : Document :=
  {| d_id := "d1"; d_project_id := p; d_room_id := Some "r1"; d_expense_id := Some "e1";
     d_doc_type := "receipt"; d_photo_group := None; d_title := Some "Receipt";
     d_notes := None; d_tags := None; d_original_filename := Some "receipt.pdf";
     d_content_type := Some "application/pdf"; d_size_bytes := Some 5;
     d_s3_key := "B/2024-03/x_receipt.pdf"; d_created_at := 40; d_updated_at := 40 |}.

Definition house (p : string) (t : Task) : DB :=
  {| users := [alice]; projects := ∅;
     rooms := <["r1" := room_of p]> ∅;
     tasks := <["t1" := t]> ∅;
     expenses := <["e1" := expense_of p]> ∅;
     documents := <["d1" := document_of p]> ∅;
     document_tasks := <[("d1", "t1") := 40%Z]> ∅ |}.

End Sample.

(** ** app/auth.py: the session entry *)
Module Session.
Import Py Models Runtime Auth.

(** [request.session["user_id"] = user.id] *)
Definition login_user (request : Request) (user : User) : Request :=
  {| session_user_id := u_id user |}.

(** [request.session.pop("user_id", None)] *)
Definition logout_user (request : Request) : Request :=
  {| session_user_id := None |}.

End Session.

(** ** app/main.py: login, logout, the second document route and the
    groupings built for the listing pages *)
Module Pages.
Import Py Models Runtime Auth Main Session.
Local Open Scope py_scope.

(** The login page rendered with an optional error message. *)
Record LoginPage := { page_error : option string; page_status : Z }.

Section Login.
(** [verify_password] of [app/security.py], which is not among the sources. *)
Variable verify_password : string -> string -> bool.

(** [login_post]: the session after the request, and the login page again
    or a redirect. *)
Definition login_post (request : Request) (email password : string)
  : M (Request * (LoginPage + Response)) :=
  do user <- gets (fun w => Seed.first_user_by_email (strip (lower email)) (work w));
  match user with
  | None =>
      ret (request, inl {| page_error := Some "Invalid credentials."; page_status := 401 |})
  | Some (_, user) =>
      if negb (verify_password password (u_password_hash user)) then
        ret (request, inl {| page_error := Some "Invalid credentials."; page_status := 401 |})
      else ret (login_user request user, inr (_redirect "/dashboard"))
  end.

End Login.

Definition logout_post (request : Request) : Request * Response :=
  (logout_user request, _redirect "/login").

(** [documents_preview] has the body of [documents_download]. *)
Definition documents_preview `{Externals} (doc_id : string) (request : Request) : M Response :=
  do user <- _require_user_and_project request;
  do d <- gets (fun w => documents (work w) !! doc_id);
  match d with
  | None => ret (_redirect "/documents")
  | Some d =>
      if not_owned (d_project_id d) user then ret (_redirect "/documents") else
      do url <- Storage.presigned_get_url (d_s3_key d) 3600;
      ret (RedirectResponse url 302)
  end.

(** [m.setdefault(k, []).append(v)]: every key gets a list of its own. *)
Definition group_append {V} (m : gmap string (list V)) (k : string) (v : V)
  : gmap string (list V) :=
  <[ k := default [] (m !! k) ++ [v] ]> m.

(** The loop of [expenses_list] over the rows (document id, expense id, title):
    rows without an expense id are skipped, a missing title reads "Document". *)
Definition docs_by_expense (doc_rows : list (string * option string * option string))
  : gmap string (list (string * string)) :=
  fold_left
    (fun m row =>
       let '(doc_id, exp_id, title) := row in
       match exp_id with
       | Some e => if truthy e then group_append m e (doc_id, or_else title "Document") else m
       | None => m
       end)
    doc_rows ∅.

(** The loop of [documents] over the link rows (document id, task id). *)
Definition doc_task_map (dt_rows : list (string * string)) : gmap string (list string) :=
  fold_left (fun m row => group_append m row.1 row.2) dt_rows ∅.

End Pages.

(** ** Further notions used in the statements *)
Module Notions.
Import Py Models Runtime Auth Main Spec.

(** No character of [s] satisfies [p]. *)
Fixpoint free_of (p : ascii -> bool) (s : string) : bool :=
  match s with
  | EmptyString => true
  | String c s' => negb (p c) && free_of p s'
  end.

(** Every row of the tables is stored under its own key. *)
Definition keyed (db : DB) : Prop :=
  (forall id r, rooms db !! id = Some r -> r_id r = id)
  /\ (forall id t, tasks db !! id = Some t -> t_id t = id)
  /\ (forall id e, expenses db !! id = Some e -> e_id e = id)
  /\ (forall id d, documents db !! id = Some d -> d_id d = id).

(** The task ids linked to the document [doc] . *)
Definition links_of (doc : string) (db : DB) : gset string :=
  set_map snd (dom (filter (fun kv : string * string * datetime => kv.1.1 = doc)
                      (document_tasks db))).

(** The task [tid] exists in the project [a]: the test of [documents_upload]
    and [documents_update] before a link is added. *)
Definition linkable (a : string) (db : DB) (tid : string) : bool :=
  match tasks db !! tid with
  | Some t => bool_decide (t_project_id t = a)
  | None => false
  end.

(** [w'] differs from [w] at most in the pending links between documents and
    tasks and in the number of clock readings. *)
Definition same_but_links (w w' : World) : Prop :=
  environ w' = environ w /\ settings w' = settings w /\ oracle w' = oracle w
  /\ n_rand w' = n_rand w /\ n_commit w' = n_commit w /\ stored w' = stored w
  /\ s3 w' = s3 w /\ log w' = log w
  /\ work w' = with_document_tasks (fun _ => document_tasks (work w')) (work w).

(** The world [w] with the Configuration values [st]. *)
Definition with_settings (st : Config.Settings) (w : World) : World :=
  {| environ := environ w; settings := st; oracle := oracle w;
     n_clock := n_clock w; n_rand := n_rand w; n_commit := n_commit w;
     stored := stored w; work := work w; s3 := s3 w; log := log w |}.

(** The computation [m] leaves the object store as it finds it. *)
Definition keeps_objects {A} (m : M A) : Prop :=
  forall w, s3 (snd (m w)) = s3 w.

End Notions.

(** * Properties *)

Import Py Dec Config Models Runtime Auth Main Spec Sample Session Pages Notions.
Local Open Scope py_scope.

(** ** Strings *)

Lemma truthy_false (s : string) : truthy s = false -> s = EmptyString.
Proof. destruct s; [reflexivity | discriminate]. Qed.

Lemma split_where_nonempty (sep : ascii -> bool) (s : string) : split_where sep s <> [].
Proof.
  destruct s as [| c s]; simpl; [discriminate |].
  destruct (sep c); [discriminate |].
  destruct (split_where sep s); discriminate.
Qed.

Lemma split_replace_semicolon (s : string) :
  split "," (replace ";" "," s) = split_where is_tag_separator s.
Proof.
  induction s as [| c s IH]; simpl; [reflexivity |].
  unfold is_tag_separator.
  destruct (Ascii.eqb c ";") eqn:Hsemi.
  - rewrite orb_true_r. simpl. now rewrite IH.
  - rewrite orb_false_r. destruct (Ascii.eqb c ","); now rewrite IH.
Qed.

Lemma lstrip_rstrip (s : string) : rstrip (lstrip s) = lstrip (rstrip s).
Proof.
  induction s as [| c s IH]; simpl; [reflexivity |].
  destruct (isspace c) eqn:Hc; simpl.
  - rewrite IH. destruct (truthy (rstrip s)) eqn:Ht; simpl.
    + now rewrite Hc.
    + now rewrite (truthy_false _ Ht).
  - now rewrite Hc.
Qed.

Lemma strip_cons_space (c : ascii) (s : string) :
  isspace c = true -> strip (String c s) = strip s.
Proof. intros Hc. unfold strip. simpl. now rewrite Hc. Qed.

Section SplitStrip.
Variable sep : ascii -> bool.
Hypothesis sep_not_space : forall c, sep c = true -> isspace c = false.

Lemma split_lstrip (s : string) :
  map strip (split_where sep (lstrip s)) = map strip (split_where sep s).
Proof.
  induction s as [| c s IH]; simpl; [reflexivity |].
  destruct (isspace c) eqn:Hc; [| reflexivity].
  destruct (sep c) eqn:Hs; [apply sep_not_space in Hs; congruence |].
  rewrite IH.
  destruct (split_where sep s) as [| h t] eqn:Hsp;
    [ now apply split_where_nonempty in Hsp |].
  simpl. now rewrite strip_cons_space.
Qed.

Lemma split_rstrip_r (s : string) :
  map rstrip (split_where sep (rstrip s)) = map rstrip (split_where sep s).
Proof.
  induction s as [| c s IH]; simpl; [reflexivity |].
  destruct (isspace c && negb (truthy (rstrip s))) eqn:Hcond.
  - apply andb_true_iff in Hcond as [Hc Ht].
    apply negb_true_iff, truthy_false in Ht.
    destruct (sep c) eqn:Hs; [apply sep_not_space in Hs; congruence |].
    rewrite Ht in IH. simpl in IH.
    destruct (split_where sep s) as [| h t] eqn:Hsp;
      [ now apply split_where_nonempty in Hsp |].
    simpl in *. injection IH as Hh Htl.
    destruct t; [| discriminate].
    simpl. rewrite <- Hh, Hc. reflexivity.
  - simpl. destruct (sep c) eqn:Hs.
    + simpl. now rewrite IH.
    + destruct (split_where sep (rstrip s)) as [| h1 t1] eqn:H1;
        [ now apply split_where_nonempty in H1 |].
      destruct (split_where sep s) as [| h2 t2] eqn:H2;
        [ now apply split_where_nonempty in H2 |].
      simpl in *. injection IH as Hh Htl.
      now rewrite Hh, Htl.
Qed.

Lemma split_strip (s : string) :
  map strip (split_where sep (strip s)) = map strip (split_where sep s).
Proof.
  unfold strip at 2. rewrite lstrip_rstrip.
  rewrite split_lstrip.
  transitivity (map lstrip (map rstrip (split_where sep (rstrip s)))).
  - rewrite map_map. apply map_ext. intros x. apply lstrip_rstrip.
  - rewrite split_rstrip_r, map_map. apply map_ext. intros x.
    symmetry. apply lstrip_rstrip.
Qed.

End SplitStrip.

Lemma tag_separator_not_space (c : ascii) : is_tag_separator c = true -> isspace c = false.
Proof.
  unfold is_tag_separator. intros H.
  apply orb_true_iff in H as [H | H]; apply Ascii.eqb_eq in H; subst; reflexivity.
Qed.

(** ** Tag normalization *)

Lemma existsb_same_tag (t : string) (earlier : list string) :
  existsb (same_tag t) earlier = true <-> exists e, In e earlier /\ lower e = lower t.
Proof.
  rewrite existsb_exists. unfold same_tag.
  split; intros (e & Hin & He); exists e; split; auto.
  - apply String.eqb_eq in He. congruence.
  - apply String.eqb_eq. congruence.
Qed.

(** The loop of [_norm_tags] keeps exactly the first-seen tokens, given that
    [seen] holds the keys of the tokens met so far. *)
Lemma seen_loop_keep_first_seen (parts earlier out : list string) (seen : gset string) :
  (forall k, k ∈ seen <-> exists e, In e earlier /\ lower e = k) ->
  (fold_left (seen_step lower) parts (seen, out)).2 = out ++ keep_first_seen earlier parts.
Proof.
  revert earlier out seen.
  induction parts as [| p parts IH]; intros earlier out seen Hseen; simpl.
  - now rewrite app_nil_r.
  - unfold seen_step at 2. simpl.
    destruct (decide (lower p ∈ seen)) as [Hin | Hnin].
    + assert (existsb (same_tag p) earlier = true) as ->
        by (apply existsb_same_tag, Hseen, Hin).
      apply IH. intros k. rewrite Hseen. split.
      * intros (e & He & Hk). exists e. split; [apply in_or_app; now left | exact Hk].
      * intros (e & He & Hk). apply in_app_or in He as [He | [<- | []]].
        -- now exists e.
        -- subst k. now apply Hseen.
    + assert (existsb (same_tag p) earlier = false) as ->.
      { apply not_true_is_false. intros H. apply Hnin, Hseen, existsb_same_tag, H. }
      rewrite (IH (earlier ++ [p]) (out ++ [p]) ({[lower p]} ∪ seen)).
      * now rewrite <- app_assoc.
      * intros k. rewrite elem_of_union, elem_of_singleton, Hseen. split.
        -- intros [-> | (e & He & Hk)].
           ++ exists p. split; [apply in_or_app; right; now left | reflexivity].
           ++ exists e. split; [apply in_or_app; now left | exact Hk].
        -- intros (e & He & Hk). apply in_app_or in He as [He | [<- | []]].
           ++ right. now exists e.
           ++ now left.
Qed.

Lemma norm_tags_parts (v : string) :
  List.filter truthy (map strip (split "," (replace ";" "," (_clean_str (Some v)))))
  = List.filter truthy (map strip (split_where is_tag_separator v)).
Proof.
  rewrite split_replace_semicolon. unfold _clean_str, or_else.
  destruct (truthy v) eqn:Hv.
  - now rewrite (split_strip _ tag_separator_not_space).
  - now rewrite (truthy_false _ Hv).
Qed.

(** C6. For every raw tag input, [_norm_tags] splits on commas and semicolons,
    trims each token, drops empty tokens, removes duplicates without regard to
    case keeping the first-seen casing and the order, and rejoins with commas,
    giving nothing when no token remains; the input
    [" Kitchen, plaster ;Kitchen, invoice "] gives ["Kitchen,plaster,invoice"]. *)
Theorem norm_tags_refines_spec :
  (forall v : string, _norm_tags v = norm_tags_spec v)
  /\ _norm_tags " Kitchen, plaster ;Kitchen, invoice " = Some "Kitchen,plaster,invoice".
Proof.
  split; [| vm_compute; reflexivity].
  intros v. unfold _norm_tags, norm_tags_spec.
  destruct (truthy (_clean_str (Some v))) eqn:Hraw; simpl.
  - rewrite norm_tags_parts.
    destruct (List.filter truthy (map strip (split_where is_tag_separator v))) as [| t ts];
      [reflexivity |].
    f_equal. f_equal.
    rewrite (seen_loop_keep_first_seen (t :: ts) [] [] ∅); [reflexivity |].
    intros k. split; [intros H; now apply not_elem_of_empty in H | intros (e & [] & _)].
  - pose proof (norm_tags_parts v) as Hparts.
    rewrite (truthy_false _ Hraw) in Hparts. simpl in Hparts.
    now rewrite <- Hparts.
Qed.

(** ** The kanban board *)

Lemma recognized_status_cases (st : string) :
  recognized_status st = true ->
  st = "todo" \/ st = "doing" \/ st = "blocked" \/ st = "done".
Proof.
  unfold recognized_status, in_tuple. simpl. rewrite !orb_true_iff, !String.eqb_eq.
  intros [H | [H | [H | [H | H]]]]; auto; discriminate.
Qed.

Lemma slot_lt (k : option string) : (slot k < 4)%nat.
Proof.
  unfold slot. repeat match goal with |- context [if ?c then _ else _] => destruct c end; lia.
Qed.

Lemma slot_unrecognized (k : option string) :
  (forall st, recognized_status st = true -> k <> Some st) -> slot k = 0%nat.
Proof.
  intros Hk. unfold slot, column_of. destruct k as [st |]; [| reflexivity].
  destruct (recognized_status st) eqn:Hr; [| reflexivity].
  now destruct (Hk st Hr).
Qed.

Lemma new_board_inv : board_inv new_board [].
Proof.
  split.
  - intros st Hst.
    destruct (recognized_status_cases st Hst) as [-> | [-> | [-> | ->]]];
      vm_compute; reflexivity.
  - intros k l. unfold new_board. simpl.
    rewrite !lookup_insert.
    repeat case_decide; subst; rewrite ?lookup_empty; intros [= <-]; reflexivity.
  - intros i Hi. unfold new_board. simpl.
    do 4 (destruct i as [| i]; [reflexivity |]). lia.
Qed.

Lemma board_step_inv (b : Board) (seen : list Task) (t : Task) :
  board_inv b seen ->
  exists b', board_step b t = Ok b' /\ board_inv b' (seen ++ [t]).
Proof.
  intros [Hfour Halias Hlists].
  unfold board_step, getitem.
  rewrite (Hfour "todo" eq_refl).
  change (slot (Some "todo")) with 0%nat.
  assert (exists b1, setdefault b (t_status t) 0%nat = (b1, slot (t_status t))
                     /\ lists b1 = lists b
                     /\ (forall st, recognized_status st = true ->
                           cols b1 !! Some st = Some (slot (Some st)))
                     /\ (forall k l, cols b1 !! k = Some l -> l = slot k))
    as (b1 & -> & Hl1 & Hfour1 & Halias1).
  { unfold setdefault. destruct (cols b !! t_status t) as [l |] eqn:Hk.
    - exists b. rewrite (Halias _ _ Hk). auto.
    - assert (slot (t_status t) = 0%nat) as Hslot.
      { apply slot_unrecognized. intros st Hst Heq.
        rewrite Heq, (Hfour st Hst) in Hk. discriminate. }
      eexists. rewrite Hslot. split; [reflexivity |]. simpl.
      split; [reflexivity |]. split.
      + intros st Hst. rewrite lookup_insert_ne; [now apply Hfour |].
        intros Heq. rewrite Heq, (Hfour st Hst) in Hk. discriminate.
      + intros k l. rewrite lookup_insert. case_decide.
        * subst k. intros [= <-]. now rewrite Hslot.
        * apply Halias. }
  eexists. split; [reflexivity |].
  split; simpl; auto.
  intros i Hi. rewrite Hl1, lookup_alter, List.filter_app. simpl.
  case_decide as Hsl.
  - subst i. rewrite (Hlists _ Hi). simpl. now rewrite Nat.eqb_refl.
  - rewrite (Hlists _ Hi). apply Nat.eqb_neq in Hsl. rewrite Hsl.
    simpl. now rewrite app_nil_r.
Qed.

Lemma board_loop_inv (rest : list Task) (b : Board) (seen : list Task) :
  board_inv b seen ->
  exists b', board_loop b rest = Ok b' /\ board_inv b' (seen ++ rest).
Proof.
  revert b seen. induction rest as [| t rest IH]; intros b seen Hinv; simpl.
  - exists b. now rewrite app_nil_r.
  - destruct (board_step_inv b seen t Hinv) as (b1 & -> & Hinv1).
    destruct (IH b1 (seen ++ [t]) Hinv1) as (b' & Hloop & Hinv').
    exists b'. split; [exact Hloop |]. now rewrite <- app_assoc in Hinv'.
Qed.

Lemma slot_column_of (k : option string) (name : string) :
  recognized_status name = true ->
  Nat.eqb (slot k) (slot (Some name)) = String.eqb (column_of k) name.
Proof.
  intros Hname.
  assert (recognized_status (column_of k) = true) as Hc.
  { unfold column_of. destruct k as [st |]; [| reflexivity].
    destruct (recognized_status st) eqn:Hr; [exact Hr | reflexivity]. }
  assert (slot k = slot (Some (column_of k))) as ->.
  { assert (column_of (Some (column_of k)) = column_of k) as Hcc.
    { change (column_of (Some (column_of k)))
        with (if recognized_status (column_of k) then column_of k else "todo").
      now rewrite Hc. }
    unfold slot. now rewrite Hcc. }
  destruct (recognized_status_cases _ Hc) as [-> | [-> | [-> | ->]]];
    destruct (recognized_status_cases _ Hname) as [-> | [-> | [-> | ->]]];
    reflexivity.
Qed.

(** C7. The bucketing of the board is total: for every list of task rows the
    loop ends without error; each of the four columns holds, in order, exactly
    the tasks whose status is that column, and the "todo" column also holds
    every task whose status is none of the four. No task is dropped. *)
Theorem board_bucketing_total (tasks : list Task) :
  exists b, board_of tasks = Ok b
    /\ (forall name, recognized_status name = true ->
          column b (Some name)
          = Some (List.filter (fun t => String.eqb (column_of (t_status t)) name) tasks))
    /\ (forall t, In t tasks ->
          exists ts, column b (Some (column_of (t_status t))) = Some ts /\ In t ts).
Proof.
  destruct (board_loop_inv tasks new_board [] new_board_inv) as (b & Hb & [Hfour Halias Hlists]).
  simpl in *.
  assert (forall name, recognized_status name = true ->
          column b (Some name)
          = Some (List.filter (fun t => String.eqb (column_of (t_status t)) name) tasks))
    as Hcol.
  { intros name Hname. unfold column. rewrite (Hfour name Hname), (Hlists _ (slot_lt _)).
    f_equal. apply List.filter_ext. intros t. now apply slot_column_of. }
  exists b. split; [exact Hb |]. split; [exact Hcol |].
  intros t Hin.
  assert (recognized_status (column_of (t_status t)) = true) as Hc.
  { unfold column_of. destruct (t_status t) as [st |]; [| reflexivity].
    destruct (recognized_status st) eqn:Hr; [exact Hr | reflexivity]. }
  eexists. split; [apply Hcol, Hc |].
  apply List.filter_In. split; [exact Hin | apply String.eqb_refl].
Qed.

(** ** Object storage *)

Lemma s3_enabled_eq `{Externals} (w : World) :
  Storage.s3_enabled w
  = (Ok (truthy (minio_endpoint (settings w)) && truthy (minio_access_key (settings w))
         && truthy (minio_secret_key (settings w)) && truthy (minio_bucket (settings w))), w).
Proof. reflexivity. Qed.

Lemma s3_disabled `{Externals} (w : World) :
  minio_endpoint (settings w) = EmptyString \/ minio_access_key (settings w) = EmptyString
  \/ minio_secret_key (settings w) = EmptyString \/ minio_bucket (settings w) = EmptyString ->
  Storage.s3_enabled w = (Ok false, w).
Proof.
  intros Hcfg. rewrite s3_enabled_eq. f_equal. f_equal.
  destruct Hcfg as [-> | [-> | [-> | ->]]]; simpl;
    rewrite ?andb_false_r; reflexivity.
Qed.

(** C9. When the object-storage configuration is incomplete (the endpoint, the
    access key, the secret key or the bucket name is empty), asking for a
    presigned URL raises the configuration error for every key, while
    [upload_bytes] and [ensure_bucket_exists] return without raising and leave
    everything as it was. *)
Theorem unconfigured_storage `{Externals} (w : World) (key data : string)
    (ctype : option string) (expires_seconds : Z) :
  minio_endpoint (settings w) = EmptyString \/ minio_access_key (settings w) = EmptyString
  \/ minio_secret_key (settings w) = EmptyString \/ minio_bucket (settings w) = EmptyString ->
  Storage.presigned_get_url key expires_seconds w
    = (Raise (Exn RuntimeError "S3/MinIO not configured"), w)
  /\ Storage.upload_bytes key data ctype w = (Ok tt, w)
  /\ Storage.ensure_bucket_exists w = (Ok tt, w).
Proof.
  intros Hcfg. apply s3_disabled in Hcfg.
  unfold Storage.presigned_get_url, Storage.upload_bytes, Storage.ensure_bucket_exists, bind.
  rewrite Hcfg. simpl. auto.
Qed.

Lemma unconfigured_storage_witness :
  let w := Sample.boot (<["MINIO_BUCKET" := EmptyString]> (∅ : gmap string string))
             Sample.calm empty_db in
  minio_bucket (settings w) = EmptyString
  /\ Storage.presigned_get_url "a/2024-03/x_receipt.pdf" 3600 w
      = (Raise (Exn RuntimeError "S3/MinIO not configured"), w)
  /\ Storage.upload_bytes "a/2024-03/x_receipt.pdf" "bytes" (Some "application/pdf") w = (Ok tt, w)
  /\ Storage.ensure_bucket_exists w = (Ok tt, w).
Proof.
  intros w. split; [reflexivity |].
  apply (unconfigured_storage w "a/2024-03/x_receipt.pdf" "bytes" (Some "application/pdf") 3600).
  right. right. right. reflexivity.
Defined.

(** C10. [delete_object] can never delete an object: when object storage is
    not configured it returns without effect, and when it is configured the
    name [get_s3], bound nowhere in the module, raises [NameError] before any
    client exists; the object store is the same afterwards in both cases. *)
Theorem delete_object_never_deletes `{Externals} (w : World) (key : string) :
  exists enabled : bool,
    Storage.s3_enabled w = (Ok enabled, w)
    /\ Storage.delete_object key w
       = (if enabled then Raise (Exn NameError "name 'get_s3' is not defined") else Ok tt, w)
    /\ s3 (snd (Storage.delete_object key w)) = s3 w.
Proof.
  eexists. split; [apply s3_enabled_eq |].
  unfold Storage.delete_object, bind. rewrite s3_enabled_eq.
  destruct (truthy (minio_endpoint (settings w)) && truthy (minio_access_key (settings w))
            && truthy (minio_secret_key (settings w)) && truthy (minio_bucket (settings w)));
    simpl; auto.
Qed.

(** ** Admin bootstrap *)

Lemma first_user_none_rows (email : string) (db : DB) :
  Seed.first_user_by_email email db = None -> user_rows email db = [].
Proof.
  unfold Seed.first_user_by_email, user_rows. intros Hnone.
  induction (users db) as [| u us IH]; [reflexivity |].
  simpl in *. destruct (decide (u_email u = email)) as [Heq | Hne]; [discriminate |].
  apply String.eqb_neq in Hne. rewrite Hne. apply IH.
  destruct (list_find _ us); [discriminate | reflexivity].
Qed.

Lemma first_user_some_rows (email : string) (db : DB) (i : nat) (u : User) :
  Seed.first_user_by_email email db = Some (i, u) -> user_rows email db <> [].
Proof.
  unfold Seed.first_user_by_email, user_rows. intros Hsome.
  apply list_find_Some in Hsome as (Hi & Hu & _).
  apply list_elem_of_lookup_2, list_elem_of_In in Hi.
  intros Hnil.
  assert (In u (List.filter (fun u => String.eqb (u_email u) email) (users db))) as Hin
    by (apply List.filter_In; split; [exact Hi | now apply String.eqb_eq]).
  rewrite Hnil in Hin. destruct Hin.
Qed.

Lemma first_user_app_new (email : string) (us : list User) (u : User) :
  list_find (fun x => u_email x = email) us = None ->
  u_email u = email ->
  list_find (fun x => u_email x = email) (us ++ [u]) = Some (length us, u).
Proof.
  intros Hnone Hu. induction us as [| x us IH]; simpl in *.
  - rewrite decide_True by exact Hu. reflexivity.
  - destruct (decide (u_email x = email)); [discriminate |].
    destruct (list_find _ us) eqn:Hf; [discriminate |].
    rewrite IH by reflexivity. reflexivity.
Qed.

(** C1 as stated fails: started with no [ADMIN_*] variable on an empty
    database, the Configuration identity is "jon@local" with "vampire12",
    the bootstrap works with "admin@local", and no user "jon@local" is there
    after it. *)
Lemma bootstrap_default_identity_counterexample :
  let w := Sample.boot ∅ Sample.calm empty_db in
  let w' := snd (Seed.ensure_admin_user w) in
  admin_email (settings w) = "jon@local"
  /\ admin_password (settings w) = "vampire12"
  /\ Seed.desired_email (environ w) = "admin@local"
  /\ ~ (exists u, In u (users (stored w')) /\ u_email u = "jon@local").
Proof.
  vm_compute. split; [reflexivity |]. split; [reflexivity |]. split; [reflexivity |].
  intros (u & [] & _).
Qed.

(** C1, amended. With none of the [ADMIN_*] variables set, the identity the
    bootstrap works with is the email "admin@local", the password "admin" and
    the name "Admin", with no update requested: its inputs are read from the
    process environment with its own fall-backs. The Configuration values
    play no part in what it returns and does, and a user "admin@local" that is
    there is found and left as it is. *)
Theorem bootstrap_inputs `{Externals} (w : World) :
  environ w !! "ADMIN_EMAIL" = None ->
  environ w !! "ADMIN_PASSWORD" = None ->
  environ w !! "ADMIN_NAME" = None ->
  environ w !! "ADMIN_UPDATE" = None ->
  (Seed.desired_email (environ w) = "admin@local"
   /\ Seed.desired_password (environ w) = "admin"
   /\ Seed.desired_name (environ w) = "Admin"
   /\ Seed.do_update (environ w) = false)
  /\ (forall st,
        Seed.ensure_admin_user (with_settings st w)
        = (fst (Seed.ensure_admin_user w), with_settings st (snd (Seed.ensure_admin_user w))))
  /\ (forall i u,
        Seed.first_user_by_email "admin@local" (work w) = Some (i, u) ->
        Seed.ensure_admin_user w = (Ok tt, w)).
Proof.
  intros He Hp Hn Hu.
  assert (Seed.desired_email (environ w) = "admin@local"
          /\ Seed.desired_password (environ w) = "admin"
          /\ Seed.desired_name (environ w) = "Admin"
          /\ Seed.do_update (environ w) = false) as Hinputs.
  { unfold Seed.desired_email, Seed.desired_password, Seed.desired_name, Seed.do_update,
      getenv. rewrite He, Hp, Hn, Hu. repeat split. }
  split; [exact Hinputs |]. destruct Hinputs as (Hemail & _ & _ & Hupd). split.
  - intros st. unfold Seed.ensure_admin_user, bind, gets. simpl.
    rewrite Hupd, Hemail.
    destruct (Seed.first_user_by_email "admin@local" (work w)) as [[i u] |];
      [reflexivity |].
    unfold Seed.hash_password, bind, uuid4, lift, ret. reflexivity.
  - intros i u Hfound. unfold Seed.ensure_admin_user, bind, gets. simpl.
    now rewrite Hemail, Hfound, Hupd.
Qed.

Lemma bootstrap_inputs_witness :
  let admin := {| u_id := Some "1"; u_email := "admin@local"; u_password_hash := "h";
                  u_active_project_id := None |} in
  let w := Sample.boot ∅ Sample.calm (with_users (fun _ => [admin]) empty_db) in
  Seed.desired_email (environ w) = "admin@local"
  /\ Seed.desired_password (environ w) = "admin"
  /\ Seed.desired_name (environ w) = "Admin"
  /\ Seed.ensure_admin_user w = (Ok tt, w).
Proof.
  intros admin w.
  destruct (bootstrap_inputs w) as ((Hemail & Hpassword & Hname & _) & _ & Hleft);
    [reflexivity | reflexivity | reflexivity | reflexivity |].
  split; [exact Hemail |]. split; [exact Hpassword |]. split; [exact Hname |].
  apply (Hleft 0%nat admin). reflexivity.
Defined.

(** C2 as stated fails: with only the "admin@local" row in the database, the
    configured email "bob@local" and no [ADMIN_UPDATE], two runs in a row
    leave no row for the configured email. *)
Lemma bootstrap_twice_counterexample :
  let admin := {| u_id := Some "1"; u_email := "admin@local"; u_password_hash := "h";
                  u_active_project_id := None |} in
  let w := Sample.boot (<["ADMIN_EMAIL" := "bob@local"]> (∅ : gmap string string)) Sample.calm
             (with_users (fun _ => [admin]) empty_db) in
  let w2 := snd (Seed.ensure_admin_user (snd (Seed.ensure_admin_user w))) in
  Seed.do_update (environ w) = false
  /\ Seed.desired_email (environ w) = "bob@local"
  /\ user_rows "bob@local" (stored w2) = [].
Proof. vm_compute. auto. Qed.

(** C2, amended. With [ADMIN_UPDATE] unset, on a database that holds a row
    for the configured email or the "admin@local" row, a run of the bootstrap
    returns and changes nothing, and so does a second run with the same
    configuration. Exactly one row carries the configured email afterwards if
    the database (where emails are unique) held a row for it, and none if it
    did not. *)
Theorem bootstrap_idempotent `{Externals} (w : World) :
  Seed.do_update (environ w) = false ->
  work w = stored w ->
  Seed.first_user_by_email (Seed.desired_email (environ w)) (stored w) <> None
  \/ Seed.first_user_by_email "admin@local" (stored w) <> None ->
  exists w1,
    Seed.ensure_admin_user w = (Ok tt, w1)
    /\ Seed.ensure_admin_user w1 = (Ok tt, w1)
    /\ stored w1 = stored w
    /\ (length (user_rows (Seed.desired_email (environ w)) (stored w)) <= 1 ->
        Seed.first_user_by_email (Seed.desired_email (environ w)) (stored w) <> None ->
        length (user_rows (Seed.desired_email (environ w)) (stored w1)) = 1)
    /\ (Seed.first_user_by_email (Seed.desired_email (environ w)) (stored w) = None ->
        user_rows (Seed.desired_email (environ w)) (stored w1) = []).
Proof.
  intros Hupd Hsess Hrows. rewrite <- Hsess in *.
  assert (Seed.ensure_admin_user w = (Ok tt, w)) as Hrun.
  { unfold Seed.ensure_admin_user, bind, gets. simpl.
    destruct (Seed.first_user_by_email (Seed.desired_email (environ w)) (work w))
      as [[i u] |]; [now rewrite Hupd |].
    destruct (Seed.first_user_by_email "admin@local" (work w)) as [[j du] |];
      [now rewrite Hupd |].
    destruct Hrows as [Hrow | Hrow]; now destruct Hrow. }
  exists w. split; [exact Hrun |]. split; [exact Hrun |]. split; [now symmetry |].
  rewrite <- Hsess. split.
  - intros Huniq Hfound.
    destruct (Seed.first_user_by_email (Seed.desired_email (environ w)) (work w))
      as [[i u] |] eqn:Huser; [| now destruct Hfound].
    pose proof (first_user_some_rows _ _ _ _ Huser) as Hne.
    destruct (user_rows (Seed.desired_email (environ w)) (work w)) as [| x [| y l]];
      simpl in *; [congruence | reflexivity | lia].
  - apply first_user_none_rows.
Qed.

Lemma bootstrap_idempotent_witness :
  let admin := {| u_id := Some "1"; u_email := "admin@local"; u_password_hash := "h";
                  u_active_project_id := None |} in
  let w := Sample.boot ∅ Sample.calm (with_users (fun _ => [admin]) empty_db) in
  exists w1,
    Seed.ensure_admin_user w = (Ok tt, w1)
    /\ Seed.ensure_admin_user w1 = (Ok tt, w1)
    /\ length (user_rows "admin@local" (stored w1)) = 1.
Proof.
  intros admin w.
  destruct (bootstrap_idempotent w) as (w1 & Hrun1 & Hrun2 & _ & Hone & _);
    [reflexivity | reflexivity | left; discriminate |].
  exists w1. split; [exact Hrun1 |]. split; [exact Hrun2 |].
  apply Hone; [vm_compute; lia | discriminate].
Defined.

(** ** Route handlers *)

Lemma require_signed_in (request : Request) (w : World) (user : User) (a : string) :
  signed_in request w user a ->
  _require_user_and_project request w = (Ok user, w).
Proof.
  intros (uid & i & Hsess & Huid & Huser & Hact & Ha).
  unfold _require_user_and_project, get_current_user, bind, gets.
  rewrite Hsess, Huid. simpl. rewrite Huser, Hact, Ha. reflexivity.
Qed.

Lemma not_owned_other (user : User) (a pid : string) :
  u_active_project_id user = Some a -> pid <> a -> not_owned pid user = true.
Proof.
  intros Hact Hne. unfold not_owned. rewrite Hact.
  apply negb_true_iff, bool_decide_eq_false. congruence.
Qed.

Lemma not_owned_same (user : User) (a : string) :
  u_active_project_id user = Some a -> not_owned a user = false.
Proof.
  intros Hact. unfold not_owned. rewrite Hact.
  apply negb_false_iff, bool_decide_eq_true. reflexivity.
Qed.

(** The guard that opens every update and delete handler: a row that is
    missing and a row of another project end the request in the same way. *)
Ltac guard_redirect Hreq Hrow Hown :=
  unfold bind, gets; rewrite Hreq; simpl; rewrite Hrow; simpl;
  rewrite ?Hown; reflexivity.

(** C3. For an authenticated user whose active project is [a], a POST update or
    delete (and a task move) aimed at a room, task, expense or document of
    another project gives exactly what the same request gives for an id that
    does not exist: the redirect to the listing page of the entity, with the
    database, the session and the log left as they were. *)
Theorem cross_project_isolation `{Externals} (w : World) (request : Request) (user : User)
    (a : string) (rid tid eid did missing : string)
    (r : Room) (t : Task) (e : Expense) (d : Document) :
  signed_in request w user a ->
  rooms (work w) !! rid = Some r -> r_project_id r <> a ->
  tasks (work w) !! tid = Some t -> t_project_id t <> a ->
  expenses (work w) !! eid = Some e -> e_project_id e <> a ->
  documents (work w) !! did = Some d -> d_project_id d <> a ->
  rooms (work w) !! missing = None -> tasks (work w) !! missing = None ->
  expenses (work w) !! missing = None -> documents (work w) !! missing = None ->
  (forall name floor status,
      rooms_update rid request name floor status w = (Ok (_redirect "/rooms"), w)
      /\ rooms_update missing request name floor status w = (Ok (_redirect "/rooms"), w))
  /\ (rooms_delete rid request w = (Ok (_redirect "/rooms"), w)
      /\ rooms_delete missing request w = (Ok (_redirect "/rooms"), w))
  /\ (forall title description room_id due_date priority status,
      tasks_update tid request title description room_id due_date priority status w
        = (Ok (_redirect "/tasks"), w)
      /\ tasks_update missing request title description room_id due_date priority status w
        = (Ok (_redirect "/tasks"), w))
  /\ (forall status,
      tasks_move tid request status w = (Ok (_redirect "/tasks"), w)
      /\ tasks_move missing request status w = (Ok (_redirect "/tasks"), w))
  /\ (tasks_delete tid request w = (Ok (_redirect "/tasks"), w)
      /\ tasks_delete missing request w = (Ok (_redirect "/tasks"), w))
  /\ (forall purchase_date gross_amount description room_id task_id vat_rate vat_amount
             payment_method vendor notes,
      expenses_update eid request purchase_date gross_amount description room_id task_id
        vat_rate vat_amount payment_method vendor notes w = (Ok (_redirect "/expenses"), w)
      /\ expenses_update missing request purchase_date gross_amount description room_id
        task_id vat_rate vat_amount payment_method vendor notes w
        = (Ok (_redirect "/expenses"), w))
  /\ (expenses_delete eid request w = (Ok (_redirect "/expenses"), w)
      /\ expenses_delete missing request w = (Ok (_redirect "/expenses"), w))
  /\ (forall doc_type photo_group title notes tags room_id expense_id task_ids,
      documents_update did request doc_type photo_group title notes tags room_id expense_id
        task_ids w = (Ok (_redirect "/documents"), w)
      /\ documents_update missing request doc_type photo_group title notes tags room_id
        expense_id task_ids w = (Ok (_redirect "/documents"), w))
  /\ (documents_delete did request w = (Ok (_redirect "/documents"), w)
      /\ documents_delete missing request w = (Ok (_redirect "/documents"), w)).
Proof.
  intros Hin Hr Hrp Ht Htp He Hep Hd Hdp Hnr Hnt Hne Hnd.
  pose proof (require_signed_in _ _ _ _ Hin) as Hreq.
  destruct Hin as (uid & i & _ & _ & _ & Hact & _).
  pose proof (not_owned_other _ _ _ Hact Hrp) as Hro.
  pose proof (not_owned_other _ _ _ Hact Htp) as Hto.
  pose proof (not_owned_other _ _ _ Hact Hep) as Heo.
  pose proof (not_owned_other _ _ _ Hact Hdp) as Hdo.
  repeat split; intros.
  - unfold rooms_update. guard_redirect Hreq Hr Hro.
  - unfold rooms_update. guard_redirect Hreq Hnr Hro.
  - unfold rooms_delete. guard_redirect Hreq Hr Hro.
  - unfold rooms_delete. guard_redirect Hreq Hnr Hro.
  - unfold tasks_update. guard_redirect Hreq Ht Hto.
  - unfold tasks_update. guard_redirect Hreq Hnt Hto.
  - unfold tasks_move. guard_redirect Hreq Ht Hto.
  - unfold tasks_move. guard_redirect Hreq Hnt Hto.
  - unfold tasks_delete. guard_redirect Hreq Ht Hto.
  - unfold tasks_delete. guard_redirect Hreq Hnt Hto.
  - unfold expenses_update. guard_redirect Hreq He Heo.
  - unfold expenses_update. guard_redirect Hreq Hne Heo.
  - unfold expenses_delete. guard_redirect Hreq He Heo.
  - unfold expenses_delete. guard_redirect Hreq Hne Heo.
  - unfold documents_update. guard_redirect Hreq Hd Hdo.
  - unfold documents_update. guard_redirect Hreq Hnd Hdo.
  - unfold documents_delete. guard_redirect Hreq Hd Hdo.
  - unfold documents_delete. guard_redirect Hreq Hnd Hdo.
Qed.

Lemma cross_project_isolation_witness :
  let w := Sample.boot ∅ Sample.calm (Sample.house "B" (Sample.task_of "B" "todo" None)) in
  rooms_update "r1" Sample.alice_request "Hall" "" "" w = rooms_update "nope" Sample.alice_request "Hall" "" "" w
  /\ rooms_update "r1" Sample.alice_request "Hall" "" "" w = (Ok (_redirect "/rooms"), w)
  /\ documents_delete "d1" Sample.alice_request w = (Ok (_redirect "/documents"), w)
  /\ documents_delete "nope" Sample.alice_request w = (Ok (_redirect "/documents"), w).
Proof.
  intros w.
  destruct (cross_project_isolation w Sample.alice_request Sample.alice "A"
              "r1" "t1" "e1" "d1" "nope" (Sample.room_of "B") (Sample.task_of "B" "todo" None)
              (Sample.expense_of "B") (Sample.document_of "B"))
    as (Hru & _ & _ & _ & _ & _ & _ & _ & Hdd);
    try reflexivity; try discriminate; [exists "u1", 0%nat; repeat split; reflexivity |].
  destruct (Hru "Hall" "" "") as [Hr1 Hr2]. destruct Hdd as [Hd1 Hd2].
  rewrite Hr1, Hr2. auto.
Defined.

(** C5. For a task move or update that supplies a recognized status: a move
    into "done" sets the completion time to the current time only when none is
    set, so that "done" to "done" keeps the value there is, and a move to any
    other status clears it. *)
Theorem done_completion `{Externals} (w : World) (request : Request) (user : User)
    (a tid status st : string) (t : Task) :
  signed_in request w user a ->
  tasks (work w) !! tid = Some t ->
  t_project_id t = a ->
  st = lower (_clean_str (Some status)) ->
  recognized_status st = true ->
  commit_fault (oracle w) (n_commit w) = None ->
  (exists w1 t1,
      tasks_move tid request status w = (Ok (_redirect "/tasks"), w1)
      /\ tasks (stored w1) !! t_id t = Some t1
      /\ t_status t1 = Some st
      /\ t_completed_at t1
         = completed_after st (t_completed_at t) (clock (oracle w) (n_clock w)))
  /\ (forall title description room_id due_date priority dd,
      truthy (_clean_str (Some title)) = true ->
      optional_date due_date = Ok dd ->
      exists w1 t1,
        tasks_update tid request title description room_id due_date priority status w
          = (Ok (_redirect "/tasks"), w1)
        /\ tasks (stored w1) !! t_id t = Some t1
        /\ t_status t1 = Some st
        /\ t_completed_at t1
           = completed_after st (t_completed_at t) (clock (oracle w) (n_clock w))).
Proof.
  intros Hin Ht Hown Hst Hrec Hcommit.
  pose proof (require_signed_in _ _ _ _ Hin) as Hreq.
  destruct Hin as (uid & i & _ & _ & _ & Hact & _).
  subst a. pose proof (not_owned_same _ _ Hact) as Hmine.
  split.
  - unfold tasks_move, bind, gets. rewrite Hreq. simpl. rewrite Ht. simpl.
    rewrite Hmine, <- Hst, Hrec. simpl.
    unfold apply_status, completed_after, bind, utcnow, ret, put_task, modify, commit.
    destruct (String.eqb st "done") eqn:Hdone;
      destruct (t_completed_at t) as [c |] eqn:Hc; simpl; rewrite Hcommit;
      (eexists; eexists; split; [reflexivity |]; simpl;
       rewrite lookup_insert_eq; auto).
  - intros title description room_id due_date priority dd Htitle Hdd.
    unfold tasks_update, bind, gets. rewrite Hreq. simpl. rewrite Ht. simpl.
    rewrite Hmine, Htitle. simpl. rewrite Hdd, <- Hst, Hrec.
    unfold apply_status, completed_after, commit_or_redirect, try_except,
      bind, utcnow, ret, put_task, modify, commit.
    destruct (String.eqb st "done") eqn:Hdone;
      destruct (t_completed_at t) as [c |] eqn:Hc; simpl; rewrite Hcommit;
      (eexists; eexists; split; [reflexivity |]; simpl;
       rewrite lookup_insert_eq; auto).
Qed.

Lemma done_completion_witness :
  let t := Sample.task_of "A" "done" (Some 77%Z) in
  let w := Sample.boot ∅ Sample.calm (Sample.house "A" t) in
  (exists w1 t1,
      tasks_move "t1" Sample.alice_request " Done " w = (Ok (_redirect "/tasks"), w1)
      /\ tasks (stored w1) !! "t1" = Some t1
      /\ t_status t1 = Some "done"
      /\ t_completed_at t1 = Some 77%Z)
  /\ (exists w1 t1,
      tasks_update "t1" Sample.alice_request "Plaster" "" "" "" 3 "done" w
        = (Ok (_redirect "/tasks"), w1)
      /\ tasks (stored w1) !! "t1" = Some t1
      /\ t_status t1 = Some "done"
      /\ t_completed_at t1 = Some 77%Z).
Proof.
  intros t w.
  destruct (done_completion w Sample.alice_request Sample.alice "A" "t1" " Done " "done" t)
    as [Hmove _]; try reflexivity; [exists "u1", 0%nat; repeat split; reflexivity |].
  destruct (done_completion w Sample.alice_request Sample.alice "A" "t1" "done" "done" t)
    as [_ Hupdate]; try reflexivity; [exists "u1", 0%nat; repeat split; reflexivity |].
  split; [exact Hmove |].
  apply (Hupdate "Plaster" "" "" "" 3%Z None); reflexivity.
Defined.

(** ** Commit failures *)

Lemma current_user_signed_in (request : Request) (w : World) (user : User) (a : string) :
  signed_in request w user a ->
  exists i, get_current_user request w = (Ok (Some (i, user)), w).
Proof.
  intros (uid & i & Hsess & Huid & Huser & _). exists i.
  unfold get_current_user, gets. rewrite Hsess, Huid. simpl. now rewrite Huser.
Qed.

(** Linking tasks to a document never raises and never commits. *)
Lemma link_tasks_ok `{Externals} (user : User) (doc_id : string) (tids : list string)
    (w : World) :
  exists w', for_each tids (link_task user doc_id) w = (Ok tt, w')
    /\ oracle w' = oracle w /\ n_commit w' = n_commit w /\ stored w' = stored w
    /\ log w' = log w.
Proof.
  revert w. induction tids as [| tid tids IH]; intros w; simpl.
  - exists w. auto.
  - unfold bind at 1.
    assert (exists w1, link_task user doc_id tid w = (Ok tt, w1)
              /\ oracle w1 = oracle w /\ n_commit w1 = n_commit w /\ stored w1 = stored w
              /\ log w1 = log w) as (w1 & -> & Ho & Hn & Hs & Hl).
    { unfold link_task, bind, gets. simpl.
      destruct (tasks (work w) !! tid) as [t |]; [| exists w; auto].
      destruct (not_owned (t_project_id t) user); [exists w; auto |].
      eexists. split; [reflexivity |]. auto. }
    destruct (IH w1) as (w' & Hrun & Ho' & Hn' & Hs' & Hl').
    exists w'. rewrite Hrun. repeat split; congruence.
Qed.

(** An error that is no [RuntimeError] leaves the application as it left the handler. *)
Lemma serve_passes (handler : M Response) (w : World) (ex : exn) :
  exn_cls ex <> RuntimeError ->
  fst (handler w) = Raise ex ->
  fst (serve handler w) = Raise ex.
Proof.
  intros Hcls Hraise. unfold serve, try_except.
  destruct (handler w) as [[resp | e] w']; simpl in *; [discriminate |].
  injection Hraise as ->. now rewrite decide_False by exact Hcls.
Qed.

(** C4 does not hold of the code. When the database rejects the commit with
    the error [ex], [tasks_move], [projects_create], [documents_delete],
    [documents_update] and [documents_upload] let [ex] leave the handler: no
    rollback, no log entry, no redirect. [tasks_update], on the same task and
    status, does what the claim says: it rolls back, logs and redirects with
    [err=save_failed]. *)
Theorem unguarded_commit_propagates `{Externals} (w : World) (request : Request)
    (user : User) (a : string) (ex : exn) :
  signed_in request w user a ->
  commit_fault (oracle w) (n_commit w) = Some ex ->
  (forall tid t status,
      tasks (work w) !! tid = Some t -> t_project_id t = a ->
      recognized_status (lower (_clean_str (Some status))) = true ->
      (exists w1 t1, tasks_move tid request status w = (Raise ex, w1)
                  /\ log w1 = log w /\ stored w1 = stored w
                  /\ tasks (work w1) !! t_id t = Some t1
                  /\ t_status t1 = Some (lower (_clean_str (Some status))))
      /\ (forall title description room_id due_date priority dd,
            truthy (_clean_str (Some title)) = true ->
            optional_date due_date = Ok dd ->
            exists w2,
              tasks_update tid request title description room_id due_date priority status w
                = (Ok (_redirect "/tasks?err=save_failed"), w2)
              /\ work w2 = stored w /\ stored w2 = stored w
              /\ log w2 = log w ++ [("tasks_update Exception", ex)]))
  /\ (forall name description,
        fst (projects_create request name description w) = Raise ex)
  /\ (forall did d,
        documents (work w) !! did = Some d -> d_project_id d = a ->
        fst (documents_delete did request w) = Raise ex)
  /\ (forall did d doc_type photo_group title notes tags room_id expense_id task_ids,
        documents (work w) !! did = Some d -> d_project_id d = a ->
        fst (documents_update did request doc_type photo_group title notes tags room_id
               expense_id task_ids w) = Raise ex)
  /\ (forall file doc_type title notes tags room_id expense_id task_ids photo_group,
        Storage.s3_enabled w = (Ok false, w) ->
        fst (documents_upload request file doc_type title notes tags room_id expense_id
               task_ids photo_group w) = Raise ex).
Proof.
  intros Hin Hfault.
  pose proof (require_signed_in _ _ _ _ Hin) as Hreq.
  destruct (current_user_signed_in _ _ _ _ Hin) as (iu & Hcur).
  destruct Hin as (uid & i & _ & _ & _ & Hact & _).
  pose proof (not_owned_same _ _ Hact) as Hmine.
  repeat apply conj.
  - intros tid t status Ht Hown Hrec. subst a. split.
    + unfold tasks_move, bind, gets. rewrite Hreq. simpl. rewrite Ht. simpl.
      rewrite Hmine, Hrec. simpl.
      unfold apply_status, bind, utcnow, ret, put_task, modify, commit.
      destruct (String.eqb (lower (_clean_str (Some status))) "done") eqn:Hdone;
        destruct (t_completed_at t) as [c |] eqn:Hc; simpl; rewrite Hfault;
        (eexists; eexists; split; [reflexivity |]; simpl; repeat split;
         rewrite ?lookup_insert_eq; reflexivity).
    + intros title description room_id due_date priority dd Htitle Hdd.
      unfold tasks_update, bind, gets. rewrite Hreq. simpl. rewrite Ht. simpl.
      rewrite Hmine, Htitle. simpl. rewrite Hdd, Hrec.
      unfold apply_status, commit_or_redirect, try_except, _log_exception, rollback,
        bind, utcnow, ret, put_task, modify, commit.
      destruct (String.eqb (lower (_clean_str (Some status))) "done") eqn:Hdone;
        destruct (t_completed_at t) as [c |] eqn:Hc; simpl; rewrite Hfault;
        (eexists; split; [reflexivity |]; simpl; auto).
  - intros name description.
    unfold projects_create, bind. rewrite Hcur. simpl.
    unfold commit. simpl. now rewrite Hfault.
  - intros did d Hd Hown. subst a.
    unfold documents_delete, bind, gets. rewrite Hreq. simpl. rewrite Hd. simpl.
    rewrite Hmine. unfold commit. simpl. now rewrite Hfault.
  - intros did d doc_type photo_group title notes tags room_id expense_id task_ids Hd Hown.
    subst a.
    unfold documents_update, bind, gets. rewrite Hreq. simpl. rewrite Hd. simpl.
    rewrite Hmine.
    match goal with
    | |- context [bool_decide ?P] => destruct (bool_decide P)
    end; unfold modify, ret;
    match goal with
    | |- context [for_each ?l (link_task ?u ?doc) ?w0] =>
        destruct (link_tasks_ok u doc l w0) as (w' & -> & Ho & Hn & _)
    end;
    unfold commit; rewrite Ho, Hn; simpl; now rewrite Hfault.
  - intros file doc_type title notes tags room_id expense_id task_ids photo_group Hs3.
    rewrite s3_enabled_eq in Hs3. injection Hs3 as Hs3.
    unfold documents_upload, Storage.upload_bytes, Storage.s3_enabled, bind, gets.
    rewrite Hreq. simpl. rewrite Hs3. simpl.
    unfold commit. simpl. now rewrite Hfault.
Qed.

Lemma unguarded_commit_propagates_witness :
  let ex := Exn OperationalError "server closed the connection unexpectedly" in
  let w := Sample.boot ∅ (Sample.failing ex)
             (Sample.house "A" (Sample.task_of "A" "todo" None)) in
  fst (tasks_move "t1" Sample.alice_request "done" w) = Raise ex
  /\ fst (tasks_update "t1" Sample.alice_request "Plaster" "" "" "" 3 "done" w)
     = Ok (_redirect "/tasks?err=save_failed")
  /\ fst (projects_create Sample.alice_request "Loft" "" w) = Raise ex
  /\ fst (documents_delete "d1" Sample.alice_request w) = Raise ex.
Proof.
  intros ex w.
  destruct (unguarded_commit_propagates w Sample.alice_request Sample.alice "A" ex)
    as (Htasks & Hproj & Hdel & _); [exists "u1", 0%nat; repeat split; reflexivity | reflexivity |].
  destruct (Htasks "t1" (Sample.task_of "A" "todo" None) "done")
    as [(w1 & t1 & Hmove & _) Hupd]; try reflexivity.
  destruct (Hupd "Plaster" "" "" "" 3%Z None) as (w2 & Hupdate & _); try reflexivity.
  rewrite Hmove, Hupdate.
  split; [reflexivity |]. split; [reflexivity |]. split.
  - apply Hproj.
  - apply (Hdel "d1" (Sample.document_of "A")); reflexivity.
Defined.

(** ** Decimal arithmetic *)

Section DecimalFacts.
Local Open Scope Z_scope.

Lemma ndigits_fuel_le (fuel : nat) (n k : Z) :
  1 <= k -> n < 10 ^ k -> ndigits_fuel fuel n <= k.
Proof.
  revert n k. induction fuel as [| fuel IH]; intros n k Hk Hn; simpl; [lia |].
  destruct (n <? 10) eqn:Hsmall; [lia |].
  apply Z.ltb_ge in Hsmall.
  assert (2 <= k) as Hk2.
  { destruct (Z.eq_dec k 1) as [-> | Hne]; [| lia].
    change (10 ^ 1) with 10 in Hn. lia. }
  assert (n / 10 < 10 ^ (k - 1)) as Hdiv.
  { apply Z.div_lt_upper_bound; [lia |].
    replace (10 * 10 ^ (k - 1)) with (10 ^ k); [exact Hn |].
    replace k with (1 + (k - 1)) at 1 by lia.
    rewrite Z.pow_add_r by lia. reflexivity. }
  specialize (IH (n / 10) (k - 1) ltac:(lia) Hdiv). lia.
Qed.

Lemma ndigits_fuel_pos (fuel : nat) (n : Z) : 1 <= ndigits_fuel fuel n.
Proof.
  revert n. induction fuel as [| fuel IH]; intros n; simpl; [lia |].
  destruct (n <? 10); [lia |]. specialize (IH (n / 10)). lia.
Qed.

(** With enough fuel the count is the number of decimal digits. *)
Lemma ndigits_fuel_spec (fuel : nat) (n : Z) :
  0 < n < 2 ^ Z.of_nat fuel ->
  10 ^ (ndigits_fuel fuel n - 1) <= n < 10 ^ ndigits_fuel fuel n.
Proof.
  revert n. induction fuel as [| fuel IH]; intros n Hn.
  - change (2 ^ Z.of_nat 0) with 1 in Hn. lia.
  - simpl ndigits_fuel. destruct (n <? 10) eqn:Hsmall.
    + apply Z.ltb_lt in Hsmall. change (10 ^ (1 - 1)) with 1. change (10 ^ 1) with 10. lia.
    + apply Z.ltb_ge in Hsmall.
      assert (0 < n / 10 < 2 ^ Z.of_nat fuel) as Hdiv.
      { split.
        - apply Z.div_str_pos. lia.
        - apply Z.div_lt_upper_bound; [lia |].
          rewrite Nat2Z.inj_succ, Z.pow_succ_r in Hn by lia.
          assert (0 < 2 ^ Z.of_nat fuel) by (apply Z.pow_pos_nonneg; lia). lia. }
      specialize (IH _ Hdiv).
      pose proof (ndigits_fuel_pos fuel (n / 10)) as Hpos.
      set (k := ndigits_fuel fuel (n / 10)) in *.
      replace (1 + k - 1) with (Z.succ (k - 1)) by lia.
      replace (1 + k) with (Z.succ k) by lia.
      rewrite !Z.pow_succ_r by lia.
      pose proof (Z.div_mod n 10 ltac:(lia)) as Hdm.
      pose proof (Z.mod_pos_bound n 10 ltac:(lia)) as Hmod.
      lia.
Qed.

(** [ndigits c] is the number of decimal digits of a non-zero coefficient. *)
Lemma ndigits_spec (c : N) :
  (0 < c)%N -> 10 ^ (ndigits c - 1) <= Z.of_N c < 10 ^ ndigits c.
Proof.
  intros Hc. apply ndigits_fuel_spec. split; [lia |].
  rewrite N_nat_Z. pose proof (N.size_gt c) as Hsize.
  apply N2Z.inj_lt in Hsize. now rewrite N2Z.inj_pow in Hsize.
Qed.

Lemma ndigits_le (c : N) : Z.of_N c < 10 ^ prec -> ndigits c <= prec.
Proof. intros Hc. apply ndigits_fuel_le; [unfold prec; lia | exact Hc]. Qed.

(** A coefficient that fits the precision, at an exponent within the bounds,
    is left as it is. *)
Lemma fix_finite_exact (neg : bool) (c : N) (e : Z) :
  Z.of_N c < 10 ^ prec -> Etiny <= e <= Etop -> fix_finite neg c e = Ok (Fin neg c e).
Proof.
  intros Hc He. unfold fix_finite.
  destruct (c =? 0)%N eqn:Hz.
  - apply N.eqb_eq in Hz. subst c.
    assert (Z.min (Z.max e Etiny) Emax = e) as ->; [| reflexivity].
    unfold Etiny, Etop, Emin, Emax, prec in *. lia.
  - pose proof (ndigits_le c Hc) as Hd.
    assert ((ndigits c + e - prec >? Etop) = false) as -> by lia.
    assert ((e <? (if ndigits c + e - prec <? Etiny then Etiny else ndigits c + e - prec))
            = false) as ->; [| reflexivity].
    destruct (ndigits c + e - prec <? Etiny); lia.
Qed.

Lemma signed_negb (s : bool) (c : N) : signed (negb s) c = - signed s c.
Proof. destruct s; simpl; lia. Qed.

Lemma signed_abs (z : Z) : signed (z <? 0) (Z.abs_N z) = z.
Proof.
  unfold signed. rewrite N2Z.inj_abs_N.
  destruct (z <? 0) eqn:Hneg; lia.
Qed.

(** Within the context, [sub] gives the exact difference. *)
Lemma sub_exact (g v : decimal) :
  within_context g v -> exists n, sub g v = Ok n /\ exact_difference g v n.
Proof.
  destruct g as [sg cg eg | | |], v as [sv cv ev | | |]; simpl; try contradiction.
  intros [He Hfit].
  unfold sub, add. simpl.
  set (e := Z.min eg ev) in *.
  assert (Hmin : Z.min eg (Z.min ev e) = e) by (unfold e; lia).
  destruct ((cg =? 0)%N && (cv =? 0)%N) eqn:Hzero.
  - apply andb_true_iff in Hzero as [Hg Hv].
    apply N.eqb_eq in Hg, Hv. subst cg cv.
    rewrite fix_finite_exact by (simpl; unfold prec; lia).
    eexists. split; [reflexivity |]. simpl. rewrite Hmin.
    destruct sg, sv; simpl; lia.
  - rewrite signed_negb.
    set (z := signed sg cg * 10 ^ (eg - e) + - signed sv cv * 10 ^ (ev - e)) in *.
    assert (Hz : signed sg cg * 10 ^ (eg - e) - signed sv cv * 10 ^ (ev - e) = z)
      by (unfold z; lia).
    rewrite Hz in Hfit.
    destruct (z =? 0) eqn:Hz0.
    + apply Z.eqb_eq in Hz0.
      rewrite fix_finite_exact by (simpl; unfold prec; lia).
      eexists. split; [reflexivity |]. simpl. rewrite Hmin, Z.sub_diag, Hz. lia.
    + rewrite fix_finite_exact by (rewrite ?N2Z.inj_abs_N; lia).
      eexists. split; [reflexivity |]. simpl.
      rewrite Hmin, Z.sub_diag, Hz, signed_abs. simpl. lia.
Qed.

(** Two amounts of the column type NUMERIC(12,2) are within the context. *)
Lemma numeric_12_2_within_context (sg sv : bool) (cg cv : N) :
  (cg < 10 ^ 12)%N -> (cv < 10 ^ 12)%N ->
  within_context (Fin sg cg (-2)) (Fin sv cv (-2)).
Proof.
  intros Hg Hv. simpl. split; [unfold Etiny, Etop, Emin, Emax, prec; lia |].
  change (-2 - -2) with 0. rewrite Z.pow_0_r, !Z.mul_1_r.
  assert (Z.of_N cg < 10 ^ 12) by (change (10 ^ 12) with (Z.of_N (10 ^ 12)); lia).
  assert (Z.of_N cv < 10 ^ 12) by (change (10 ^ 12) with (Z.of_N (10 ^ 12)); lia).
  assert (10 ^ 12 + 10 ^ 12 < 10 ^ prec) by (vm_compute; reflexivity).
  unfold signed. destruct sg, sv; lia.
Qed.

End DecimalFacts.

(** ** Expenses *)

#[local] Arguments Decimal : simpl never.
#[local] Arguments sub : simpl never.
#[local] Arguments optional_decimal : simpl never.
#[local] Arguments net_amount : simpl never.

Lemma optional_decimal_blank (v : string) :
  truthy (_clean_str (Some v)) = false -> optional_decimal v = Ok None.
Proof. intros Hv. unfold optional_decimal. now rewrite Hv. Qed.

Lemma optional_decimal_given (v : string) (d : decimal) :
  truthy (_clean_str (Some v)) = true -> Decimal v = Ok d ->
  optional_decimal v = Ok (Some d).
Proof. intros Hv Hd. unfold optional_decimal. now rewrite Hv, Hd. Qed.

(** C8 as stated fails: for the gross amount 1 and the VAT amount
    0.00000000000000000000000000001 the expense is stored with the net amount
    1.000000000000000000000000000, the difference rounded to 28 digits, which
    is not the gross amount minus the VAT amount. *)
Lemma expense_net_counterexample :
  let w := Sample.boot ∅ Sample.calm (Sample.house "A" (Sample.task_of "A" "todo" None)) in
  exists w1 e n,
    expenses_create Sample.alice_request "2024-03-01" "1" "Plaster" "" "" ""
      "0.00000000000000000000000000001" "" "" "" w = (Ok (_redirect "/expenses"), w1)
    /\ expenses (stored w1) !! "id-a" = Some e
    /\ e_gross_amount e = Fin false 1 0
    /\ e_vat_amount e = Some (Fin false 1 (-29))
    /\ e_net_amount e = Some n
    /\ n = Fin false 1000000000000000000000000000 (-27)
    /\ ~ exact_difference (Fin false 1 0) (Fin false 1 (-29)) n.
Proof.
  intros w. eexists. eexists. eexists.
  split; [vm_compute; reflexivity |].
  split; [vm_compute; reflexivity |].
  split; [reflexivity |]. split; [reflexivity |]. split; [reflexivity |].
  split; [reflexivity |].
  vm_compute. discriminate.
Qed.

(** C8, amended. For every expense create or update that is stored: without a
    VAT amount the net amount is absent; with a VAT amount [v], the stored net
    amount is the gross amount minus [v] in decimal arithmetic, and it is the
    exact difference whenever both are finite and the difference fits the
    28-digit context (as for all amounts of the column type NUMERIC(12,2)).
    The gross amount 120.00 with the VAT amount 20.00 gives the net amount
    100.00. *)
Theorem expense_net_amount `{Externals} (w : World) (request : Request) (user : User)
    (a purchase_date gross_amount description room_id task_id vat_rate vat_amount
     payment_method vendor notes : string)
    (d : date) (g : decimal) (vr : option decimal) :
  signed_in request w user a ->
  date_fromisoformat purchase_date = Ok d ->
  Decimal gross_amount = Ok g ->
  optional_decimal vat_rate = Ok vr ->
  commit_fault (oracle w) (n_commit w) = None ->
  let created (va net : option decimal) :=
    exists w1 e,
      expenses_create request purchase_date gross_amount description room_id task_id
        vat_rate vat_amount payment_method vendor notes w = (Ok (_redirect "/expenses"), w1)
      /\ expenses (stored w1) !! rand (oracle w) (n_rand w) = Some e
      /\ e_gross_amount e = g /\ e_vat_amount e = va /\ e_net_amount e = net in
  let updated (va net : option decimal) :=
    forall eid e0,
      expenses (work w) !! eid = Some e0 -> e_project_id e0 = a ->
      exists w1 e,
        expenses_update eid request purchase_date gross_amount description room_id task_id
          vat_rate vat_amount payment_method vendor notes w
          = (Ok (_redirect "/expenses"), w1)
        /\ expenses (stored w1) !! e_id e0 = Some e
        /\ e_gross_amount e = g /\ e_vat_amount e = va /\ e_net_amount e = net in
  (truthy (_clean_str (Some vat_amount)) = false -> created None None /\ updated None None)
  /\ (forall v,
        truthy (_clean_str (Some vat_amount)) = true -> Decimal vat_amount = Ok v ->
        (forall n, sub g v = Ok n -> created (Some v) (Some n) /\ updated (Some v) (Some n))
        /\ (within_context g v -> exists n, sub g v = Ok n /\ exact_difference g v n))
  /\ (Decimal "120.00" = Ok (Fin false 12000 (-2))
      /\ Decimal "20.00" = Ok (Fin false 2000 (-2))
      /\ net_amount (Fin false 12000 (-2)) (Some (Fin false 2000 (-2)))
         = Ok (Some (Fin false 10000 (-2)))
      /\ Decimal "100.00" = Ok (Fin false 10000 (-2))).
Proof.
  intros Hin Hdate Hgross Hvr Hcommit created updated.
  pose proof (require_signed_in _ _ _ _ Hin) as Hreq.
  destruct Hin as (uid & i & _ & _ & _ & Hact & _).
  pose proof (not_owned_same _ _ Hact) as Hmine.
  assert (forall va net,
            optional_decimal vat_amount = Ok va -> net_amount g va = Ok net ->
            created va net /\ updated va net) as Hstore.
  { intros va net Hva Hnet. split.
    - unfold created, expenses_create, bind, gets, lift. rewrite Hreq. simpl.
      rewrite Hdate, Hgross, Hvr, Hva, Hnet. simpl.
      unfold commit_or_redirect, try_except, bind, commit, ret. simpl.
      rewrite Hcommit. eexists. eexists. split; [reflexivity |]. simpl.
      rewrite lookup_insert_eq. auto.
    - unfold updated. intros eid e0 He0 Hown. subst a.
      unfold expenses_update, bind, gets. rewrite Hreq. simpl. rewrite He0. simpl.
      rewrite Hmine. unfold try_except, bind, lift.
      rewrite Hdate, Hgross, Hvr, Hva, Hnet. simpl.
      unfold commit. simpl. rewrite Hcommit.
      eexists. eexists. split; [reflexivity |]. simpl.
      rewrite lookup_insert_eq. auto. }
  split; [| split].
  - intros Hblank. apply Hstore; [now apply optional_decimal_blank | reflexivity].
  - intros v Hgiven Hv. split.
    + intros n Hn. apply Hstore; [now apply optional_decimal_given |].
      unfold net_amount. now rewrite Hn.
    + apply sub_exact.
  - repeat split; vm_compute; reflexivity.
Qed.

Lemma expense_net_amount_witness :
  let w := Sample.boot ∅ Sample.calm (Sample.house "A" (Sample.task_of "A" "todo" None)) in
  (exists w1 e,
      expenses_create Sample.alice_request "2024-03-01" "120.00" "Plaster" "" "" "" "20.00"
        "" "" "" w = (Ok (_redirect "/expenses"), w1)
      /\ expenses (stored w1) !! "id-a" = Some e
      /\ e_gross_amount e = Fin false 12000 (-2)
      /\ e_vat_amount e = Some (Fin false 2000 (-2))
      /\ e_net_amount e = Some (Fin false 10000 (-2)))
  /\ (exists w1 e,
      expenses_update "e1" Sample.alice_request "2024-03-01" "120.00" "Plaster" "" "" "" " "
        "" "" "" w = (Ok (_redirect "/expenses"), w1)
      /\ expenses (stored w1) !! "e1" = Some e
      /\ e_gross_amount e = Fin false 12000 (-2)
      /\ e_vat_amount e = None
      /\ e_net_amount e = None)
  /\ exact_difference (Fin false 12000 (-2)) (Fin false 2000 (-2)) (Fin false 10000 (-2)).
Proof.
  intros w.
  destruct (expense_net_amount w Sample.alice_request Sample.alice "A" "2024-03-01" "120.00"
              "Plaster" "" "" "" "20.00" "" "" "" (Date 2024 3 1) (Fin false 12000 (-2)) None)
    as (_ & Hvat & _); try reflexivity; [exists "u1", 0%nat; repeat split; reflexivity |].
  destruct (expense_net_amount w Sample.alice_request Sample.alice "A" "2024-03-01" "120.00"
              "Plaster" "" "" "" " " "" "" "" (Date 2024 3 1) (Fin false 12000 (-2)) None)
    as (Hblank & _ & _); try reflexivity; [exists "u1", 0%nat; repeat split; reflexivity |].
  destruct (Hvat (Fin false 2000 (-2)) eq_refl eq_refl) as [Hstored Hexact].
  destruct (Hstored (Fin false 10000 (-2)) eq_refl) as [Hcreated _].
  destruct (Hblank eq_refl) as [_ Hupdated].
  split; [exact Hcreated |].
  split; [apply (Hupdated "e1" (Sample.expense_of "A")); reflexivity |].
  destruct Hexact as (n & Hn & Hdiff).
  - apply numeric_12_2_within_context; reflexivity.
  - vm_compute in Hn. injection Hn as <-. exact Hdiff.
Defined.

(** ** More on the handlers *)

(** The guarded commit: a rejected commit is rolled back, logged under the
    prefix of the handler, and answered with the error redirect. *)
Lemma commit_or_redirect_failure `{Externals} (prefix err ok : string) (w : World) (ex : exn) :
  commit_fault (oracle w) (n_commit w) = Some ex ->
  exists w', commit_or_redirect prefix err ok w = (Ok (_redirect err), w')
    /\ work w' = stored w /\ stored w' = stored w /\ log w' = log w ++ [(prefix, ex)].
Proof.
  intros Hfault.
  unfold commit_or_redirect, try_except, bind, commit, rollback, _log_exception, modify, ret.
  rewrite Hfault. simpl. eexists. split; [reflexivity |]. auto.
Qed.

Lemma commit_or_redirect_success `{Externals} (prefix err ok : string) (w : World) :
  commit_fault (oracle w) (n_commit w) = None ->
  exists w', commit_or_redirect prefix err ok w = (Ok (_redirect ok), w')
    /\ stored w' = work w /\ work w' = work w /\ log w' = log w.
Proof.
  intros Hfault.
  unfold commit_or_redirect, try_except, bind, commit, ret.
  rewrite Hfault. simpl. eexists. split; [reflexivity |]. auto.
Qed.

(** A status that is none of the four becomes a key of [cols] that names the
    very list of "todo": the task shows under both keys. *)
Example board_unrecognized_alias :
  let t := Sample.task_of "A" "archived" None in
  exists b, board_of [t] = Ok b
    /\ cols b !! Some "archived" = cols b !! Some "todo"
    /\ column b (Some "todo") = Some [t]
    /\ column b (Some "archived") = Some [t]
    /\ column b (Some "done") = Some [].
Proof. intros t. eexists. split; [reflexivity |]. repeat split; vm_compute; reflexivity. Qed.

(** * Further properties of the code *)

(** ** Normalization of the document form fields *)

Lemma in_tuple_In (x : string) (l : list string) : in_tuple x l = true <-> In x l.
Proof.
  unfold in_tuple. rewrite existsb_exists. split.
  - intros (y & Hin & Heq). apply String.eqb_eq in Heq. now subst.
  - intros Hin. exists x. split; [exact Hin | apply String.eqb_refl].
Qed.

(** X1. [_norm_doc_type] always gives one of the five document types; a value
    that is one of them once trimmed and lower-cased is kept, anything else
    (the empty input too) becomes "receipt"; normalizing twice changes
    nothing. *)
Theorem norm_doc_type_range (v : string) :
  let kinds := ["receipt"; "photo"; "warranty"; "paperwork"; "recipe"] in
  In (_norm_doc_type v) kinds
  /\ (In (lower (_clean_str (Some v))) kinds -> _norm_doc_type v = lower (_clean_str (Some v)))
  /\ (~ In (lower (_clean_str (Some v))) kinds -> _norm_doc_type v = "receipt")
  /\ _norm_doc_type (_norm_doc_type v) = _norm_doc_type v.
Proof.
  intros kinds.
  assert (Hrange : In (_norm_doc_type v) kinds
                   /\ (In (lower (_clean_str (Some v))) kinds ->
                       _norm_doc_type v = lower (_clean_str (Some v)))
                   /\ (~ In (lower (_clean_str (Some v))) kinds ->
                       _norm_doc_type v = "receipt")).
  { unfold _norm_doc_type, or_else.
    destruct (truthy (lower (_clean_str (Some v)))) eqn:Hempty.
    - destruct (in_tuple (lower (_clean_str (Some v))) _) eqn:Hin; simpl.
      + apply in_tuple_In in Hin. repeat split; auto. intros Hn. now destruct Hn.
      + split; [left; reflexivity |]. split; [| reflexivity].
        intros Hk.
        assert (in_tuple (lower (_clean_str (Some v))) kinds = true) as Hk'
          by (apply in_tuple_In; exact Hk).
        unfold kinds in Hk'. congruence.
    - simpl. split; [left; reflexivity |]. split; [| reflexivity].
      intros Hk. apply truthy_false in Hempty. rewrite Hempty in Hk.
      simpl in Hk. intuition discriminate. }
  destruct Hrange as (Hin & Hkeep & Hother). repeat split; auto.
  simpl in Hin.
  destruct Hin as [<- | [<- | [<- | [<- | [<- | []]]]]]; reflexivity.
Qed.

(** X2. The photo group goes with the document type: it is absent exactly
    when the (normalized) type is not "photo", and for a photo it is always
    one of "before", "during", "after", the blank and the unknown input
    reading "before". *)
Theorem norm_photo_group_coupling (doc_type v : string) :
  (_norm_photo_group doc_type v = None <-> doc_type <> "photo")
  /\ (doc_type = "photo" ->
      exists g, _norm_photo_group doc_type v = Some g
        /\ In g ["before"; "during"; "after"]
        /\ (In (lower (_clean_str (Some v))) ["before"; "during"; "after"] ->
            g = lower (_clean_str (Some v)))
        /\ (~ In (lower (_clean_str (Some v))) ["before"; "during"; "after"] ->
            g = "before")).
Proof.
  unfold _norm_photo_group. split.
  - destruct (String.eqb doc_type "photo") eqn:Hp; simpl.
    + apply String.eqb_eq in Hp. split; [| congruence].
      destruct (negb _); discriminate.
    + apply String.eqb_neq in Hp. split; auto.
  - intros ->. rewrite String.eqb_refl. cbn [negb]. unfold or_else.
    set (x := lower (_clean_str (Some v))).
    destruct (truthy x) eqn:Hempty.
    + destruct (in_tuple x ["before"; "during"; "after"]) eqn:Hin; cbn [negb].
      * apply in_tuple_In in Hin. eexists. split; [reflexivity |].
        split; [exact Hin |]. split; [reflexivity |]. intros Hn. now destruct Hn.
      * eexists. split; [reflexivity |]. split; [left; reflexivity |].
        split; [| reflexivity]. intros Hk.
        apply (proj2 (in_tuple_In x _)) in Hk. congruence.
    + apply truthy_false in Hempty. rewrite Hempty.
      eexists. split; [reflexivity |]. split; [left; reflexivity |].
      split; [| reflexivity]. simpl. intuition discriminate.
Qed.

(** The de-duplication loop with the items themselves as keys. *)
Lemma seen_loop_identity (parts out : list string) (seen : gset string) :
  (forall k, k ∈ seen <-> In k out) ->
  NoDup out ->
  exists kept,
    (fold_left (seen_step (fun x => x)) parts (seen, out)).2 = out ++ kept
    /\ NoDup (out ++ kept)
    /\ sublist kept parts
    /\ (forall x, In x parts -> In x (out ++ kept)).
Proof.
  revert out seen. induction parts as [| p parts IH]; intros out seen Hseen Hnd.
  - exists []. simpl. rewrite app_nil_r. repeat split; auto. intros x [].
  - simpl. unfold seen_step at 2. simpl.
    destruct (decide (p ∈ seen)) as [Hin | Hnin].
    + destruct (IH out seen Hseen Hnd) as (kept & Heq & Hnd' & Hsub & Hall).
      exists kept. repeat split; auto.
      * now apply sublist_cons.
      * intros x [<- | Hx]; [| now apply Hall].
        apply in_or_app. left. now apply Hseen.
    + destruct (IH (out ++ [p]) ({[p]} ∪ seen)) as (kept & Heq & Hnd' & Hsub & Hall).
      * intros k. rewrite elem_of_union, elem_of_singleton, Hseen, in_app_iff. simpl.
        intuition.
      * apply NoDup_app. repeat split; auto.
        -- intros x Hx Hx'. apply list_elem_of_In in Hx, Hx'.
           destruct Hx' as [<- | []]. apply Hnin, Hseen, Hx.
        -- apply NoDup_singleton.
      * exists (p :: kept). rewrite Heq, <- app_assoc. simpl.
        rewrite <- app_assoc in Hnd'. simpl in Hnd'.
        repeat split; auto.
        -- now apply sublist_skip.
        -- intros x [<- | Hx].
           ++ apply in_or_app. right. now left.
           ++ specialize (Hall x Hx). rewrite <- app_assoc in Hall. exact Hall.
Qed.

(** X3. [_parse_task_ids] gives the trimmed, non-blank values of the field,
    each once and in the order of the input; an absent field gives the empty
    list. *)
Theorem parse_task_ids_spec (task_ids : TaskIdsField) :
  let vals := match task_ids with
              | NoTaskIds => []
              | OneTaskId v => [v]
              | ManyTaskIds vs => vs
              end in
  let cleaned := List.filter truthy (map (fun v => _clean_str (Some v)) vals) in
  NoDup (_parse_task_ids task_ids)
  /\ sublist (_parse_task_ids task_ids) cleaned
  /\ (forall x, In x (_parse_task_ids task_ids) <->
                truthy x = true /\ exists v, In v vals /\ x = _clean_str (Some v)).
Proof.
  intros vals cleaned.
  assert (exists kept,
            _parse_task_ids task_ids = kept /\ NoDup kept /\ sublist kept cleaned
            /\ (forall x, In x cleaned -> In x kept))
    as (kept & -> & Hnd & Hsub & Hall).
  { destruct (seen_loop_identity cleaned [] ∅) as (kept & Heq & Hnd & Hsub & Hall).
    - intros k. split; [intros H; now apply not_elem_of_empty in H | intros []].
    - apply NoDup_nil_2.
    - exists kept. simpl in *. repeat split; auto.
      destruct task_ids; simpl; [| exact Heq | exact Heq].
      unfold cleaned, vals in Hsub. simpl in Hsub. apply sublist_nil_r in Hsub. now subst. }
  assert (forall x, In x cleaned <->
            truthy x = true /\ exists v, In v vals /\ x = _clean_str (Some v)) as Hclean.
  { intros x. unfold cleaned. rewrite List.filter_In, in_map_iff. split.
    - intros [(v & <- & Hv) Ht]. split; [exact Ht |]. now exists v.
    - intros [Ht (v & Hv & ->)]. split; [now exists v | exact Ht]. }
  split; [exact Hnd |]. split; [exact Hsub |].
  intros x. split.
  - intros Hx. apply Hclean.
    apply list_elem_of_In. eapply elem_of_sublist; [| exact Hsub]. now apply list_elem_of_In.
  - intros Hx. apply Hall, Hclean, Hx.
Qed.

(** ** Tags: the shape of the normal form *)

Lemma lstrip_idem (s : string) : lstrip (lstrip s) = lstrip s.
Proof.
  induction s as [| c s IH]; simpl; [reflexivity |].
  destruct (isspace c) eqn:Hc; [exact IH | simpl; now rewrite Hc].
Qed.

Lemma rstrip_idem (s : string) : rstrip (rstrip s) = rstrip s.
Proof.
  induction s as [| c s IH]; simpl; [reflexivity |].
  destruct (isspace c && negb (truthy (rstrip s))) eqn:Hc; [reflexivity |].
  simpl. now rewrite IH, Hc.
Qed.

Lemma strip_idem (s : string) : strip (strip s) = strip s.
Proof.
  unfold strip. rewrite (lstrip_rstrip (rstrip (lstrip s))), rstrip_idem.
  rewrite (lstrip_rstrip s), lstrip_idem. reflexivity.
Qed.

Lemma free_of_lstrip (p : ascii -> bool) (s : string) :
  free_of p s = true -> free_of p (lstrip s) = true.
Proof.
  induction s as [| c s IH]; simpl; [auto |].
  intros H. apply andb_true_iff in H as [Hc Hs].
  destruct (isspace c); [auto | simpl; now rewrite Hc, Hs].
Qed.

Lemma free_of_rstrip (p : ascii -> bool) (s : string) :
  free_of p s = true -> free_of p (rstrip s) = true.
Proof.
  induction s as [| c s IH]; simpl; [auto |].
  intros H. apply andb_true_iff in H as [Hc Hs].
  destruct (isspace c && negb (truthy (rstrip s))); [reflexivity |].
  simpl. now rewrite Hc, IH.
Qed.

Lemma free_of_strip (p : ascii -> bool) (s : string) :
  free_of p s = true -> free_of p (strip s) = true.
Proof. intros H. unfold strip. now apply free_of_rstrip, free_of_lstrip. Qed.

Lemma split_where_free (sep : ascii -> bool) (s : string) :
  Forall (fun t => free_of sep t = true) (split_where sep s).
Proof.
  induction s as [| c s IH]; simpl.
  - repeat constructor.
  - destruct (sep c) eqn:Hc.
    + constructor; [reflexivity | exact IH].
    + destruct (split_where sep s) as [| h t]; [repeat constructor; simpl; now rewrite Hc |].
      inversion IH as [| ? ? Hh Ht]; subst.
      constructor; [simpl; now rewrite Hc, Hh | exact Ht].
Qed.

Lemma split_where_of_free (sep : ascii -> bool) (s : string) :
  free_of sep s = true -> split_where sep s = [s].
Proof.
  induction s as [| c s IH]; simpl; [reflexivity |].
  intros H. apply andb_true_iff in H as [Hc Hs].
  apply negb_true_iff in Hc. rewrite Hc, (IH Hs). reflexivity.
Qed.

Lemma split_where_app_sep (sep : ascii -> bool) (x s : string) (c : ascii) :
  free_of sep x = true -> sep c = true ->
  split_where sep (x +:+ String c s) = x :: split_where sep s.
Proof.
  intros Hx Hc. induction x as [| a x IH]; simpl.
  - now rewrite Hc.
  - simpl in Hx. apply andb_true_iff in Hx as [Ha Hx].
    apply negb_true_iff in Ha. rewrite Ha, (IH Hx). reflexivity.
Qed.

(** Splitting a comma-joined list of separator-free tokens gives the tokens back. *)
Lemma split_join (l : list string) :
  l <> [] ->
  Forall (fun t => free_of is_tag_separator t = true) l ->
  split_where is_tag_separator (join "," l) = l.
Proof.
  induction l as [| x l IH]; [congruence |].
  intros _ Hfree. inversion Hfree as [| ? ? Hx Hl]; subst.
  destruct l as [| y l].
  - simpl. now apply split_where_of_free.
  - change (join "," (x :: y :: l)) with (x +:+ String "," (join "," (y :: l))).
    rewrite split_where_app_sep by (auto; reflexivity).
    now rewrite IH.
Qed.

Lemma keep_first_seen_Forall (P : string -> Prop) (earlier toks : list string) :
  Forall P toks -> Forall P (keep_first_seen earlier toks).
Proof.
  revert earlier. induction toks as [| t toks IH]; intros earlier Hall; simpl; [constructor |].
  inversion Hall; subst.
  destruct (existsb (same_tag t) earlier); [auto | constructor; auto].
Qed.

(** The tokens kept differ pairwise up to case, and from every earlier token. *)
Lemma keep_first_seen_distinct (earlier toks : list string) :
  NoDup (map lower (keep_first_seen earlier toks))
  /\ (forall r, In r (keep_first_seen earlier toks) -> ~ In (lower r) (map lower earlier)).
Proof.
  revert earlier. induction toks as [| t toks IH]; intros earlier; simpl.
  - split; [apply NoDup_nil_2 | intros r []].
  - destruct (IH (earlier ++ [t])) as [Hnd Hnew].
    assert (forall r, In r (keep_first_seen (earlier ++ [t]) toks) ->
                      ~ In (lower r) (map lower earlier) /\ lower r <> lower t) as Hnew'.
    { intros r Hr. specialize (Hnew r Hr). rewrite map_app, in_app_iff in Hnew. simpl in Hnew.
      split; [tauto |]. intros Heq. apply Hnew. right. left. congruence. }
    destruct (existsb (same_tag t) earlier) eqn:Hseen.
    + split; [exact Hnd |]. intros r Hr. now apply Hnew'.
    + split.
      * simpl. apply NoDup_cons. split; [| exact Hnd].
        intros Hin. apply list_elem_of_In, in_map_iff in Hin as (r & Heq & Hr).
        now apply (Hnew' r Hr).
      * intros r [<- | Hr]; [| now apply Hnew'].
        intros Hin. apply in_map_iff in Hin as (e & Heq & He).
        assert (existsb (same_tag t) earlier = true) as Habs; [| congruence].
        apply existsb_same_tag. now exists e.
Qed.

(** Tokens that already differ up to case are all kept. *)
Lemma keep_first_seen_id (earlier l : list string) :
  NoDup (map lower l) ->
  (forall r, In r l -> ~ In (lower r) (map lower earlier)) ->
  keep_first_seen earlier l = l.
Proof.
  revert earlier. induction l as [| t l IH]; intros earlier Hnd Hnew; simpl; [reflexivity |].
  simpl in Hnd. apply NoDup_cons in Hnd as [Ht Hnd].
  assert (existsb (same_tag t) earlier = false) as ->.
  { apply not_true_is_false. intros H. apply existsb_same_tag in H as (e & He & Heq).
    apply (Hnew t (or_introl eq_refl)). rewrite <- Heq. now apply in_map. }
  f_equal. apply IH; [exact Hnd |].
  intros r Hr. rewrite map_app, in_app_iff. simpl. intros [Hin | [Heq | []]].
  - now apply (Hnew r (or_intror Hr)).
  - apply Ht. rewrite Heq. apply list_elem_of_In. now apply in_map.
Qed.

Lemma free_of_app (p : ascii -> bool) (a b : string) :
  free_of p a = true -> free_of p b = true -> free_of p (a +:+ b) = true.
Proof.
  intros Ha Hb. induction a as [| c a IH]; simpl in *; [exact Hb |].
  apply andb_true_iff in Ha as [Hc Ha]. now rewrite Hc, IH.
Qed.

Lemma free_of_weaken (p q : ascii -> bool) (s : string) :
  (forall c, q c = true -> p c = true) -> free_of p s = true -> free_of q s = true.
Proof.
  intros Hpq. induction s as [| c s IH]; simpl; [auto |].
  intros H. apply andb_true_iff in H as [Hc Hs]. rewrite IH by exact Hs.
  destruct (q c) eqn:Hq; [| reflexivity].
  apply Hpq in Hq. now rewrite Hq in Hc.
Qed.

Lemma free_of_join (p : ascii -> bool) (l : list string) :
  p ","%char = false ->
  Forall (fun t => free_of p t = true) l -> free_of p (join "," l) = true.
Proof.
  intros Hcomma. induction l as [| x l IH]; intros Hall; [reflexivity |].
  inversion Hall as [| ? ? Hx Hl]; subst.
  destruct l as [| y l]; [exact Hx |].
  change (join "," (x :: y :: l)) with (x +:+ String "," (join "," (y :: l))).
  apply free_of_app; [exact Hx |]. simpl. rewrite Hcomma. simpl. now apply IH.
Qed.

Lemma truthy_app (a b : string) : truthy a = true -> truthy (a +:+ b) = true.
Proof. destruct a; [discriminate | reflexivity]. Qed.

(** The loop of [_norm_tags] written with [keep_first_seen]. *)
Lemma norm_tags_unfold (v : string) : _norm_tags v = norm_tags_spec v.
Proof.
  unfold _norm_tags, norm_tags_spec.
  destruct (truthy (_clean_str (Some v))) eqn:Hraw; simpl.
  - rewrite norm_tags_parts.
    destruct (List.filter truthy (map strip (split_where is_tag_separator v))) as [| t ts];
      [reflexivity |].
    f_equal. f_equal.
    rewrite (seen_loop_keep_first_seen (t :: ts) [] [] ∅); [reflexivity |].
    intros k. split; [intros H; now apply not_elem_of_empty in H | intros (e & [] & _)].
  - pose proof (norm_tags_parts v) as Hparts.
    rewrite (truthy_false _ Hraw) in Hparts. simpl in Hparts.
    now rewrite <- Hparts.
Qed.

(** X4. The tags are in normal form after one pass: normalizing the result of
    [_norm_tags] again gives the same string. The result is never the empty
    string and holds no semicolon. *)
Theorem norm_tags_idempotent (v out : string) :
  _norm_tags v = Some out ->
  _norm_tags out = Some out
  /\ truthy out = true
  /\ free_of (fun c => Ascii.eqb c ";") out = true.
Proof.
  rewrite !norm_tags_unfold. unfold norm_tags_spec at 1.
  assert (Forall (fun t => free_of is_tag_separator t = true /\ strip t = t /\ truthy t = true)
            (List.filter truthy (map strip (split_where is_tag_separator v)))) as Htoks.
  { apply Forall_forall. intros t Ht. apply list_elem_of_In in Ht.
    apply List.filter_In in Ht as [Ht Htruthy].
    apply in_map_iff in Ht as (raw & <- & Hraw).
    split; [| split; [apply strip_idem | exact Htruthy]].
    apply free_of_strip.
    pose proof (split_where_free is_tag_separator v) as Hfree.
    rewrite Forall_forall in Hfree. apply Hfree. now apply list_elem_of_In. }
  destruct (List.filter truthy (map strip (split_where is_tag_separator v)))
    as [| t ts]; [discriminate |].
  pose proof (keep_first_seen_Forall _ [] _ Htoks) as Hkept.
  pose proof (keep_first_seen_distinct [] (t :: ts)) as [Hnd Hnew].
  assert (exists rest, keep_first_seen [] (t :: ts) = t :: rest) as (rest & Hk)
    by (simpl; eauto).
  rewrite Hk in *. intros Hout.
  assert (out = join "," (t :: rest)) as -> by congruence. clear Hout.
  assert (Forall (fun x => free_of is_tag_separator x = true) (t :: rest)) as Hfree
    by (eapply Forall_impl; [exact Hkept | now intros x (Hx & _)]).
  split; [| split].
  - unfold norm_tags_spec. rewrite split_join by (auto; discriminate).
    assert (map strip (t :: rest) = t :: rest) as ->.
    { rewrite <- (map_id (t :: rest)) at 2. apply map_ext_in.
      intros x Hx. rewrite Forall_forall in Hkept.
      now apply Hkept, list_elem_of_In. }
    assert (List.filter truthy (t :: rest) = t :: rest) as ->.
    { apply forallb_filter_id, forallb_forall. intros x Hx.
      rewrite Forall_forall in Hkept. now apply Hkept, list_elem_of_In. }
    f_equal. f_equal. apply keep_first_seen_id; [exact Hnd | exact Hnew].
  - inversion Hkept as [| ? ? (_ & _ & Ht) _]; subst.
    destruct rest; [exact Ht |].
    change (join "," (t :: s :: rest)) with (t +:+ String "," (join "," (s :: rest))).
    now apply truthy_app.
  - apply free_of_join; [reflexivity |].
    eapply Forall_impl; [exact Hfree |]. intros x Hx.
    eapply free_of_weaken; [| exact Hx].
    intros c Hc. unfold is_tag_separator. now rewrite Hc, orb_true_r.
Qed.

Lemma norm_tags_idempotent_witness :
  _norm_tags "Kitchen,plaster,invoice" = Some "Kitchen,plaster,invoice"
  /\ truthy "Kitchen,plaster,invoice" = true
  /\ free_of (fun c => Ascii.eqb c ";") "Kitchen,plaster,invoice" = true.
Proof.
  apply (norm_tags_idempotent " Kitchen, plaster ;Kitchen, invoice "). vm_compute. reflexivity.
Defined.

(** ** The guard of the project routes and the error handler *)

(** X5. The redirect target travels through the error message unchanged:
    for every URL, colons included, the handler of [RuntimeError] answers the
    message [AUTH_REQUIRED_REDIRECT:] followed by the URL with the 303
    redirect to that URL; a message without that prefix is answered with the
    message itself as plain text and status 500. *)
Theorem runtime_redirect_round_trip (c : exn_class) (url msg : string) :
  runtime_redirect_handler (Exn c ("AUTH_REQUIRED_REDIRECT:" +:+ url)) = _redirect url
  /\ (strip_prefix "AUTH_REQUIRED_REDIRECT:" msg = None ->
      runtime_redirect_handler (Exn c msg) = PlainTextResponse msg 500).
Proof.
  split.
  - unfold runtime_redirect_handler. simpl. reflexivity.
  - intros Hmsg. unfold runtime_redirect_handler. cbn [exn_msg]. now rewrite Hmsg.
Qed.

Lemma runtime_redirect_round_trip_witness :
  runtime_redirect_handler (Exn RuntimeError "S3/MinIO not configured")
  = PlainTextResponse "S3/MinIO not configured" 500.
Proof.
  apply (runtime_redirect_round_trip RuntimeError EmptyString "S3/MinIO not configured").
  reflexivity.
Defined.

Lemma require_no_user (request : Request) (w : World) :
  get_current_user request w = (Ok None, w) ->
  _require_user_and_project request w
  = (Raise (Exn RuntimeError "AUTH_REQUIRED_REDIRECT:/login"), w).
Proof. intros Hu. unfold _require_user_and_project, bind. now rewrite Hu. Qed.

Lemma require_no_project (request : Request) (w : World) (i : nat) (u : User) :
  get_current_user request w = (Ok (Some (i, u)), w) ->
  u_active_project_id u = None \/ u_active_project_id u = Some EmptyString ->
  _require_user_and_project request w
  = (Raise (Exn RuntimeError "AUTH_REQUIRED_REDIRECT:/projects"), w).
Proof.
  intros Hu Hact. unfold _require_user_and_project, bind. rewrite Hu.
  destruct Hact as [-> | ->]; reflexivity.
Qed.

(** What the application answers when the guard raises. *)
Lemma serve_guard (request : Request) (w : World) (k : User -> M Response) (url : string) :
  _require_user_and_project request w
  = (Raise (Exn RuntimeError ("AUTH_REQUIRED_REDIRECT:" +:+ url)), w) ->
  serve (bind (_require_user_and_project request) k) w = (Ok (_redirect url), w).
Proof.
  intros Hreq. unfold serve, try_except, bind. rewrite Hreq.
  rewrite decide_True by reflexivity. unfold ret, runtime_redirect_handler.
  simpl. reflexivity.
Qed.

(** X6. No project route runs without a user and an active project: served to
    a request without a resolvable user, each of them answers with the 303
    redirect to "/login", and for a user without active project with the
    redirect to "/projects"; nothing is read from the form and nothing
    changes. *)
Theorem project_routes_guarded `{Externals} (w : World) (request : Request)
    (id s1 s2 s3 s4 s5 s6 s7 s8 s9 s10 : string) (n : Z) (file : UploadFile)
    (tids : TaskIdsField) :
  let routes :=
    [ rooms_create request s1 s2 s3; rooms_update id request s1 s2 s3;
      rooms_delete id request;
      expenses_create request s1 s2 s3 s4 s5 s6 s7 s8 s9 s10;
      expenses_update id request s1 s2 s3 s4 s5 s6 s7 s8 s9 s10;
      expenses_delete id request;
      tasks_create request s1 s2 s3 s4 n; tasks_move id request s1;
      tasks_update id request s1 s2 s3 s4 n s5; tasks_delete id request;
      documents_upload request file s1 s2 s3 s4 s5 s6 tids s7;
      documents_update id request s1 s2 s3 s4 s5 s6 s7 tids;
      documents_delete id request; documents_download id request;
      documents_preview id request ] in
  (get_current_user request w = (Ok None, w) ->
   forall h, In h routes -> serve h w = (Ok (_redirect "/login"), w))
  /\ (forall i u,
        get_current_user request w = (Ok (Some (i, u)), w) ->
        u_active_project_id u = None \/ u_active_project_id u = Some EmptyString ->
        forall h, In h routes -> serve h w = (Ok (_redirect "/projects"), w)).
Proof.
  intros routes. split.
  - intros Hu h Hin. apply require_no_user in Hu.
    unfold routes in Hin. simpl in Hin.
    repeat (destruct Hin as [<- | Hin]; [now apply (serve_guard request w _ "/login") |]).
    destruct Hin.
  - intros i u Hu Hact h Hin. pose proof (require_no_project _ _ _ _ Hu Hact) as Hreq.
    unfold routes in Hin. simpl in Hin.
    repeat (destruct Hin as [<- | Hin]; [now apply (serve_guard request w _ "/projects") |]).
    destruct Hin.
Qed.

(** ** Session and login *)

Lemma get_user_found (uid : string) (db : DB) (user : User) :
  In user (users db) ->
  u_id user = Some uid ->
  (forall u', In u' (users db) -> u_id u' = Some uid -> u' = user) ->
  exists i, get_user uid db = Some (i, user).
Proof.
  intros Hin Hid Huniq. unfold get_user.
  destruct (list_find (fun u => u_id u = Some uid) (users db)) as [[i u'] |] eqn:Hfind.
  - apply list_find_Some in Hfind as (Hi & Hu' & _).
    exists i. f_equal. f_equal. apply Huniq; [| exact Hu'].
    apply list_elem_of_In. eapply list_elem_of_lookup_2, Hi.
  - apply list_find_None in Hfind. rewrite Forall_forall in Hfind.
    destruct (Hfind user); [now apply list_elem_of_In | exact Hid].
Qed.

(** X7. Logging in and out through the session entry: after [login_user] the
    current user of the request is that user (user ids being unique), after
    [logout_user] there is none; an id that no user carries, the empty id or
    a missing entry resolve to no user. *)
Theorem session_round_trip (w : World) (request : Request) (user : User) (uid : string) :
  In user (users (work w)) ->
  u_id user = Some uid ->
  truthy uid = true ->
  (forall u', In u' (users (work w)) -> u_id u' = Some uid -> u' = user) ->
  (exists i, get_current_user (login_user request user) w = (Ok (Some (i, user)), w))
  /\ get_current_user (logout_user (login_user request user)) w = (Ok None, w)
  /\ (forall stale,
        (forall u', In u' (users (work w)) -> u_id u' <> Some stale) ->
        get_current_user {| session_user_id := Some stale |} w = (Ok None, w))
  /\ get_current_user {| session_user_id := Some EmptyString |} w = (Ok None, w).
Proof.
  intros Hin Hid Huid Huniq. repeat split.
  - destruct (get_user_found uid (work w) user Hin Hid Huniq) as (i & Hfound).
    exists i. unfold get_current_user, login_user, gets. cbn [session_user_id].
    rewrite Hid, Huid. cbn [negb]. now rewrite Hfound.
  - intros stale Hstale. unfold get_current_user, gets. simpl.
    destruct (truthy stale); [| reflexivity]. simpl.
    unfold get_user.
    destruct (list_find _ (users (work w))) as [[i u'] |] eqn:Hfind; [| reflexivity].
    apply list_find_Some in Hfind as (Hi & Hu' & _).
    destruct (Hstale u'); [| exact Hu'].
    apply list_elem_of_In. eapply list_elem_of_lookup_2, Hi.
Qed.

Lemma session_round_trip_witness :
  let w := Sample.boot ∅ Sample.calm (Sample.house "A" (Sample.task_of "A" "todo" None)) in
  (exists i, get_current_user (login_user {| session_user_id := None |} Sample.alice) w
             = (Ok (Some (i, Sample.alice)), w))
  /\ get_current_user (logout_user (login_user {| session_user_id := None |} Sample.alice)) w
     = (Ok None, w).
Proof.
  intros w.
  destruct (session_round_trip w {| session_user_id := None |} Sample.alice "u1")
    as (Hlogin & Hlogout & _).
  - left. reflexivity.
  - reflexivity.
  - reflexivity.
  - intros u' [<- | []] _. reflexivity.
  - split; [exact Hlogin | exact Hlogout].
Defined.

(** X8. [login_post] looks the user up by the trimmed, lower-cased email. An
    unknown email and a wrong password get the same answer, the login page
    with "Invalid credentials." and status 401, and leave the session as it
    was; a verified password stores the user id in the session and redirects
    to "/dashboard". The database is never changed. *)
Theorem login_post_outcomes (verify_password : string -> string -> bool) (w : World)
    (request : Request) (email password : string) :
  let found := Seed.first_user_by_email (strip (lower email)) (work w) in
  let refused := {| page_error := Some "Invalid credentials."; page_status := 401 |} in
  (found = None -> login_post verify_password request email password w
                   = (Ok (request, inl refused), w))
  /\ (forall i u,
        found = Some (i, u) ->
        login_post verify_password request email password w
        = (Ok (if verify_password password (u_password_hash u)
               then (login_user request u, inr (_redirect "/dashboard"))
               else (request, inl refused)), w))
  /\ (forall email',
        strip (lower email') = strip (lower email) ->
        login_post verify_password request email' password w
        = login_post verify_password request email password w).
Proof.
  intros found refused. unfold login_post, bind, gets. fold found. repeat split.
  - intros ->. reflexivity.
  - intros i u ->. destruct (verify_password _ _); reflexivity.
  - intros email' ->. reflexivity.
Qed.

(** ** Projects *)

(** Unfolding of the computations of the monad. *)
Ltac monad :=
  unfold commit_or_redirect, try_except, _log_exception, rollback, commit, lift,
    put_room, put_task, put_expense, put_document, put_project, set_active_project,
    utcnow, uuid4, modify, gets, raise, ret, bind.

Lemma current_user_lookup (request : Request) (w : World) (i : nat) (user : User) :
  get_current_user request w = (Ok (Some (i, user)), w) ->
  exists uid, session_user_id request = Some uid
    /\ truthy uid = true
    /\ get_user uid (work w) = Some (i, user).
Proof.
  unfold get_current_user, gets, ret.
  destruct (session_user_id request) as [uid |]; [| discriminate].
  destruct (truthy uid) eqn:Huid; simpl; [| discriminate].
  intros [= Hfound]. now exists uid.
Qed.

(** Changing a field other than the key of the row found leaves it found. *)
Lemma get_user_after_update (uid : string) (us : list User) (i : nat) (user user' : User) :
  list_find (fun u => u_id u = Some uid) us = Some (i, user) ->
  u_id user' = u_id user ->
  list_find (fun u => u_id u = Some uid) (<[i := user']> us) = Some (i, user').
Proof.
  intros Hfind Hid. apply list_find_Some in Hfind as (Hi & Hu & Hfirst).
  apply list_find_Some. split; [| split].
  - apply list_lookup_insert_eq. eapply lookup_lt_Some, Hi.
  - congruence.
  - intros j y Hj Hlt. rewrite list_lookup_insert_ne in Hj by lia. now apply (Hfirst j).
Qed.

(** X9. [projects_set_active] activates only a project that exists and is not
    archived; otherwise it redirects to "/projects" and changes nothing. When
    the commit is accepted the project is the active one of the user from the
    next request on, and no table but [users] has changed. *)
Theorem projects_set_active_spec (w : World) (request : Request) (i : nat) (user : User)
    (project_id : string) :
  get_current_user request w = (Ok (Some (i, user)), w) ->
  (projects (work w) !! project_id = None ->
   projects_set_active project_id request w = (Ok (_redirect "/projects"), w))
  /\ (forall p, projects (work w) !! project_id = Some p ->
        (p_is_archived p = true ->
         projects_set_active project_id request w = (Ok (_redirect "/projects"), w))
        /\ (p_is_archived p = false ->
            commit_fault (oracle w) (n_commit w) = None ->
            exists w1 user',
              projects_set_active project_id request w = (Ok (_redirect "/dashboard"), w1)
              /\ get_current_user request w1 = (Ok (Some (i, user')), w1)
              /\ u_active_project_id user' = Some (p_id p)
              /\ u_id user' = u_id user /\ u_email user' = u_email user
              /\ stored w1 = with_users (fun us => <[i := user']> us) (work w))).
Proof.
  intros Hcur. split.
  - intros Hp. unfold projects_set_active, bind, gets. rewrite Hcur. simpl. now rewrite Hp.
  - intros p Hp. split.
    + intros Harch. unfold projects_set_active, bind, gets. rewrite Hcur. simpl.
      now rewrite Hp, Harch.
    + intros Harch Hcommit.
      destruct (current_user_lookup _ _ _ _ Hcur) as (uid & Hsess & Huid & Hfound).
      unfold projects_set_active, bind, gets. rewrite Hcur. simpl. rewrite Hp, Harch.
      monad. simpl. rewrite Hcommit.
      set (user' := {| u_id := u_id user; u_email := u_email user;
                       u_password_hash := u_password_hash user;
                       u_active_project_id := Some (p_id p) |}).
      eexists. exists user'. split; [reflexivity |]. split; [| simpl; repeat split].
      unfold get_current_user, gets. rewrite Hsess, Huid. simpl.
      unfold get_user in *. simpl.
      now rewrite (get_user_after_update uid _ i user user' Hfound eq_refl).
Qed.

Lemma projects_set_active_spec_witness :
  let p := {| p_id := "P"; p_name := "Loft"; p_description := None; p_currency := "GBP";
              p_is_archived := false; p_created_at := 5%Z; p_updated_at := 5%Z |} in
  let w := Sample.boot ∅ Sample.calm
             (with_projects (insert "P" p)
                (Sample.house "A" (Sample.task_of "A" "todo" None))) in
  exists w1 user',
    projects_set_active "P" Sample.alice_request w = (Ok (_redirect "/dashboard"), w1)
    /\ get_current_user Sample.alice_request w1 = (Ok (Some (0%nat, user')), w1)
    /\ u_active_project_id user' = Some "P".
Proof.
  intros p w.
  destruct (projects_set_active_spec w Sample.alice_request 0%nat Sample.alice "P")
    as [_ Hsome]; [reflexivity |].
  destruct (Hsome p) as [_ Hok]; [reflexivity |].
  destruct Hok as (w1 & user' & Hrun & Hcur & Hact & _); [reflexivity | reflexivity |].
  exists w1, user'. auto.
Defined.

(** X10. [projects_create] commits twice. With both commits accepted the new
    project, named by the trimmed input (a blank name is not refused), in
    "GBP" and not archived, is stored under a fresh id and is the active
    project of its creator. When only the second commit is rejected the error
    leaves the handler with the project stored and the user's active project
    as before. *)
Theorem projects_create_spec (w : World) (request : Request) (i : nat) (user : User)
    (name description : string) :
  get_current_user request w = (Ok (Some (i, user)), w) ->
  commit_fault (oracle w) (n_commit w) = None ->
  let id := rand (oracle w) (n_rand w) in
  let now := clock (oracle w) (n_clock w) in
  let p := {| p_id := id; p_name := _clean_str (Some name);
              p_description := or_none (_clean_str (Some description));
              p_currency := "GBP"; p_is_archived := false;
              p_created_at := now; p_updated_at := now |} in
  (commit_fault (oracle w) (S (n_commit w)) = None ->
   exists w1 user',
     projects_create request name description w = (Ok (_redirect "/dashboard"), w1)
     /\ projects (stored w1) = <[id := p]> (projects (work w))
     /\ users (stored w1) = <[i := user']> (users (work w))
     /\ u_active_project_id user' = Some id /\ u_id user' = u_id user)
  /\ (forall ex,
        commit_fault (oracle w) (S (n_commit w)) = Some ex ->
        exists w1,
          projects_create request name description w = (Raise ex, w1)
          /\ projects (stored w1) = <[id := p]> (projects (work w))
          /\ users (stored w1) = users (work w)).
Proof.
  intros Hcur Hc1 id now p. split.
  - intros Hc2. unfold projects_create, bind. rewrite Hcur. monad. simpl.
    rewrite Hc1. simpl. rewrite Hc2.
    eexists. eexists. split; [reflexivity |]. simpl. auto.
  - intros ex Hc2. unfold projects_create, bind. rewrite Hcur. monad. simpl.
    rewrite Hc1. simpl. rewrite Hc2.
    eexists. split; [reflexivity |]. simpl. auto.
Qed.

Lemma projects_create_spec_witness :
  let w := Sample.boot ∅ Sample.calm (Sample.house "A" (Sample.task_of "A" "todo" None)) in
  exists w1 user',
    projects_create Sample.alice_request " Loft " "" w = (Ok (_redirect "/dashboard"), w1)
    /\ (exists p, projects (stored w1) !! "id-a" = Some p /\ p_name p = "Loft")
    /\ users (stored w1) = [user']
    /\ u_active_project_id user' = Some "id-a".
Proof.
  intros w.
  destruct (projects_create_spec w Sample.alice_request 0%nat Sample.alice " Loft " "")
    as [Hok _]; [reflexivity | reflexivity |].
  destruct Hok as (w1 & user' & Hrun & Hproj & Husers & Hact & _); [reflexivity |].
  exists w1, user'. split; [exact Hrun |]. split.
  - rewrite Hproj. eexists. split; [apply lookup_insert_eq | reflexivity].
  - split; [exact Husers | exact Hact].
Defined.

(** ** Rooms *)

Lemma active_id_signed_in (request : Request) (w : World) (user : User) (a : string) :
  signed_in request w user a -> active_id user = a.
Proof. intros (uid & i & _ & _ & _ & Hact & _). unfold active_id. now rewrite Hact. Qed.

Lemma room_name_taken_iff (a name : string) (excluding : option string) (db : DB) :
  room_name_taken a name excluding db = true <->
  exists id r0, rooms db !! id = Some r0 /\ r_project_id r0 = a
    /\ lower (r_name r0) = lower name /\ Some (r_id r0) <> excluding.
Proof.
  unfold room_name_taken. rewrite bool_decide_eq_true. unfold map_Exists. reflexivity.
Qed.

(** X11. [rooms_create] refuses a blank name with [err=missing_name] and a name
    that a room of the active project already bears, whatever the case of the
    letters, with [err=duplicate]; in both cases nothing changes. The same
    name in another project is no obstacle: with no such room in the active
    project and the commit accepted, the room is stored under a fresh id with
    the trimmed name. *)
Theorem rooms_create_checks `{Externals} (w : World) (request : Request) (user : User)
    (a name floor status : string) :
  signed_in request w user a ->
  let room_name := _clean_str (Some name) in
  let taken := exists id r0, rooms (work w) !! id = Some r0 /\ r_project_id r0 = a
                 /\ lower (r_name r0) = lower room_name in
  (truthy room_name = false ->
   rooms_create request name floor status w = (Ok (_redirect "/rooms?err=missing_name"), w))
  /\ (truthy room_name = true -> taken ->
      rooms_create request name floor status w = (Ok (_redirect "/rooms?err=duplicate"), w))
  /\ (truthy room_name = true -> ~ taken ->
      commit_fault (oracle w) (n_commit w) = None ->
      exists w1,
        rooms_create request name floor status w = (Ok (_redirect "/rooms"), w1)
        /\ rooms (stored w1)
           = <[ rand (oracle w) (n_rand w) :=
                  {| r_id := rand (oracle w) (n_rand w); r_project_id := a;
                     r_name := room_name;
                     r_floor := or_none (_clean_str (Some floor));
                     r_status := or_none (_clean_str (Some status));
                     r_created_at := clock (oracle w) (n_clock w);
                     r_updated_at := clock (oracle w) (n_clock w) |} ]> (rooms (work w))
        /\ log w1 = log w).
Proof.
  intros Hin room_name taken.
  pose proof (require_signed_in _ _ _ _ Hin) as Hreq.
  pose proof (active_id_signed_in _ _ _ _ Hin) as Ha.
  assert (room_name_taken a room_name None (work w) = true <-> taken) as Htaken.
  { rewrite room_name_taken_iff. unfold taken. split.
    - intros (id & r0 & H1 & H2 & H3 & _). eauto.
    - intros (id & r0 & H1 & H2 & H3). exists id, r0. repeat split; auto. }
  split; [| split].
  - intros Hblank. unfold rooms_create, bind. rewrite Hreq. fold room_name.
    now rewrite Hblank.
  - intros Hname Htk. unfold rooms_create, bind, gets. rewrite Hreq. fold room_name.
    rewrite Hname, Ha. cbn [negb]. apply Htaken in Htk. now rewrite Htk.
  - intros Hname Hfree Hcommit. unfold rooms_create, bind, gets. rewrite Hreq.
    fold room_name. rewrite Hname, Ha. cbn [negb].
    destruct (room_name_taken a room_name None (work w)) eqn:Htk;
      [exfalso; apply Hfree, Htaken; reflexivity |].
    monad. simpl. rewrite Hcommit. eexists. split; [reflexivity |]. simpl. auto.
Qed.

Lemma rooms_create_checks_witness :
  let w := Sample.boot ∅ Sample.calm (Sample.house "A" (Sample.task_of "A" "todo" None)) in
  let w' := Sample.boot ∅ Sample.calm (Sample.house "B" (Sample.task_of "B" "todo" None)) in
  rooms_create Sample.alice_request " kitchen " "" "" w
    = (Ok (_redirect "/rooms?err=duplicate"), w)
  /\ (exists w1, rooms_create Sample.alice_request " kitchen " "" "" w'
                 = (Ok (_redirect "/rooms"), w1)).
Proof.
  intros w w'. split.
  - destruct (rooms_create_checks w Sample.alice_request Sample.alice "A" " kitchen " "" "")
      as (_ & Hdup & _); [exists "u1", 0%nat; repeat split; reflexivity |].
    apply Hdup; [reflexivity |].
    exists "r1", (Sample.room_of "A"). split; [reflexivity |]. split; reflexivity.
  - destruct (rooms_create_checks w' Sample.alice_request Sample.alice "A" " kitchen " "" "")
      as (_ & _ & Hnew); [exists "u1", 0%nat; repeat split; reflexivity |].
    destruct Hnew as (w1 & Hrun & _); [reflexivity | | reflexivity | now exists w1].
    intros (id & r0 & Hr0 & Hproj & _).
    unfold w' in Hr0. simpl in Hr0.
    apply lookup_insert_Some in Hr0 as [[_ <-] | [_ Hr0]]; [discriminate |].
    now rewrite lookup_empty in Hr0.
Defined.

(** X12. When the database rejects the commit of [rooms_create], the pending
    room is rolled back, the error is logged and the answer is a redirect:
    [err=duplicate] exactly when the error is an [IntegrityError] whose
    message, in any case of the letters, speaks of a unique violation, and
    [err=save_failed] otherwise. *)
Theorem rooms_create_commit_failure `{Externals} (w : World) (request : Request)
    (user : User) (a name floor status : string) (ex : exn) :
  signed_in request w user a ->
  truthy (_clean_str (Some name)) = true ->
  room_name_taken a (_clean_str (Some name)) None (work w) = false ->
  commit_fault (oracle w) (n_commit w) = Some ex ->
  exists w1,
    rooms_create request name floor status w
    = (Ok (_redirect (if decide (exn_cls ex = IntegrityError)
                      then if _is_unique_violation ex then "/rooms?err=duplicate"
                           else "/rooms?err=save_failed"
                      else "/rooms?err=save_failed")), w1)
    /\ work w1 = stored w /\ stored w1 = stored w
    /\ log w1 = log w ++ [(if decide (exn_cls ex = IntegrityError)
                           then "rooms_create IntegrityError"
                           else "rooms_create Exception", ex)]
    /\ (forall msg msg',
          lower msg = lower msg' ->
          _is_unique_violation (Exn IntegrityError msg)
          = _is_unique_violation (Exn IntegrityError msg')).
Proof.
  intros Hin Hname Hfree Hfault.
  pose proof (require_signed_in _ _ _ _ Hin) as Hreq.
  pose proof (active_id_signed_in _ _ _ _ Hin) as Ha.
  unfold rooms_create, bind, gets. rewrite Hreq, Hname, Ha. cbn [negb].
  rewrite Hfree. monad. simpl. rewrite Hfault.
  destruct (decide (exn_cls ex = IntegrityError)).
  - destruct (_is_unique_violation ex); simpl;
      (eexists; split; [reflexivity |]; repeat split;
       intros msg msg' Hm; unfold _is_unique_violation; simpl; now rewrite Hm).
  - simpl. eexists. split; [reflexivity |]. repeat split.
    intros msg msg' Hm. unfold _is_unique_violation. simpl. now rewrite Hm.
Qed.

Lemma rooms_create_commit_failure_witness :
  let ex := Exn IntegrityError
              "Duplicate key value violates UNIQUE constraint uq_room_project_name" in
  let w := Sample.boot ∅ (Sample.failing ex)
             (Sample.house "B" (Sample.task_of "B" "todo" None)) in
  exists w1,
    rooms_create Sample.alice_request "Kitchen" "" "" w
    = (Ok (_redirect "/rooms?err=duplicate"), w1)
    /\ work w1 = stored w.
Proof.
  intros ex w.
  destruct (rooms_create_commit_failure w Sample.alice_request Sample.alice "A"
              "Kitchen" "" "" ex) as (w1 & Hrun & Hwork & _);
    [exists "u1", 0%nat; repeat split; reflexivity | reflexivity | reflexivity
    | reflexivity |].
  exists w1. split; [exact Hrun | exact Hwork].
Defined.

(** X13. [rooms_update] leaves the room itself out of the uniqueness check: a
    room may be renamed to its own name in another case. It refuses a blank
    name and a name borne by another room of the project, changing nothing;
    otherwise, the commit being accepted, the stored room has the new trimmed
    name, floor and status and keeps its id, project and creation time. *)
Theorem rooms_update_spec `{Externals} (w : World) (request : Request) (user : User)
    (a room_id name floor status : string) (r : Room) :
  signed_in request w user a ->
  rooms (work w) !! room_id = Some r ->
  r_project_id r = a ->
  let room_name := _clean_str (Some name) in
  let taken := exists id r0, rooms (work w) !! id = Some r0 /\ r_project_id r0 = a
                 /\ lower (r_name r0) = lower room_name /\ r_id r0 <> r_id r in
  (truthy room_name = false ->
   rooms_update room_id request name floor status w
   = (Ok (_redirect "/rooms?err=missing_name"), w))
  /\ (truthy room_name = true -> taken ->
      rooms_update room_id request name floor status w
      = (Ok (_redirect "/rooms?err=duplicate"), w))
  /\ (truthy room_name = true -> ~ taken ->
      commit_fault (oracle w) (n_commit w) = None ->
      exists w1,
        rooms_update room_id request name floor status w = (Ok (_redirect "/rooms"), w1)
        /\ rooms (stored w1)
           = <[ r_id r :=
                  {| r_id := r_id r; r_project_id := r_project_id r; r_name := room_name;
                     r_floor := or_none (_clean_str (Some floor));
                     r_status := or_none (_clean_str (Some status));
                     r_created_at := r_created_at r;
                     r_updated_at := clock (oracle w) (n_clock w) |} ]> (rooms (work w))).
Proof.
  intros Hin Hr Hown room_name taken.
  pose proof (require_signed_in _ _ _ _ Hin) as Hreq.
  pose proof (active_id_signed_in _ _ _ _ Hin) as Ha.
  destruct Hin as (uid & i & _ & _ & _ & Hact & _).
  subst a. pose proof (not_owned_same _ _ Hact) as Hmine.
  assert (room_name_taken (r_project_id r) room_name (Some (r_id r)) (work w) = true
          <-> taken) as Htaken.
  { rewrite room_name_taken_iff. unfold taken. split.
    - intros (id & r0 & H1 & H2 & H3 & H4). exists id, r0. repeat split; auto. congruence.
    - intros (id & r0 & H1 & H2 & H3 & H4). exists id, r0. repeat split; auto. congruence. }
  split; [| split].
  - intros Hblank. unfold rooms_update, bind, gets. rewrite Hreq. simpl. rewrite Hr. simpl.
    rewrite Hmine. fold room_name. now rewrite Hblank.
  - intros Hname Htk. unfold rooms_update, bind, gets. rewrite Hreq. simpl. rewrite Hr. simpl.
    rewrite Hmine. fold room_name. rewrite Hname, Ha. cbn [negb].
    apply Htaken in Htk. now rewrite Htk.
  - intros Hname Hfree Hcommit. unfold rooms_update, bind, gets. rewrite Hreq. simpl.
    rewrite Hr. simpl. rewrite Hmine. fold room_name. rewrite Hname, Ha. cbn [negb].
    destruct (room_name_taken (r_project_id r) room_name (Some (r_id r)) (work w)) eqn:Htk;
      [exfalso; apply Hfree, Htaken; reflexivity |].
    monad. simpl. rewrite Hcommit. eexists. split; reflexivity.
Qed.

Lemma rooms_update_spec_witness :
  let w := Sample.boot ∅ Sample.calm (Sample.house "A" (Sample.task_of "A" "todo" None)) in
  exists w1 r1,
    rooms_update "r1" Sample.alice_request "KITCHEN" "" "" w = (Ok (_redirect "/rooms"), w1)
    /\ rooms (stored w1) !! "r1" = Some r1
    /\ r_name r1 = "KITCHEN".
Proof.
  intros w.
  destruct (rooms_update_spec w Sample.alice_request Sample.alice "A" "r1" "KITCHEN" "" ""
              (Sample.room_of "A")) as (_ & _ & Hok);
    [exists "u1", 0%nat; repeat split; reflexivity | reflexivity | reflexivity |].
  destruct Hok as (w1 & Hrun & Hrooms); [reflexivity | | reflexivity |].
  - intros (id & r0 & Hr0 & _ & _ & Hother).
    unfold w in Hr0. simpl in Hr0.
    apply lookup_insert_Some in Hr0 as [[_ <-] | [_ Hr0]]; [now apply Hother |].
    now rewrite lookup_empty in Hr0.
  - exists w1. eexists. split; [exact Hrun |]. rewrite Hrooms.
    split; [apply lookup_insert_eq | reflexivity].
Defined.

(** X14. [rooms_delete] unlinks before it deletes: once the commit is
    accepted the room is gone; the tasks, expenses and documents of the
    active project that referred to it are still there, under the same id and
    in the same project, and refer to no room; every other task, expense and
    document is as it was, and no row is added or removed. When the commit is
    rejected everything is rolled back and the answer is [err=delete_failed]. *)
Theorem rooms_delete_unlinks `{Externals} (w : World) (request : Request) (user : User)
    (a room_id : string) (r : Room) :
  signed_in request w user a ->
  rooms (work w) !! room_id = Some r ->
  r_project_id r = a ->
  (commit_fault (oracle w) (n_commit w) = None ->
   exists w1,
     rooms_delete room_id request w = (Ok (_redirect "/rooms"), w1)
     /\ rooms (stored w1) = delete (r_id r) (rooms (work w))
     /\ (forall id, tasks (stored w1) !! id = None <-> tasks (work w) !! id = None)
     /\ (forall id, expenses (stored w1) !! id = None <-> expenses (work w) !! id = None)
     /\ (forall id, documents (stored w1) !! id = None <-> documents (work w) !! id = None)
     /\ (forall id t, tasks (work w) !! id = Some t ->
           if decide (t_project_id t = a /\ t_room_id t = Some (r_id r))
           then exists t', tasks (stored w1) !! id = Some t' /\ t_room_id t' = None
                           /\ t_id t' = t_id t /\ t_project_id t' = t_project_id t
           else tasks (stored w1) !! id = Some t)
     /\ (forall id e, expenses (work w) !! id = Some e ->
           if decide (e_project_id e = a /\ e_room_id e = Some (r_id r))
           then exists e', expenses (stored w1) !! id = Some e' /\ e_room_id e' = None
                           /\ e_id e' = e_id e /\ e_project_id e' = e_project_id e
           else expenses (stored w1) !! id = Some e)
     /\ (forall id d, documents (work w) !! id = Some d ->
           if decide (d_project_id d = a /\ d_room_id d = Some (r_id r))
           then exists d', documents (stored w1) !! id = Some d' /\ d_room_id d' = None
                           /\ d_id d' = d_id d /\ d_project_id d' = d_project_id d
           else documents (stored w1) !! id = Some d)
     /\ (forall id t, tasks (stored w1) !! id = Some t ->
                      t_project_id t = a -> t_room_id t <> Some (r_id r))
     /\ (forall id e, expenses (stored w1) !! id = Some e ->
                      e_project_id e = a -> e_room_id e <> Some (r_id r))
     /\ (forall id d, documents (stored w1) !! id = Some d ->
                      d_project_id d = a -> d_room_id d <> Some (r_id r)))
  /\ (forall ex,
        commit_fault (oracle w) (n_commit w) = Some ex ->
        exists w1,
          rooms_delete room_id request w = (Ok (_redirect "/rooms?err=delete_failed"), w1)
          /\ work w1 = stored w /\ stored w1 = stored w
          /\ log w1 = log w ++ [("rooms_delete Exception", ex)]).
Proof.
  intros Hin Hr Hown.
  pose proof (require_signed_in _ _ _ _ Hin) as Hreq.
  pose proof (active_id_signed_in _ _ _ _ Hin) as Ha.
  destruct Hin as (uid & i & _ & _ & _ & Hact & _).
  subst a. pose proof (not_owned_same _ _ Hact) as Hmine.
  split.
  - intros Hcommit. unfold rooms_delete, bind, gets. rewrite Hreq. simpl. rewrite Hr. simpl.
    rewrite Hmine, Ha. monad. simpl. rewrite Hcommit.
    eexists. split; [reflexivity |]. simpl.
    split; [reflexivity |].
    split; [intros id; rewrite lookup_fmap; apply fmap_None |].
    split; [intros id; rewrite lookup_fmap; apply fmap_None |].
    split; [intros id; rewrite lookup_fmap; apply fmap_None |].
    split; [| split; [| split]].
    + intros id t Ht. rewrite lookup_fmap, Ht. simpl. unfold unlink_task_room.
      destruct (decide _) as [Hm | Hn]; [| reflexivity].
      eexists. split; [reflexivity |]. repeat split.
    + intros id e He. rewrite lookup_fmap, He. simpl. unfold unlink_expense_room.
      destruct (decide _) as [Hm | Hn]; [| reflexivity].
      eexists. split; [reflexivity |]. repeat split.
    + intros id d Hd. rewrite lookup_fmap, Hd. simpl. unfold unlink_document_room.
      destruct (decide _) as [Hm | Hn]; [| reflexivity].
      eexists. split; [reflexivity |]. repeat split.
    + split; [| split].
      * intros id t. rewrite lookup_fmap.
        destruct (tasks (work w) !! id) as [t0 |]; [| discriminate].
        simpl. intros [= <-]. unfold unlink_task_room.
        destruct (decide _) as [[Hp Hroom] | Hn]; simpl; [discriminate |].
        intros Hp Hroom. apply Hn. auto.
      * intros id e. rewrite lookup_fmap.
        destruct (expenses (work w) !! id) as [e0 |]; [| discriminate].
        simpl. intros [= <-]. unfold unlink_expense_room.
        destruct (decide _) as [[Hp Hroom] | Hn]; simpl; [discriminate |].
        intros Hp Hroom. apply Hn. auto.
      * intros id d. rewrite lookup_fmap.
        destruct (documents (work w) !! id) as [d0 |]; [| discriminate].
        simpl. intros [= <-]. unfold unlink_document_room.
        destruct (decide _) as [[Hp Hroom] | Hn]; simpl; [discriminate |].
        intros Hp Hroom. apply Hn. auto.
  - intros ex Hfault. unfold rooms_delete, bind, gets. rewrite Hreq. simpl. rewrite Hr. simpl.
    rewrite Hmine, Ha. monad. simpl. rewrite Hfault.
    eexists. split; [reflexivity |]. simpl. auto.
Qed.

Lemma rooms_delete_unlinks_witness :
  let w := Sample.boot ∅ Sample.calm (Sample.house "A" (Sample.task_of "A" "todo" None)) in
  exists w1 t e d,
    rooms_delete "r1" Sample.alice_request w = (Ok (_redirect "/rooms"), w1)
    /\ rooms (stored w1) !! "r1" = None
    /\ tasks (stored w1) !! "t1" = Some t /\ t_room_id t = None
    /\ expenses (stored w1) !! "e1" = Some e /\ e_room_id e = None
    /\ documents (stored w1) !! "d1" = Some d /\ d_room_id d = None.
Proof.
  intros w.
  destruct (rooms_delete_unlinks w Sample.alice_request Sample.alice "A" "r1"
              (Sample.room_of "A")) as [Hok _];
    [exists "u1", 0%nat; repeat split; reflexivity | reflexivity | reflexivity |].
  destruct Hok as (w1 & Hrun & Hrooms & _ & _ & _ & Ht & He & Hd & _); [reflexivity |].
  specialize (Ht "t1" (Sample.task_of "A" "todo" None) eq_refl).
  specialize (He "e1" (Sample.expense_of "A") eq_refl).
  specialize (Hd "d1" (Sample.document_of "A") eq_refl).
  rewrite decide_True in Ht by (split; reflexivity).
  rewrite decide_True in He by (split; reflexivity).
  rewrite decide_True in Hd by (split; reflexivity).
  destruct Ht as (t & Ht & Htroom & _). destruct He as (e & He & Heroom & _).
  destruct Hd as (d & Hd & Hdroom & _).
  exists w1, t, e, d. split; [exact Hrun |].
  rewrite Hrooms. split; [apply lookup_delete_eq |].
  repeat split; assumption.
Defined.

(** X15. [expenses_delete] clears the expense reference of the documents of
    the active project before it deletes the expense: once the commit is
    accepted the expense is gone, every document is still there and none of
    the active project refers to the expense; rooms and tasks are untouched.
    When the commit is rejected everything is rolled back, the failure is
    logged and the answer is [err=delete_failed]. *)
Theorem expenses_delete_unlinks `{Externals} (w : World) (request : Request) (user : User)
    (a expense_id : string) (e : Expense) :
  signed_in request w user a ->
  expenses (work w) !! expense_id = Some e ->
  e_project_id e = a ->
  (commit_fault (oracle w) (n_commit w) = None ->
   exists w1,
     expenses_delete expense_id request w = (Ok (_redirect "/expenses"), w1)
     /\ expenses (stored w1) = delete (e_id e) (expenses (work w))
     /\ (forall id, documents (stored w1) !! id
                    = unlink_document_expense a (e_id e) <$> documents (work w) !! id)
     /\ (forall id d, documents (stored w1) !! id = Some d ->
                      d_project_id d = a -> d_expense_id d <> Some (e_id e))
     /\ rooms (stored w1) = rooms (work w)
     /\ tasks (stored w1) = tasks (work w))
  /\ (forall ex,
        commit_fault (oracle w) (n_commit w) = Some ex ->
        exists w1,
          expenses_delete expense_id request w
          = (Ok (_redirect "/expenses?err=delete_failed"), w1)
          /\ work w1 = stored w /\ stored w1 = stored w
          /\ log w1 = log w ++ [("expenses_delete Exception", ex)]).
Proof.
  intros Hin He Hown.
  pose proof (require_signed_in _ _ _ _ Hin) as Hreq.
  pose proof (active_id_signed_in _ _ _ _ Hin) as Ha.
  destruct Hin as (uid & i & _ & _ & _ & Hact & _).
  subst a. pose proof (not_owned_same _ _ Hact) as Hmine.
  split.
  - intros Hcommit. unfold expenses_delete, bind, gets. rewrite Hreq. simpl. rewrite He. simpl.
    rewrite Hmine, Ha. monad. simpl. rewrite Hcommit.
    eexists. split; [reflexivity |]. simpl.
    split; [reflexivity |].
    split; [intros id; apply lookup_fmap |].
    split; [| split; reflexivity].
    intros id d. rewrite lookup_fmap.
    destruct (documents (work w) !! id) as [d0 |]; [| discriminate].
    simpl. intros [= <-]. unfold unlink_document_expense.
    destruct (decide _) as [[Hp Hexp] | Hn]; simpl; [discriminate |].
    intros Hp Hexp. apply Hn. auto.
  - intros ex Hfault. unfold expenses_delete, bind, gets. rewrite Hreq. simpl. rewrite He. simpl.
    rewrite Hmine, Ha. monad. simpl. rewrite Hfault.
    eexists. split; [reflexivity |]. simpl. auto.
Qed.

Lemma expenses_delete_unlinks_witness :
  let w := Sample.boot ∅ Sample.calm (Sample.house "A" (Sample.task_of "A" "todo" None)) in
  exists w1 d,
    expenses_delete "e1" Sample.alice_request w = (Ok (_redirect "/expenses"), w1)
    /\ expenses (stored w1) !! "e1" = None
    /\ documents (stored w1) !! "d1" = Some d /\ d_expense_id d = None.
Proof.
  intros w.
  destruct (expenses_delete_unlinks w Sample.alice_request Sample.alice "A" "e1"
              (Sample.expense_of "A")) as [Hok _];
    [exists "u1", 0%nat; repeat split; reflexivity | reflexivity | reflexivity |].
  destruct Hok as (w1 & Hrun & Hexp & Hd & _); [reflexivity |].
  exists w1. eexists. split; [exact Hrun |].
  rewrite Hexp, Hd.
  split; [apply lookup_delete_eq |].
  split; reflexivity.
Defined.

Lemma links_of_spec (doc tid : string) (db : DB) :
  tid ∈ links_of doc db <-> is_Some (document_tasks db !! (doc, tid)).
Proof.
  unfold links_of. rewrite elem_of_map. split.
  - intros ([d' t'] & -> & Hin). apply elem_of_dom in Hin as [x Hx].
    apply map_lookup_filter_Some in Hx as [Hx Hp]. simpl in Hp. subst. eauto.
  - intros [x Hx]. exists (doc, tid). split; [reflexivity |].
    apply elem_of_dom. exists x. apply map_lookup_filter_Some. split; auto.
Qed.

(** X16. [tasks_delete] removes the links of every document to the task,
    whatever project the document is in, clears the task reference of the
    expenses of the active project and deletes the task: once the commit is
    accepted, the tasks linked to a document are those linked before except
    the deleted one, and every expense is still there. When the commit is
    rejected everything is rolled back and the answer is [err=delete_failed]. *)
Theorem tasks_delete_unlinks `{Externals} (w : World) (request : Request) (user : User)
    (a task_id : string) (t : Task) :
  signed_in request w user a ->
  tasks (work w) !! task_id = Some t ->
  t_project_id t = a ->
  (commit_fault (oracle w) (n_commit w) = None ->
   exists w1,
     tasks_delete task_id request w = (Ok (_redirect "/tasks"), w1)
     /\ tasks (stored w1) = delete (t_id t) (tasks (work w))
     /\ (forall doc, links_of doc (stored w1) = links_of doc (work w) ∖ {[ t_id t ]})
     /\ (forall id, expenses (stored w1) !! id
                    = unlink_expense_task a (t_id t) <$> expenses (work w) !! id)
     /\ (forall id e, expenses (stored w1) !! id = Some e ->
                      e_project_id e = a -> e_task_id e <> Some (t_id t))
     /\ documents (stored w1) = documents (work w))
  /\ (forall ex,
        commit_fault (oracle w) (n_commit w) = Some ex ->
        exists w1,
          tasks_delete task_id request w = (Ok (_redirect "/tasks?err=delete_failed"), w1)
          /\ work w1 = stored w /\ stored w1 = stored w
          /\ log w1 = log w ++ [("tasks_delete Exception", ex)]).
Proof.
  intros Hin Ht Hown.
  pose proof (require_signed_in _ _ _ _ Hin) as Hreq.
  pose proof (active_id_signed_in _ _ _ _ Hin) as Ha.
  destruct Hin as (uid & i & _ & _ & _ & Hact & _).
  subst a. pose proof (not_owned_same _ _ Hact) as Hmine.
  split.
  - intros Hcommit. unfold tasks_delete, bind, gets. rewrite Hreq. simpl. rewrite Ht. simpl.
    rewrite Hmine, Ha. monad. simpl. rewrite Hcommit.
    eexists. split; [reflexivity |]. simpl.
    split; [reflexivity |].
    split; [| split; [intros id; apply lookup_fmap | split; [| reflexivity]]].
    + intros doc. apply set_eq. intros tid.
      rewrite elem_of_difference, !links_of_spec, elem_of_singleton. simpl.
      unfold is_Some. split.
      * intros [x Hx]. apply map_lookup_filter_Some in Hx as [Hx Hp]. simpl in Hp. eauto.
      * intros [[x Hx] Hne]. exists x. apply map_lookup_filter_Some. auto.
    + intros id e. rewrite lookup_fmap.
      destruct (expenses (work w) !! id) as [e0 |]; [| discriminate].
      simpl. intros [= <-]. unfold unlink_expense_task.
      destruct (decide _) as [[Hp Htask] | Hn]; simpl; [discriminate |].
      intros Hp Htask. apply Hn. auto.
  - intros ex Hfault. unfold tasks_delete, bind, gets. rewrite Hreq. simpl. rewrite Ht. simpl.
    rewrite Hmine, Ha. monad. simpl. rewrite Hfault.
    eexists. split; [reflexivity |]. simpl. auto.
Qed.

Lemma tasks_delete_unlinks_witness :
  let w := Sample.boot ∅ Sample.calm (Sample.house "A" (Sample.task_of "A" "todo" None)) in
  exists w1 e,
    tasks_delete "t1" Sample.alice_request w = (Ok (_redirect "/tasks"), w1)
    /\ tasks (stored w1) !! "t1" = None
    /\ ("t1" ∉ links_of "d1" (stored w1))
    /\ expenses (stored w1) !! "e1" = Some e /\ e_task_id e = None.
Proof.
  intros w.
  destruct (tasks_delete_unlinks w Sample.alice_request Sample.alice "A" "t1"
              (Sample.task_of "A" "todo" None)) as [Hok _];
    [exists "u1", 0%nat; repeat split; reflexivity | reflexivity | reflexivity |].
  destruct Hok as (w1 & Hrun & Htasks & Hlinks & He & _); [reflexivity |].
  exists w1. eexists. split; [exact Hrun |].
  rewrite Htasks, Hlinks, He.
  split; [apply lookup_delete_eq |].
  split; [rewrite elem_of_difference, elem_of_singleton; intros [_ Hne]; now apply Hne |].
  split; reflexivity.
Defined.

(** ** Tasks and expenses: the form values *)

(** X17. [tasks_create] accepts any title, the blank one too (only
    [tasks_update] checks it). With a blank or well-formed due date and the
    commit accepted, the tasks are those there were and one more, in the
    active project, with the status "todo" and no completion time. A due date
    that does not parse leaves the handler as the error of the parser, with
    nothing changed; a rejected commit is rolled back and answered with
    [err=save_failed]. *)
Theorem tasks_create_spec `{Externals} (w : World) (request : Request) (user : User)
    (a title description room_id due_date : string) (priority : Z) :
  signed_in request w user a ->
  (forall ex, optional_date due_date = Raise ex ->
     tasks_create request title description room_id due_date priority w = (Raise ex, w))
  /\ (forall dd, optional_date due_date = Ok dd ->
      (commit_fault (oracle w) (n_commit w) = None ->
       exists w1 t,
         tasks_create request title description room_id due_date priority w
         = (Ok (_redirect "/tasks"), w1)
         /\ tasks (stored w1) = <[ rand (oracle w) (n_rand w) := t ]> (tasks (work w))
         /\ t_id t = rand (oracle w) (n_rand w)
         /\ t_project_id t = a
         /\ t_title t = _clean_str (Some title)
         /\ t_due_date t = dd
         /\ t_status t = Some "todo"
         /\ t_completed_at t = None)
      /\ (forall ex, commit_fault (oracle w) (n_commit w) = Some ex ->
          exists w1,
            tasks_create request title description room_id due_date priority w
            = (Ok (_redirect "/tasks?err=save_failed"), w1)
            /\ work w1 = stored w /\ stored w1 = stored w
            /\ log w1 = log w ++ [("tasks_create Exception", ex)]))
  /\ (truthy (_clean_str (Some due_date)) = false -> optional_date due_date = Ok None).
Proof.
  intros Hin.
  pose proof (require_signed_in _ _ _ _ Hin) as Hreq.
  pose proof (active_id_signed_in _ _ _ _ Hin) as Ha.
  split; [| split].
  - intros ex Hdd. unfold tasks_create, bind, lift. now rewrite Hreq, Hdd.
  - intros dd Hdd. split.
    + intros Hcommit. unfold tasks_create. unfold bind at 1. rewrite Hreq.
      unfold bind at 1. unfold lift at 1. rewrite Hdd. monad. simpl. rewrite Hcommit.
      eexists. eexists. split; [reflexivity |]. simpl. rewrite Ha. repeat split.
    + intros ex Hfault. unfold tasks_create. unfold bind at 1. rewrite Hreq.
      unfold bind at 1. unfold lift at 1. rewrite Hdd. monad. simpl. rewrite Hfault.
      eexists. split; [reflexivity |]. simpl. auto.
  - intros Hblank. unfold optional_date. now rewrite Hblank.
Qed.

Lemma tasks_create_spec_witness :
  let w := Sample.boot ∅ Sample.calm (Sample.house "A" (Sample.task_of "A" "todo" None)) in
  tasks_create Sample.alice_request "Paint" "" "" "2024-13-01" 3 w
  = (Raise (Exn ValueError "Invalid isoformat string"), w)
  /\ exists w1 t,
       tasks_create Sample.alice_request "  " "" "" "" 3 w = (Ok (_redirect "/tasks"), w1)
       /\ tasks (stored w1) !! "id-a" = Some t
       /\ t_title t = EmptyString /\ t_status t = Some "todo".
Proof.
  intros w. split.
  - destruct (tasks_create_spec w Sample.alice_request Sample.alice "A" "Paint" "" ""
                "2024-13-01" 3) as (Hbad & _);
      [exists "u1", 0%nat; repeat split; reflexivity |].
    apply Hbad. reflexivity.
  - destruct (tasks_create_spec w Sample.alice_request Sample.alice "A" "  " "" "" "" 3)
      as (_ & Hok & _);
      [exists "u1", 0%nat; repeat split; reflexivity |].
    destruct (Hok None) as [Hcreated _]; [reflexivity |].
    destruct Hcreated as (w1 & t & Hrun & Htasks & _ & _ & Htitle & _ & Hstatus & _);
      [reflexivity |].
    exists w1, t. split; [exact Hrun |]. rewrite Htasks.
    split; [apply lookup_insert_eq |]. split; [exact Htitle | exact Hstatus].
Defined.

(** X18. A status that is none of "todo", "doing", "blocked", "done" once
    trimmed and lower-cased: [tasks_move] changes nothing and commits nothing;
    [tasks_update] stores the other edits and keeps the status and the
    completion time of the task. [tasks_update] refuses a blank title with
    [err=missing_title] before it reads the due date, changing nothing. *)
Theorem tasks_unrecognized_status `{Externals} (w : World) (request : Request) (user : User)
    (a tid status : string) (t : Task) :
  signed_in request w user a ->
  tasks (work w) !! tid = Some t ->
  t_project_id t = a ->
  (recognized_status (lower (_clean_str (Some status))) = false ->
   tasks_move tid request status w = (Ok (_redirect "/tasks"), w)
   /\ forall title description room_id due_date priority dd,
        truthy (_clean_str (Some title)) = true ->
        optional_date due_date = Ok dd ->
        commit_fault (oracle w) (n_commit w) = None ->
        exists w1 t1,
          tasks_update tid request title description room_id due_date priority status w
          = (Ok (_redirect "/tasks"), w1)
          /\ tasks (stored w1) = <[ t_id t := t1 ]> (tasks (work w))
          /\ t_status t1 = t_status t
          /\ t_completed_at t1 = t_completed_at t
          /\ t_title t1 = _clean_str (Some title)
          /\ t_due_date t1 = dd
          /\ t_priority t1 = priority
          /\ t_created_at t1 = t_created_at t)
  /\ (forall title description room_id due_date priority,
        truthy (_clean_str (Some title)) = false ->
        tasks_update tid request title description room_id due_date priority status w
        = (Ok (_redirect "/tasks?err=missing_title"), w)).
Proof.
  intros Hin Ht Hown.
  pose proof (require_signed_in _ _ _ _ Hin) as Hreq.
  destruct Hin as (uid & i & _ & _ & _ & Hact & _).
  subst a. pose proof (not_owned_same _ _ Hact) as Hmine.
  split; [intros Hst; split |].
  - unfold tasks_move, bind, gets. rewrite Hreq. simpl. rewrite Ht. simpl.
    now rewrite Hmine, Hst.
  - intros title description room_id due_date priority dd Htitle Hdd Hcommit.
    unfold tasks_update. unfold bind at 1. rewrite Hreq.
    unfold bind at 1. unfold gets at 1. rewrite Ht. rewrite Hmine, Htitle. cbn [negb].
    unfold bind at 1. unfold lift at 1. rewrite Hdd. rewrite Hst.
    monad. simpl. rewrite Hcommit.
    eexists. eexists. split; [reflexivity |]. simpl. repeat split.
  - intros title description room_id due_date priority Htitle.
    unfold tasks_update, bind, gets. rewrite Hreq. simpl. rewrite Ht. simpl.
    now rewrite Hmine, Htitle.
Qed.

Lemma tasks_unrecognized_status_witness :
  let w := Sample.boot ∅ Sample.calm (Sample.house "A" (Sample.task_of "A" "done" (Some 7%Z))) in
  tasks_move "t1" Sample.alice_request "archived" w = (Ok (_redirect "/tasks"), w)
  /\ (exists w1 t1,
        tasks_update "t1" Sample.alice_request "Plaster walls" "" "" "" 2 "" w
        = (Ok (_redirect "/tasks"), w1)
        /\ tasks (stored w1) !! "t1" = Some t1
        /\ t_status t1 = Some "done" /\ t_completed_at t1 = Some 7%Z)
  /\ tasks_update "t1" Sample.alice_request " " "" "" "not a date" 2 "done" w
     = (Ok (_redirect "/tasks?err=missing_title"), w).
Proof.
  intros w.
  split; [| split].
  - destruct (tasks_unrecognized_status w Sample.alice_request Sample.alice "A" "t1" "archived"
                (Sample.task_of "A" "done" (Some 7%Z))) as [Hun _];
      [exists "u1", 0%nat; repeat split; reflexivity | reflexivity | reflexivity |].
    destruct Hun as [Hmove _]; [reflexivity | exact Hmove].
  - destruct (tasks_unrecognized_status w Sample.alice_request Sample.alice "A" "t1" ""
                (Sample.task_of "A" "done" (Some 7%Z))) as [Hun _];
      [exists "u1", 0%nat; repeat split; reflexivity | reflexivity | reflexivity |].
    destruct Hun as [_ Hupd]; [reflexivity |].
    destruct (Hupd "Plaster walls" "" "" "" 2%Z None)
      as (w1 & t1 & Hrun & Htasks & Hstatus & Hdone & _);
      [reflexivity | reflexivity | reflexivity |].
    exists w1, t1. split; [exact Hrun |]. rewrite Htasks.
    split; [apply lookup_insert_eq |]. split; [exact Hstatus | exact Hdone].
  - destruct (tasks_unrecognized_status w Sample.alice_request Sample.alice "A" "t1" "done"
                (Sample.task_of "A" "done" (Some 7%Z))) as [_ Hblank];
      [exists "u1", 0%nat; repeat split; reflexivity | reflexivity | reflexivity |].
    apply Hblank. reflexivity.
Defined.

(** X19. A purchase date or a gross amount that does not parse: in
    [expenses_create] the error of the parser leaves the handler, with no
    row added and nothing logged; in [expenses_update], where the parsing is
    inside the guarded block, the session is rolled back, the error is logged
    and the answer is [err=save_failed]. *)
Theorem expenses_form_errors `{Externals} (w : World) (request : Request) (user : User)
    (a purchase_date gross_amount description room_id task_id vat_rate vat_amount
     payment_method vendor notes : string) (ex : exn) :
  signed_in request w user a ->
  date_fromisoformat purchase_date = Raise ex
  \/ (exists d, date_fromisoformat purchase_date = Ok d /\ Decimal gross_amount = Raise ex) ->
  (exists w1,
     expenses_create request purchase_date gross_amount description room_id task_id
       vat_rate vat_amount payment_method vendor notes w = (Raise ex, w1)
     /\ work w1 = work w /\ stored w1 = stored w /\ log w1 = log w)
  /\ (forall eid e0,
        expenses (work w) !! eid = Some e0 -> e_project_id e0 = a ->
        exists w1,
          expenses_update eid request purchase_date gross_amount description room_id task_id
            vat_rate vat_amount payment_method vendor notes w
          = (Ok (_redirect "/expenses?err=save_failed"), w1)
          /\ work w1 = stored w /\ stored w1 = stored w
          /\ log w1 = log w ++ [("expenses_update Exception", ex)]).
Proof.
  intros Hin Hbad.
  pose proof (require_signed_in _ _ _ _ Hin) as Hreq.
  destruct Hin as (uid & i & _ & _ & _ & Hact & _).
  pose proof (not_owned_same _ _ Hact) as Hmine.
  split.
  - unfold expenses_create. unfold bind at 1. rewrite Hreq.
    unfold bind at 1. unfold utcnow at 1.
    unfold bind at 1. unfold lift at 1.
    destruct Hbad as [-> | (d & -> & Hg)].
    + eexists. split; [reflexivity |]. simpl. auto.
    + unfold bind at 1. unfold lift at 1. rewrite Hg.
      eexists. split; [reflexivity |]. simpl. auto.
  - intros eid e0 He0 Hown. subst a.
    unfold expenses_update. unfold bind at 1. rewrite Hreq.
    unfold bind at 1. unfold gets at 1. rewrite He0, Hmine.
    unfold try_except.
    unfold bind at 1. unfold lift at 1.
    destruct Hbad as [-> | (d & -> & Hg)].
    + monad. eexists. split; [reflexivity |]. simpl. auto.
    + unfold bind at 1. unfold lift at 1. rewrite Hg.
      monad. eexists. split; [reflexivity |]. simpl. auto.
Qed.

Lemma expenses_form_errors_witness :
  let w := Sample.boot ∅ Sample.calm (Sample.house "A" (Sample.task_of "A" "todo" None)) in
  let ex := Exn InvalidOperation "Invalid literal for Decimal" in
  (exists w1,
     expenses_create Sample.alice_request "2024-03-01" "12,50" "Paint" "" "" "" "" "" "" "" w
     = (Raise ex, w1)
     /\ work w1 = work w /\ stored w1 = stored w /\ log w1 = log w)
  /\ (exists w1,
        expenses_update "e1" Sample.alice_request "2024-03-01" "12,50" "Paint" "" "" "" "" "" ""
          "" w
        = (Ok (_redirect "/expenses?err=save_failed"), w1)
        /\ log w1 = [("expenses_update Exception", ex)]).
Proof.
  intros w ex.
  destruct (expenses_form_errors w Sample.alice_request Sample.alice "A" "2024-03-01" "12,50"
              "Paint" "" "" "" "" "" "" "" ex) as [Hcreate Hupdate];
    [exists "u1", 0%nat; repeat split; reflexivity
    | right; exists (Date 2024 3 1); split; reflexivity |].
  split; [exact Hcreate |].
  destruct (Hupdate "e1" (Sample.expense_of "A")) as (w1 & Hrun & _ & _ & Hlog);
    [reflexivity | reflexivity |].
  exists w1. split; [exact Hrun | exact Hlog].
Defined.

(** ** The bootstrap with [ADMIN_UPDATE=1] *)

Lemma list_find_insert_found {A} (P : A -> Prop) `{forall x, Decision (P x)}
    (l : list A) (i : nat) (x y : A) :
  list_find P l = Some (i, y) -> P x -> list_find P (<[ i := x ]> l) = Some (i, x).
Proof.
  intros Hfind Hx. apply list_find_Some in Hfind as (Hi & _ & Hbefore).
  apply list_find_Some. split; [| split; [exact Hx |]].
  - apply list_lookup_insert_eq. eapply lookup_lt_Some, Hi.
  - intros j z Hj Hlt. rewrite list_lookup_insert_ne in Hj by lia. eauto.
Qed.

Lemma list_find_insert_fresh {A} (P : A -> Prop) `{forall x, Decision (P x)}
    (l : list A) (i : nat) (x y : A) :
  list_find P l = None -> l !! i = Some y -> P x ->
  list_find P (<[ i := x ]> l) = Some (i, x).
Proof.
  intros Hfind Hi Hx. apply list_find_None in Hfind. rewrite Forall_forall in Hfind.
  apply list_find_Some. split; [| split; [exact Hx |]].
  - apply list_lookup_insert_eq. eapply lookup_lt_Some, Hi.
  - intros j z Hj Hlt. rewrite list_lookup_insert_ne in Hj by lia.
    apply Hfind. eapply list_elem_of_lookup_2, Hj.
Qed.

(** X20. On a database that holds neither a row for the configured email
    nor the "admin@local" row, the bootstrap raises [TypeError] whatever the
    environment: [User] is called with the keyword [display_name], which the
    class does not declare, and nothing is added or committed. With
    [ADMIN_UPDATE=1], one of the two rows there and the commit accepted, it
    ends with a row for the configured email that carries the hash of the
    configured password. No other row is touched, and the row that is updated
    keeps its id and its active project. *)
Theorem bootstrap_update `{Externals} (w : World) :
  let email := Seed.desired_email (environ w) in
  (Seed.first_user_by_email email (work w) = None ->
   Seed.first_user_by_email "admin@local" (work w) = None ->
   exists w1,
     Seed.ensure_admin_user w
     = (Raise (Exn TypeError "'display_name' is an invalid keyword argument for User"), w1)
     /\ work w1 = work w /\ stored w1 = stored w /\ n_commit w1 = n_commit w)
  /\ (Seed.do_update (environ w) = true ->
      commit_fault (oracle w) (n_commit w) = None ->
      Seed.first_user_by_email email (work w) <> None
      \/ Seed.first_user_by_email "admin@local" (work w) <> None ->
      exists w1 i u u0,
        Seed.ensure_admin_user w = (Ok tt, w1)
        /\ Seed.first_user_by_email email (stored w1) = Some (i, u)
        /\ u_password_hash u
           = password_hash (rand (oracle w) (n_rand w)) (Seed.desired_password (environ w))
        /\ (forall j, j <> i -> users (stored w1) !! j = users (work w) !! j)
        /\ users (work w) !! i = Some u0
        /\ u_id u = u_id u0 /\ u_active_project_id u = u_active_project_id u0).
Proof.
  intros email. split.
  - intros Huser Hdef. unfold Seed.ensure_admin_user, bind, gets. simpl.
    fold email. rewrite Huser, Hdef.
    unfold Seed.hash_password, bind, uuid4, lift, ret. simpl.
    eexists. split; [reflexivity |]. simpl. auto.
  - intros Hupd Hcommit Hrows.
    unfold Seed.ensure_admin_user. unfold bind, gets. simpl. fold email.
    destruct (Seed.first_user_by_email email (work w)) as [[i u] |] eqn:Huser.
    + rewrite Hupd. unfold Seed.hash_password, bind, uuid4, modify, commit, ret. simpl.
      rewrite Hcommit. eexists. exists i. eexists. exists u.
      split; [reflexivity |]. simpl.
      pose proof Huser as Hrow. apply list_find_Some in Hrow as (Hi & Hemail & _).
      split; [apply (list_find_insert_found _ _ _ _ u); [exact Huser | exact Hemail] |].
      split; [reflexivity |]. split; [| split; [exact Hi | split; reflexivity]].
      intros j Hj. now apply list_lookup_insert_ne.
    + destruct (Seed.first_user_by_email "admin@local" (work w)) as [[j du] |] eqn:Hdef;
        [| destruct Hrows as [Hrow | Hrow]; now destruct Hrow].
      rewrite Hupd. unfold Seed.hash_password, bind, uuid4, modify, commit, ret. simpl.
      rewrite Hcommit. eexists. exists j. eexists. exists du.
      split; [reflexivity |]. simpl.
      pose proof Hdef as Hrow. apply list_find_Some in Hrow as (Hj & _ & _).
      split; [apply (list_find_insert_fresh _ _ _ _ du);
                [exact Huser | exact Hj | reflexivity] |].
      split; [reflexivity |]. split; [| split; [exact Hj | split; reflexivity]].
      intros k Hk. now apply list_lookup_insert_ne.
Qed.

Lemma bootstrap_update_witness :
  let admin := {| u_id := Some "1"; u_email := "admin@local"; u_password_hash := "h";
                  u_active_project_id := Some "A" |} in
  let env := <["ADMIN_UPDATE" := "1"]> (<["ADMIN_EMAIL" := "Bob@Local "]>
               (∅ : gmap string string)) in
  let w := Sample.boot env Sample.calm (with_users (fun _ => [admin]) empty_db) in
  let w0 := Sample.boot env Sample.calm empty_db in
  (exists w1,
     Seed.ensure_admin_user w = (Ok tt, w1)
     /\ users (stored w1)
        = [ {| u_id := Some "1"; u_email := "bob@local";
               u_password_hash := password_hash "id-a" "admin";
               u_active_project_id := Some "A" |} ])
  /\ (exists w1,
        Seed.ensure_admin_user w0
        = (Raise (Exn TypeError "'display_name' is an invalid keyword argument for User"), w1)
        /\ stored w1 = empty_db).
Proof.
  intros admin env w w0. split.
  - destruct (bootstrap_update w) as [_ Hupdate].
    destruct Hupdate as (w1 & i & u & u0 & Hrun & _);
      [reflexivity | reflexivity | right; discriminate |].
    exists w1. split; [exact Hrun |].
    assert (w1 = snd (Seed.ensure_admin_user w)) as -> by now rewrite Hrun.
    reflexivity.
  - destruct (bootstrap_update w0) as [Hfresh _].
    destruct Hfresh as (w1 & Hrun & _ & Hstored & _); [reflexivity | reflexivity |].
    exists w1. split; [exact Hrun | exact Hstored].
Defined.

(** ** Object storage *)

Ltac storage :=
  unfold Storage.ensure_bucket_exists, Storage.upload_bytes, Storage.presigned_get_url,
    Storage.get_s3_internal, Storage.get_s3_public_for_signing, Storage._client,
    Storage.head_bucket, Storage.create_bucket, Storage.put_object,
    Storage.generate_presigned_url, Storage.client_error, Storage.s3_enabled,
    bind, gets, modify, raise, ret.

(** X21. With object storage configured, [ensure_bucket_exists] succeeds
    whether the bucket is there or not, creates it only when it is missing and
    does nothing when run again. An upload that follows puts the bytes under
    the key in the configured bucket, with the content type when it is given
    and not empty, and leaves every other object and bucket as it was. *)
Theorem storage_upload_round_trip `{Externals} (w : World) (key data : string)
    (ctype : option string) :
  Storage.s3_enabled w = (Ok true, w) ->
  let bucket := minio_bucket (settings w) in
  exists w1 w2 objs,
    Storage.ensure_bucket_exists w = (Ok tt, w1)
    /\ Storage.ensure_bucket_exists w1 = (Ok tt, w1)
    /\ s3 w1 = match s3 w !! bucket with
               | Some _ => s3 w
               | None => <[ bucket := ∅ ]> (s3 w)
               end
    /\ Storage.upload_bytes key data ctype w1 = (Ok tt, w2)
    /\ s3 w2 !! bucket = Some objs
    /\ objs !! key = Some {| o_body := data;
                             o_content_type := match ctype with
                                               | Some ct => or_none ct
                                               | None => None
                                               end |}
    /\ (forall k, k <> key -> objs !! k = default ∅ (s3 w !! bucket) !! k)
    /\ (forall b, b <> bucket -> s3 w2 !! b = s3 w !! b)
    /\ work w2 = work w /\ stored w2 = stored w.
Proof.
  intros Hen bucket. rewrite s3_enabled_eq in Hen.
  assert (truthy (minio_endpoint (settings w)) && truthy (minio_access_key (settings w))
          && truthy (minio_secret_key (settings w)) && truthy (minio_bucket (settings w))
          = true) as Hcfg by congruence.
  clear Hen.
  destruct (s3 w !! bucket) as [objs0 |] eqn:Hb.
  - exists w. eexists. eexists.
    assert (Storage.ensure_bucket_exists w = (Ok tt, w)) as Hensure.
    { storage. simpl. rewrite Hcfg. simpl. fold bucket. now rewrite Hb. }
    split; [exact Hensure |]. split; [exact Hensure |]. split; [reflexivity |].
    split; [storage; simpl; rewrite Hcfg; simpl; fold bucket; rewrite Hb; reflexivity |].
    simpl. split; [apply lookup_insert_eq |].
    split; [apply lookup_insert_eq |].
    split; [intros k Hk; now apply lookup_insert_ne |].
    split; [intros b Hne; now apply lookup_insert_ne |].
    split; reflexivity.
  - eexists. eexists. eexists.
    split; [storage; simpl; rewrite Hcfg; simpl; fold bucket; rewrite Hb; simpl;
            rewrite Hb; reflexivity |].
    split; [storage; simpl; rewrite Hcfg; simpl; fold bucket;
            rewrite lookup_insert_eq; reflexivity |].
    split; [reflexivity |].
    split; [storage; simpl; rewrite Hcfg; simpl; fold bucket;
            rewrite lookup_insert_eq; reflexivity |].
    simpl. split; [apply lookup_insert_eq |].
    split; [apply lookup_insert_eq |].
    split; [intros k Hk; now apply lookup_insert_ne |].
    split; [intros b Hne; now rewrite !lookup_insert_ne |].
    split; reflexivity.
Qed.

Lemma storage_upload_round_trip_witness :
  let env := <["MINIO_ACCESS_KEY" := "minio"]> (<["MINIO_SECRET_KEY" := "secret"]>
               (∅ : gmap string string)) in
  let w := Sample.boot env Sample.calm empty_db in
  exists w1 w2 objs,
    Storage.ensure_bucket_exists w = (Ok tt, w1)
    /\ Storage.upload_bytes "A/2024-03/x_receipt.pdf" "bytes" (Some "") w1 = (Ok tt, w2)
    /\ s3 w2 !! "renovation" = Some objs
    /\ objs !! "A/2024-03/x_receipt.pdf"
       = Some {| o_body := "bytes"; o_content_type := None |}.
Proof.
  intros env w.
  destruct (storage_upload_round_trip w "A/2024-03/x_receipt.pdf" "bytes" (Some ""))
    as (w1 & w2 & objs & Hensure & _ & _ & Hput & Hbucket & Hobj & _); [reflexivity |].
  exists w1, w2, objs. split; [exact Hensure |]. split; [exact Hput |].
  split; [exact Hbucket | exact Hobj].
Defined.

Lemma truthy_rstrip_char (a : ascii) (s : string) :
  truthy (rstrip_char a s) = negb (free_of (fun c => negb (Ascii.eqb c a)) s).
Proof.
  induction s as [| c s IH]; simpl; [reflexivity |].
  rewrite IH, !negb_involutive.
  destruct (Ascii.eqb c a), (free_of _ s); reflexivity.
Qed.

Lemma rstrip_char_idem (a : ascii) (s : string) :
  rstrip_char a (rstrip_char a s) = rstrip_char a s.
Proof.
  induction s as [| c s IH]; simpl; [reflexivity |].
  destruct (Ascii.eqb c a && negb (truthy (rstrip_char a s))) eqn:Hc; [reflexivity |].
  simpl. now rewrite IH, Hc.
Qed.

(** X22. For settings loaded from the environment, object storage is enabled
    exactly when [MINIO_ACCESS_KEY] and [MINIO_SECRET_KEY] are set and not
    empty, [MINIO_BUCKET] is not set to the empty string, and the endpoint
    ([MINIO_ENDPOINT], or "http://minio:9000" when it is unset) is not made of
    slashes only. A default applies only to a variable that is unset, so an
    environment without the two keys leaves storage disabled. *)
Theorem storage_enabled_by_environment `{Externals} (w : World) :
  settings w = load (environ w) ->
  let env := environ w in
  let given name := exists v, env !! name = Some v /\ truthy v = true in
  Storage.s3_enabled w = (Ok true, w)
  <-> free_of (fun c => negb (Ascii.eqb c "/"))
        (getenv_default env "MINIO_ENDPOINT" "http://minio:9000") = false
      /\ given "MINIO_ACCESS_KEY" /\ given "MINIO_SECRET_KEY"
      /\ env !! "MINIO_BUCKET" <> Some EmptyString.
Proof.
  intros Hload env given. rewrite s3_enabled_eq, Hload. simpl. fold env.
  rewrite truthy_rstrip_char. unfold getenv_default at 2 3 4.
  assert (forall name, truthy (default EmptyString (env !! name)) = true <-> given name)
    as Hgiven.
  { intros name. unfold given. destruct (env !! name) as [v |]; simpl.
    - split; [intros Hv; now exists v | intros (v' & [= <-] & Hv); exact Hv].
    - split; [discriminate | intros (v' & [=] & _)]. }
  assert (truthy (default "renovation" (env !! "MINIO_BUCKET")) = true
          <-> env !! "MINIO_BUCKET" <> Some EmptyString) as Hbucket.
  { destruct (env !! "MINIO_BUCKET") as [[| c v] |]; simpl.
    - split; [discriminate | intros Hn; now destruct Hn].
    - split; [discriminate | reflexivity].
    - split; [discriminate | reflexivity]. }
  rewrite <- !Hgiven, <- Hbucket. split.
  - intros [= Hb]. rewrite !andb_true_iff, negb_true_iff in Hb. tauto.
  - intros (He & Ha & Hs & Hb). now rewrite He, Ha, Hs, Hb.
Qed.

Lemma storage_enabled_by_environment_witness :
  Storage.s3_enabled (Sample.boot ∅ Sample.calm empty_db)
  <> (Ok true, Sample.boot ∅ Sample.calm empty_db).
Proof.
  intros Hon.
  destruct (storage_enabled_by_environment (Sample.boot ∅ Sample.calm empty_db)) as [Hen _];
    [reflexivity |].
  destruct (Hen Hon) as (_ & (v & Hv & _) & _). discriminate Hv.
Defined.

(** X23. [documents_download] and [documents_preview] of a document of the
    active project: with storage configured both answer the 302 redirect to
    the same URL, signed for one hour for the key of the document, by a client
    of the public endpoint when one is set and of the internal endpoint
    otherwise; with storage not configured the application answers the plain
    text "S3/MinIO not configured" with status 500. Nothing is changed. *)
Theorem documents_download_spec `{Externals} (w : World) (request : Request) (user : User)
    (a doc_id : string) (d : Document) :
  signed_in request w user a ->
  documents (work w) !! doc_id = Some d ->
  d_project_id d = a ->
  let st := settings w in
  let c := {| endpoint_url :=
                rstrip_char "/" (if truthy (minio_public_endpoint st)
                                 then minio_public_endpoint st else minio_endpoint st);
              aws_access_key_id := minio_access_key st;
              aws_secret_access_key := minio_secret_key st;
              region_name := getenv_default (environ w) "AWS_REGION" "us-east-1" |} in
  (Storage.s3_enabled w = (Ok true, w) ->
   documents_download doc_id request w
   = (Ok (RedirectResponse (presign c (minio_bucket st) (d_s3_key d) 3600) 302), w)
   /\ documents_preview doc_id request w = documents_download doc_id request w)
  /\ (Storage.s3_enabled w = (Ok false, w) ->
      serve (documents_download doc_id request) w
      = (Ok (PlainTextResponse "S3/MinIO not configured" 500), w)
      /\ serve (documents_preview doc_id request) w
         = (Ok (PlainTextResponse "S3/MinIO not configured" 500), w))
  /\ (st = load (environ w) ->
      endpoint_url c = if truthy (minio_public_endpoint st)
                       then minio_public_endpoint st else minio_endpoint st).
Proof.
  intros Hin Hd Hown st c.
  pose proof (require_signed_in _ _ _ _ Hin) as Hreq.
  destruct Hin as (uid & i & _ & _ & _ & Hact & _).
  subst a. pose proof (not_owned_same _ _ Hact) as Hmine.
  split; [| split].
  - intros Hen. rewrite s3_enabled_eq in Hen.
    assert (truthy (minio_endpoint st) && truthy (minio_access_key st)
            && truthy (minio_secret_key st) && truthy (minio_bucket st) = true) as Hcfg
      by (unfold st; congruence).
    assert (documents_download doc_id request w
            = (Ok (RedirectResponse (presign c (minio_bucket st) (d_s3_key d) 3600) 302), w))
      as Hdown.
    { unfold documents_download. unfold bind at 1. rewrite Hreq.
      unfold bind at 1. unfold gets at 1. rewrite Hd, Hmine.
      storage. simpl. fold st. rewrite Hcfg. reflexivity. }
    split; [exact Hdown |]. reflexivity.
  - intros Hoff. rewrite s3_enabled_eq in Hoff.
    assert (truthy (minio_endpoint st) && truthy (minio_access_key st)
            && truthy (minio_secret_key st) && truthy (minio_bucket st) = false) as Hcfg
      by (unfold st; congruence).
    assert (serve (documents_download doc_id request) w
            = (Ok (PlainTextResponse "S3/MinIO not configured" 500), w)) as Hdown.
    { unfold serve, try_except, documents_download. unfold bind at 1. rewrite Hreq.
      unfold bind at 1. unfold gets at 1. rewrite Hd, Hmine.
      storage. simpl. fold st. rewrite Hcfg. reflexivity. }
    split; [exact Hdown |]. exact Hdown.
  - intros Hload. unfold c. cbn [endpoint_url]. rewrite Hload. simpl.
    destruct (truthy (rstrip_char "/" _)); apply rstrip_char_idem.
Qed.

Lemma documents_download_spec_witness :
  let env := <["MINIO_ACCESS_KEY" := "minio"]> (<["MINIO_SECRET_KEY" := "secret"]>
               (<["MINIO_PUBLIC_ENDPOINT" := "https://files.example/"]>
                  (∅ : gmap string string))) in
  let w := Sample.boot env Sample.calm (Sample.house "A" (Sample.task_of "A" "todo" None)) in
  let w0 := Sample.boot ∅ Sample.calm (Sample.house "A" (Sample.task_of "A" "todo" None)) in
  documents_download "d1" Sample.alice_request w
  = (Ok (RedirectResponse "https://files.example/renovation/B/2024-03/x_receipt.pdf" 302), w)
  /\ serve (documents_download "d1" Sample.alice_request) w0
     = (Ok (PlainTextResponse "S3/MinIO not configured" 500), w0).
Proof.
  intros env w w0. split.
  - destruct (documents_download_spec w Sample.alice_request Sample.alice "A" "d1"
                (Sample.document_of "A")) as (Hon & _ & _);
      [exists "u1", 0%nat; repeat split; reflexivity | reflexivity | reflexivity |].
    destruct Hon as [Hdown _]; [reflexivity | exact Hdown].
  - destruct (documents_download_spec w0 Sample.alice_request Sample.alice "A" "d1"
                (Sample.document_of "A")) as (_ & Hoff & _);
      [exists "u1", 0%nat; repeat split; reflexivity | reflexivity | reflexivity |].
    destruct Hoff as [Hdown _]; [reflexivity | exact Hdown].
Defined.

(** ** Documents and their links to tasks *)

Lemma same_but_links_refl (w : World) : same_but_links w w.
Proof. unfold same_but_links. repeat split. destruct (work w). reflexivity. Qed.

Lemma same_but_links_trans (w w1 w2 : World) :
  same_but_links w w1 -> same_but_links w1 w2 -> same_but_links w w2.
Proof.
  unfold same_but_links.
  intros (? & ? & ? & ? & ? & ? & ? & ? & Hw1) (? & ? & ? & ? & ? & ? & ? & ? & Hw2).
  repeat split; try congruence.
  rewrite Hw2 at 1. rewrite Hw1. reflexivity.
Qed.

Lemma same_but_links_tasks (w w' : World) :
  same_but_links w w' -> tasks (work w') = tasks (work w).
Proof. intros (_ & _ & _ & _ & _ & _ & _ & _ & ->). reflexivity. Qed.

Lemma link_task_step `{Externals} (user : User) (a doc tid : string) (w : World) :
  u_active_project_id user = Some a ->
  exists w',
    link_task user doc tid w = (Ok tt, w')
    /\ same_but_links w w'
    /\ (linkable a (work w) tid = true ->
        exists now, document_tasks (work w')
                    = <[ (doc, tid) := now ]> (document_tasks (work w)))
    /\ (linkable a (work w) tid = false ->
        document_tasks (work w') = document_tasks (work w)).
Proof.
  intros Hact. unfold link_task, linkable, bind, gets.
  destruct (tasks (work w) !! tid) as [t |].
  - unfold not_owned. rewrite Hact.
    destruct (decide (t_project_id t = a)) as [-> | Hne].
    + rewrite !bool_decide_eq_true_2 by reflexivity. simpl.
      eexists. split; [reflexivity |]. split; [| split; [eauto | discriminate]].
      unfold same_but_links. simpl. repeat split.
    + rewrite !bool_decide_eq_false_2 by congruence. simpl.
      exists w. split; [reflexivity |]. split; [apply same_but_links_refl |].
      split; [discriminate | reflexivity].
  - exists w. split; [reflexivity |]. split; [apply same_but_links_refl |].
    split; [discriminate | reflexivity].
Qed.

(** The links after the loop [for tid in tids: ...] of the two handlers. *)
Lemma link_tasks_links `{Externals} (user : User) (a doc : string) (tids : list string)
    (w : World) :
  u_active_project_id user = Some a ->
  exists w',
    for_each tids (link_task user doc) w = (Ok tt, w')
    /\ same_but_links w w'
    /\ (forall d t, is_Some (document_tasks (work w') !! (d, t))
                    <-> is_Some (document_tasks (work w) !! (d, t))
                        \/ (d = doc /\ In t tids /\ linkable a (work w) t = true))
    /\ (forall d t, d <> doc \/ ~ In t tids ->
                    document_tasks (work w') !! (d, t) = document_tasks (work w) !! (d, t)).
Proof.
  intros Hact. revert w. induction tids as [| tid tids IH]; intros w.
  - exists w. split; [reflexivity |]. split; [apply same_but_links_refl |].
    split; [| reflexivity]. intros d t. simpl. tauto.
  - simpl. unfold bind at 1.
    destruct (link_task_step user a doc tid w Hact) as (w1 & -> & Hsame1 & Hyes & Hno).
    destruct (IH w1) as (w' & Hrun & Hsame & Hdom & Hother).
    exists w'. split; [exact Hrun |].
    split; [eapply same_but_links_trans; eassumption |].
    assert (forall t, linkable a (work w1) t = linkable a (work w) t) as Hlinkable
      by (intros t; unfold linkable; now rewrite (same_but_links_tasks _ _ Hsame1)).
    destruct (linkable a (work w) tid) eqn:Hl.
    + destruct (Hyes eq_refl) as (now & Hdt). split.
      * intros d t. rewrite Hdom, Hdt, Hlinkable.
        destruct (decide ((doc, tid) = (d, t))) as [[= <- <-] | Hne].
        -- rewrite lookup_insert_eq. split; [| eauto]. intros _. right. auto.
        -- rewrite lookup_insert_ne by exact Hne. split.
           ++ intros [Hold | (Hd & Ht & Hlt)]; [now left | right; auto].
           ++ intros [Hold | (Hd & [Ht | Ht] & Hlt)]; [now left | | right; auto].
              subst. now destruct Hne.
      * intros d t Hout. rewrite Hother by tauto. rewrite Hdt.
        apply lookup_insert_ne. intros [= <- <-]. tauto.
    + rewrite (Hno eq_refl) in *. split.
      * intros d t. rewrite Hdom, Hlinkable. split.
        -- intros [Hold | (Hd & Ht & Hlt)]; [now left | right; auto].
        -- intros [Hold | (Hd & [Ht | Ht] & Hlt)]; [now left | | right; auto].
           subst. congruence.
      * intros d t Hout. rewrite Hother by tauto. reflexivity.
Qed.

(** X24. [documents_update] reconciles the links of the document with the
    task ids of the form: once the commit is accepted, the document is linked
    to exactly the submitted ids that were linked before or that name a task
    of the active project; a link that is kept keeps its creation time, and
    the links of the other documents are as they were. The document keeps its
    id, its project, its storage key and its creation time. *)
Theorem documents_update_links `{Externals} (w : World) (request : Request) (user : User)
    (a doc_id doc_type photo_group title notes tags room_id expense_id : string)
    (task_ids : TaskIdsField) (d : Document) :
  signed_in request w user a ->
  documents (work w) !! doc_id = Some d ->
  d_project_id d = a ->
  commit_fault (oracle w) (n_commit w) = None ->
  let submitted := _parse_task_ids task_ids in
  let existing := links_of (d_id d) (work w) in
  exists w1 d1,
    documents_update doc_id request doc_type photo_group title notes tags room_id expense_id
      task_ids w = (Ok (_redirect "/documents"), w1)
    /\ (forall tid, tid ∈ links_of (d_id d) (stored w1)
                    <-> In tid submitted
                        /\ (tid ∈ existing \/ linkable a (work w) tid = true))
    /\ (forall tid, tid ∈ existing -> In tid submitted ->
                    document_tasks (stored w1) !! (d_id d, tid)
                    = document_tasks (work w) !! (d_id d, tid))
    /\ (forall doc tid, doc <> d_id d ->
                        document_tasks (stored w1) !! (doc, tid)
                        = document_tasks (work w) !! (doc, tid))
    /\ documents (stored w1) = <[ d_id d := d1 ]> (documents (work w))
    /\ d_id d1 = d_id d /\ d_project_id d1 = d_project_id d
    /\ d_s3_key d1 = d_s3_key d /\ d_created_at d1 = d_created_at d
    /\ tasks (stored w1) = tasks (work w).
Proof.
  intros Hin Hd Hown Hcommit submitted existing.
  pose proof (require_signed_in _ _ _ _ Hin) as Hreq.
  destruct Hin as (uid & i & _ & _ & _ & Hact & _).
  subst a. pose proof (not_owned_same _ _ Hact) as Hmine.
  unfold documents_update. unfold bind at 1. rewrite Hreq.
  unfold bind at 1. unfold gets at 1. rewrite Hd, Hmine.
  unfold bind at 1. unfold utcnow at 1.
  unfold bind at 1. unfold put_document at 1. unfold modify at 1.
  unfold bind at 1. unfold gets at 1.
  match goal with |- context [with_documents (insert _ ?x)] => set (d1 := x) end.
  change (d_id d1) with (d_id d).
  set (wa := set_work (with_documents <[d_id d := d1]>) (tick_clock w)).
  change (document_tasks (work wa)) with (document_tasks (work w)).
  fold (links_of (d_id d) (work w)). fold existing. fold submitted. cbn beta.
  set (to_remove := existing ∖ list_to_set submitted).
  set (to_add := list_to_set submitted ∖ existing).
  assert (exists wb,
            (if bool_decide (to_remove ≠ ∅)
             then modify (set_work (with_document_tasks
                    (filter (fun kv : string * string * datetime =>
                               ¬ (kv.1.1 = d_id d ∧ kv.1.2 ∈ to_remove)))))
             else ret tt) wa = (Ok tt, wb)
            /\ same_but_links wa wb
            /\ (forall doc tid,
                  document_tasks (work wb) !! (doc, tid)
                  = if decide (doc = d_id d ∧ tid ∈ to_remove) then None
                    else document_tasks (work w) !! (doc, tid)))
    as (wb & Hrun_b & Hsame_b & Hdt_b).
  { destruct (bool_decide (to_remove ≠ ∅)) eqn:Hrem.
    - eexists. split; [reflexivity |]. split.
      + unfold same_but_links. simpl. repeat split.
      + intros doc tid. simpl.
        destruct (decide (doc = d_id d ∧ tid ∈ to_remove)) as [Hout | Hkeep].
        * apply map_lookup_filter_None. right. intros x _ Hp. now apply Hp.
        * destruct (document_tasks (work w) !! (doc, tid)) as [x |] eqn:Hx.
          -- apply map_lookup_filter_Some. split; [exact Hx | exact Hkeep].
          -- apply map_lookup_filter_None. now left.
    - exists wa. split; [reflexivity |]. split; [apply same_but_links_refl |].
      intros doc tid. apply bool_decide_eq_false in Hrem.
      assert (to_remove = ∅) as -> by (destruct (decide (to_remove = ∅)); tauto).
      rewrite decide_False; [reflexivity |].
      intros [_ Hnone]. now apply not_elem_of_empty in Hnone. }
  unfold bind at 1. rewrite Hrun_b.
  destruct (link_tasks_links user (d_project_id d) (d_id d) (elements to_add) wb Hact)
    as (wc & Hrun_c & Hsame_c & Hdom_c & Hother_c).
  unfold bind at 1. rewrite Hrun_c.
  pose proof (same_but_links_trans _ _ _ Hsame_b Hsame_c) as Hsame.
  assert (forall t, linkable (d_project_id d) (work wb) t
                    = linkable (d_project_id d) (work w) t) as Hlinkable
    by (intros t; unfold linkable; now rewrite (same_but_links_tasks _ _ Hsame_b)).
  destruct Hsame as (_ & _ & Horacle & _ & Hn & _ & _ & _ & Hwork).
  unfold bind, commit, ret. rewrite Horacle, Hn. simpl. rewrite Hcommit.
  exists (set_stored (work wc) (tick_commit wc)), d1.
  split; [reflexivity |]. simpl.
  assert (forall tid, In tid (elements to_add) <-> In tid submitted /\ tid ∉ existing)
    as Hadd.
  { intros tid. rewrite <- list_elem_of_In, elem_of_elements. unfold to_add.
    rewrite elem_of_difference, elem_of_list_to_set, list_elem_of_In. reflexivity. }
  assert (forall tid, tid ∈ to_remove <-> tid ∈ existing /\ ~ In tid submitted) as Hrem.
  { intros tid. unfold to_remove.
    rewrite elem_of_difference, elem_of_list_to_set, list_elem_of_In. reflexivity. }
  split; [| split; [| split; [| split]]].
  - intros tid. rewrite links_of_spec, Hdom_c, Hdt_b, Hadd, Hlinkable.
    destruct (decide (d_id d = d_id d ∧ tid ∈ to_remove)) as [[_ Hout] | Hkeep].
    + apply Hrem in Hout as [Hex Hnot]. split.
      * intros [[x [=]] | (_ & [Hsub _] & _)]; contradiction.
      * intros [Hsub _]. contradiction.
    + fold (is_Some (document_tasks (work w) !! (d_id d, tid))).
      rewrite <- (links_of_spec (d_id d) tid (work w)). fold existing.
      rewrite Hrem in Hkeep.
      destruct (decide (tid ∈ existing)) as [Hex | Hnex];
        destruct (in_dec String.string_dec tid submitted) as [Hsub | Hnsub]; tauto.
  - intros tid Hex Hsub. rewrite Hother_c by (right; rewrite Hadd; tauto).
    rewrite Hdt_b. apply decide_False. rewrite Hrem. tauto.
  - intros doc tid Hdoc. rewrite Hother_c by now left.
    rewrite Hdt_b. apply decide_False. tauto.
  - rewrite Hwork. reflexivity.
  - repeat split. rewrite Hwork. reflexivity.
Qed.

Lemma documents_update_links_witness :
  let db := with_tasks (insert "t2" {| t_id := "t2"; t_project_id := "B"; t_room_id := None;
                                       t_title := "Roof"; t_description := None;
                                       t_due_date := None; t_priority := 3%Z;
                                       t_status := Some "todo"; t_created_at := 21%Z;
                                       t_updated_at := 21%Z; t_completed_at := None |})
              (Sample.house "A" (Sample.task_of "A" "todo" None)) in
  let w := Sample.boot ∅ Sample.calm db in
  exists w1,
    documents_update "d1" Sample.alice_request "photo" "" "" "" "" "" ""
      (ManyTaskIds ["t1"; "t2"; "t3"]) w = (Ok (_redirect "/documents"), w1)
    /\ ("t1" ∈ links_of "d1" (stored w1))
    /\ ("t2" ∉ links_of "d1" (stored w1))
    /\ ("t3" ∉ links_of "d1" (stored w1))
    /\ document_tasks (stored w1) !! ("d1", "t1") = Some 40%Z.
Proof.
  intros db w.
  destruct (documents_update_links w Sample.alice_request Sample.alice "A" "d1" "photo" "" ""
              "" "" "" "" (ManyTaskIds ["t1"; "t2"; "t3"]) (Sample.document_of "A"))
    as (w1 & d1 & Hrun & Hlinks & Hkept & _);
    [exists "u1", 0%nat; repeat split; reflexivity | reflexivity | reflexivity | reflexivity |].
  assert ("t1" ∈ links_of (d_id (Sample.document_of "A")) (work w)) as Hlinked
    by (apply links_of_spec; eexists; reflexivity).
  exists w1. split; [exact Hrun |].
  split; [apply Hlinks; split; [left; reflexivity | left; exact Hlinked] |].
  split; [intros Ht2; apply Hlinks in Ht2 as [_ [Hold | Hnew]];
          [apply links_of_spec in Hold as [x Hx]; discriminate Hx | discriminate Hnew] |].
  split; [intros Ht3; apply Hlinks in Ht3 as [_ [Hold | Hnew]];
          [apply links_of_spec in Hold as [x Hx]; discriminate Hx | discriminate Hnew] |].
  etransitivity; [apply (Hkept "t1" Hlinked); left; reflexivity | reflexivity].
Defined.

Lemma or_else_truthy (o : option string) (d : string) :
  truthy d = true -> truthy (or_else o d) = true.
Proof.
  intros Hd. unfold or_else. destruct o as [s |]; [| exact Hd].
  destruct (truthy s) eqn:Hs; [exact Hs | exact Hd].
Qed.

(** What follows the upload in [documents_upload]: the row is committed, then
    the links are added and committed. *)
Lemma documents_upload_tail `{Externals} (user : User) (a : string) (d : Document)
    (tids : list string) (wu : World) :
  u_active_project_id user = Some a ->
  commit_fault (oracle wu) (n_commit wu) = None ->
  commit_fault (oracle wu) (S (n_commit wu)) = None ->
  exists w1,
    (run put_document d; run commit; run for_each tids (link_task user (d_id d));
     run commit; ret (_redirect "/documents")) wu = (Ok (_redirect "/documents"), w1)
    /\ s3 w1 = s3 wu
    /\ documents (stored w1) = <[ d_id d := d ]> (documents (work wu))
    /\ tasks (stored w1) = tasks (work wu)
    /\ (forall doc tid,
          is_Some (document_tasks (stored w1) !! (doc, tid))
          <-> is_Some (document_tasks (work wu) !! (doc, tid))
              \/ (doc = d_id d /\ In tid tids /\ linkable a (work wu) tid = true)).
Proof.
  intros Hact Hc1 Hc2.
  unfold bind at 1. unfold put_document, modify.
  unfold bind at 1. unfold commit at 1. simpl. rewrite Hc1.
  set (wa := set_stored _ _).
  destruct (link_tasks_links user a (d_id d) tids wa Hact)
    as (wc & Hrun & Hsame & Hdom & _).
  unfold bind at 1. rewrite Hrun.
  destruct Hsame as (_ & _ & Horacle & _ & Hn & _ & Hs3 & _ & Hwork).
  unfold bind, commit, ret. rewrite Horacle, Hn. simpl. rewrite Hc2.
  eexists. split; [reflexivity |]. simpl.
  split; [exact Hs3 |]. split; [now rewrite Hwork |]. split; [now rewrite Hwork |].
  intros doc tid. rewrite Hdom. reflexivity.
Qed.

(** X25. [documents_upload], both commits accepted: the new document is in
    the active project, is stored under the key
    [<project>/<year-month>/<uuid>_<file name>] with the spaces of the file
    name replaced by underscores, has a title that is never empty and the
    size of the content, and is linked to the submitted task ids that name a
    task of the active project. With storage configured and the bucket
    there, the content is in the bucket under that key; with storage not
    configured the row is stored all the same and no object is written. *)
Theorem documents_upload_spec `{Externals} (w : World) (request : Request) (user : User)
    (a : string) (file : UploadFile)
    (doc_type title notes tags room_id expense_id : string) (task_ids : TaskIdsField)
    (photo_group : string) :
  signed_in request w user a ->
  commit_fault (oracle w) (n_commit w) = None ->
  commit_fault (oracle w) (S (n_commit w)) = None ->
  let key := a +:+ "/" +:+ strftime_ym (clock (oracle w) (n_clock w)) +:+ "/"
             +:+ rand (oracle w) (n_rand w) +:+ "_"
             +:+ replace " " "_" (or_else (filename file) "upload") in
  let id := rand (oracle w) (S (n_rand w)) in
  let bucket := minio_bucket (settings w) in
  let object := {| o_body := content file;
                   o_content_type := match content_type file with
                                     | Some ct => or_none ct
                                     | None => None
                                     end |} in
  let uploaded (w1 : World) :=
    exists d t,
      documents_upload request file doc_type title notes tags room_id expense_id task_ids
        photo_group w = (Ok (_redirect "/documents"), w1)
      /\ documents (stored w1) = <[ id := d ]> (documents (work w))
      /\ d_id d = id /\ d_project_id d = a /\ d_s3_key d = key
      /\ d_size_bytes d = Some (Z.of_nat (String.length (content file)))
      /\ d_title d = Some t /\ truthy t = true
      /\ (forall tid,
            tid ∈ links_of id (stored w1)
            <-> tid ∈ links_of id (work w)
                \/ (In tid (_parse_task_ids task_ids) /\ linkable a (work w) tid = true)) in
  (Storage.s3_enabled w = (Ok false, w) -> exists w1, uploaded w1 /\ s3 w1 = s3 w)
  /\ (Storage.s3_enabled w = (Ok true, w) ->
      forall objs, s3 w !! bucket = Some objs ->
        exists w1, uploaded w1 /\ s3 w1 = <[ bucket := <[ key := object ]> objs ]> (s3 w)).
Proof.
  intros Hin Hc1 Hc2 key id bucket object uploaded.
  pose proof (require_signed_in _ _ _ _ Hin) as Hreq.
  pose proof (active_id_signed_in _ _ _ _ Hin) as Ha.
  destruct Hin as (uid & i & _ & _ & _ & Hact & _).
  assert (forall f : gmap string (gmap string S3Object) -> gmap string (gmap string S3Object),
            let wu := set_s3 f (tick_rand (tick_clock w)) in
            Storage.upload_bytes key (content file) (content_type file)
              (tick_rand (tick_clock w)) = (Ok tt, wu) ->
            exists w1, uploaded w1 /\ s3 w1 = f (s3 w)) as Htail.
  { intros f wu Hup. unfold uploaded, documents_upload.
    unfold bind at 1. rewrite Hreq.
    unfold bind at 1. unfold utcnow at 1.
    unfold bind at 1. unfold uuid4 at 1. rewrite Ha.
    change (rand (oracle (tick_clock w)) (n_rand (tick_clock w)))
      with (rand (oracle w) (n_rand w)).
    fold key. unfold bind at 1. rewrite Hup.
    unfold bind at 1. unfold utcnow at 1.
    unfold bind at 1. unfold uuid4 at 1.
    match goal with |- context [put_document ?x] => set (d := x) end.
    destruct (documents_upload_tail user a d (_parse_task_ids task_ids)
                (tick_rand (tick_clock wu)) Hact Hc1 Hc2)
      as (w1 & Hrun & Hs3 & Hdocs & _ & Hlinks).
    exists w1. split; [| exact Hs3].
    exists d. eexists. split; [exact Hrun |].
    split; [exact Hdocs |].
    do 5 (split; [reflexivity |]).
    split; [apply or_else_truthy, or_else_truthy; reflexivity |].
    intros tid. specialize (Hlinks id tid).
    rewrite links_of_spec, (links_of_spec id tid (work w)). split.
    - intros Hnew. apply Hlinks in Hnew as [Hold | (_ & Hsub & Hl)];
        [left; exact Hold | right; split; [exact Hsub | exact Hl]].
    - intros Hk. apply Hlinks. destruct Hk as [Hold | (Hsub & Hl)];
        [left; exact Hold | right; split; [reflexivity | split; [exact Hsub | exact Hl]]]. }
  split.
  - intros Hoff. rewrite s3_enabled_eq in Hoff.
    destruct (Htail (fun s => s)) as (w1 & Hup & Hs3); [| eauto].
    storage. simpl.
    assert (truthy (minio_endpoint (settings w)) && truthy (minio_access_key (settings w))
            && truthy (minio_secret_key (settings w)) && truthy (minio_bucket (settings w))
            = false) as -> by congruence.
    reflexivity.
  - intros Hon objs Hobjs. rewrite s3_enabled_eq in Hon.
    destruct (Htail (insert bucket (<[ key := object ]> objs))) as (w1 & Hup & Hs3);
      [| eauto].
    storage. simpl.
    assert (truthy (minio_endpoint (settings w)) && truthy (minio_access_key (settings w))
            && truthy (minio_secret_key (settings w)) && truthy (minio_bucket (settings w))
            = true) as -> by congruence.
    simpl. fold bucket. rewrite Hobjs. reflexivity.
Qed.

Lemma documents_upload_spec_witness :
  let w := Sample.boot ∅ Sample.calm (Sample.house "A" (Sample.task_of "A" "todo" None)) in
  let file := {| filename := Some "my receipt.pdf"; content_type := Some "application/pdf";
                 content := "bytes" |} in
  exists w1 d,
    documents_upload Sample.alice_request file "" "" "" "" "" "" (ManyTaskIds ["t1"; "t9"]) "" w
    = (Ok (_redirect "/documents"), w1)
    /\ documents (stored w1) !! "id-b" = Some d
    /\ d_s3_key d = "A/2024-03/id-a_my_receipt.pdf"
    /\ d_title d = Some "my receipt.pdf"
    /\ ("t1" ∈ links_of "id-b" (stored w1))
    /\ ("t9" ∉ links_of "id-b" (stored w1))
    /\ s3 w1 = ∅.
Proof.
  intros w file.
  destruct (documents_upload_spec w Sample.alice_request Sample.alice "A" file "" "" "" "" ""
              "" (ManyTaskIds ["t1"; "t9"]) "") as [Hoff _];
    [exists "u1", 0%nat; repeat split; reflexivity | reflexivity | reflexivity |].
  destruct Hoff as (w1 & (d & t & Hrun & Hdocs & _ & _ & Hkey & _ & Htitle & _ & Hlinks) & Hs3);
    [reflexivity |].
  exists w1, d. split; [exact Hrun |].
  split; [rewrite Hdocs; apply lookup_insert_eq |].
  split; [exact Hkey |].
  assert (w1 = snd (documents_upload Sample.alice_request file "" "" "" "" "" ""
                      (ManyTaskIds ["t1"; "t9"]) "" w)) as Hw1 by now rewrite Hrun.
  split; [| split; [| split; [| exact Hs3]]].
  - assert (Some d = documents (stored w1) !! "id-b") as Hd
      by (rewrite Hdocs; symmetry; apply lookup_insert_eq).
    rewrite Hw1 in Hd. vm_compute in Hd. injection Hd as ->. reflexivity.
  - apply Hlinks. right. split; [left; reflexivity | reflexivity].
  - intros Ht9. apply Hlinks in Ht9 as [Hold | [_ Hl]]; [| discriminate Hl].
    apply links_of_spec in Hold as [x Hx]. discriminate Hx.
Defined.

(** ** The routes and the object store *)

Lemma keeps_ret {A} (a : A) : keeps_objects (ret a).
Proof. intros w. reflexivity. Qed.

Lemma keeps_raise {A} (e : exn) : keeps_objects (@raise A e).
Proof. intros w. reflexivity. Qed.

Lemma keeps_lift {A} (r : result A) : keeps_objects (lift r).
Proof. intros w. reflexivity. Qed.

Lemma keeps_gets {A} (f : World -> A) : keeps_objects (gets f).
Proof. intros w. reflexivity. Qed.

Lemma keeps_set_work (f : DB -> DB) : keeps_objects (modify (set_work f)).
Proof. intros w. reflexivity. Qed.

Lemma keeps_utcnow : keeps_objects utcnow.
Proof. intros w. reflexivity. Qed.

Lemma keeps_uuid4 : keeps_objects uuid4.
Proof. intros w. reflexivity. Qed.

Lemma keeps_rollback : keeps_objects rollback.
Proof. intros w. reflexivity. Qed.

Lemma keeps_log (prefix : string) (ex : exn) : keeps_objects (_log_exception prefix ex).
Proof. intros w. reflexivity. Qed.

Lemma keeps_commit : keeps_objects commit.
Proof. intros w. unfold commit. destruct (commit_fault _ _); reflexivity. Qed.

Lemma keeps_bind {A B} (m : M A) (k : A -> M B) :
  keeps_objects m -> (forall a, keeps_objects (k a)) -> keeps_objects (bind m k).
Proof.
  intros Hm Hk w. unfold bind. specialize (Hm w).
  destruct (m w) as [[a | e] w']; simpl in *; [| exact Hm].
  now rewrite Hk.
Qed.

Lemma keeps_try {A} (m : M A) (h : exn -> M A) :
  keeps_objects m -> (forall e, keeps_objects (h e)) -> keeps_objects (try_except m h).
Proof.
  intros Hm Hh w. unfold try_except. specialize (Hm w).
  destruct (m w) as [[a | e] w']; simpl in *; [exact Hm |].
  now rewrite Hh.
Qed.

Lemma keeps_for_each {A} (l : list A) (body : A -> M unit) :
  (forall x, keeps_objects (body x)) -> keeps_objects (for_each l body).
Proof.
  intros Hbody. induction l as [| x l IH]; simpl.
  - apply keeps_ret.
  - apply keeps_bind; [apply Hbody | intros _; exact IH].
Qed.

Lemma keeps_presigned `{Externals} (key : string) (expires : Z) :
  keeps_objects (Storage.presigned_get_url key expires).
Proof.
  intros w. unfold Storage.presigned_get_url, bind. rewrite s3_enabled_eq.
  destruct (_ && _); reflexivity.
Qed.

(** One step of the proof that a handler leaves the object store alone. *)
Ltac keeps_step :=
  lazymatch goal with
  | |- keeps_objects (ret _) => apply keeps_ret
  | |- keeps_objects (raise _) => apply keeps_raise
  | |- keeps_objects (lift _) => apply keeps_lift
  | |- keeps_objects (gets _) => apply keeps_gets
  | |- keeps_objects (modify (set_work _)) => apply keeps_set_work
  | |- keeps_objects utcnow => apply keeps_utcnow
  | |- keeps_objects uuid4 => apply keeps_uuid4
  | |- keeps_objects rollback => apply keeps_rollback
  | |- keeps_objects (_log_exception _ _) => apply keeps_log
  | |- keeps_objects commit => apply keeps_commit
  | |- keeps_objects (Storage.presigned_get_url _ _) => apply keeps_presigned
  | |- keeps_objects (bind _ _) => apply keeps_bind; [| intros ?]
  | |- keeps_objects (try_except _ _) => apply keeps_try; [| intros ?]
  | |- keeps_objects (for_each _ _) => apply keeps_for_each; intros ?
  | |- keeps_objects (match ?x with _ => _ end) => destruct x
  end.

Ltac keeps :=
  unfold commit_or_redirect, _require_user_and_project, get_current_user, link_task,
    apply_status, put_room, put_task, put_expense, put_document, put_project,
    set_active_project;
  repeat keeps_step.

(** X26. No route but the upload writes to the object store, and none
    removes an object: on every input and in every state, whether it
    succeeds, redirects or raises, each of the other routes leaves the buckets
    and their objects as they were. Deleting a document in particular leaves
    its object in the bucket. *)
Theorem routes_keep_objects `{Externals} (request : Request)
    (id s1 s2 s3 s4 s5 s6 s7 s8 s9 s10 : string) (n : Z) (tids : TaskIdsField) :
  Forall keeps_objects
    [ projects_create request s1 s2; projects_set_active id request;
      rooms_create request s1 s2 s3; rooms_update id request s1 s2 s3;
      rooms_delete id request;
      expenses_create request s1 s2 s3 s4 s5 s6 s7 s8 s9 s10;
      expenses_update id request s1 s2 s3 s4 s5 s6 s7 s8 s9 s10;
      expenses_delete id request;
      tasks_create request s1 s2 s3 s4 n; tasks_move id request s1;
      tasks_update id request s1 s2 s3 s4 n s5; tasks_delete id request;
      documents_update id request s1 s2 s3 s4 s5 s6 s7 tids;
      documents_delete id request; documents_download id request;
      documents_preview id request ].
Proof.
  repeat match goal with
         | |- Forall _ (_ :: _) => apply List.Forall_cons
         | |- Forall _ [] => apply List.Forall_nil
         end.
  - unfold projects_create. keeps.
  - unfold projects_set_active. keeps.
  - unfold rooms_create. keeps.
  - unfold rooms_update. keeps.
  - unfold rooms_delete. keeps.
  - unfold expenses_create. keeps.
  - unfold expenses_update. keeps.
  - unfold expenses_delete. keeps.
  - unfold tasks_create. keeps.
  - unfold tasks_move. keeps.
  - unfold tasks_update. keeps.
  - unfold tasks_delete. keeps.
  - unfold documents_update. keeps.
  - unfold documents_delete. keeps.
  - unfold documents_download. keeps.
  - unfold documents_preview. keeps.
Qed.

(** ** The groupings of the listing pages *)

Lemma group_fold_lookup {R V} (step : gmap string (list V) -> R -> gmap string (list V))
    (key : R -> option string) (val : R -> V) :
  (forall m r, step m r = match key r with
                          | Some k => group_append m k (val r)
                          | None => m
                          end) ->
  forall rows m k,
    fold_left step rows m !! k
    = match map val (List.filter (fun r => bool_decide (key r = Some k)) rows) with
      | [] => m !! k
      | l => Some (default [] (m !! k) ++ l)
      end.
Proof.
  intros Hstep. induction rows as [| r rows IH]; intros m k; simpl; [reflexivity |].
  rewrite IH, Hstep. destruct (key r) as [k' |].
  - destruct (decide (k' = k)) as [-> | Hne].
    + rewrite bool_decide_eq_true_2 by reflexivity. simpl.
      unfold group_append. rewrite lookup_insert_eq. simpl.
      destruct (map val _) as [| v l]; [reflexivity |].
      now rewrite <- app_assoc.
    + rewrite bool_decide_eq_false_2 by congruence.
      unfold group_append. now rewrite lookup_insert_ne by exact Hne.
  - rewrite bool_decide_eq_false_2 by discriminate. reflexivity.
Qed.

(** X27. The groupings built for the listing pages lose and invent nothing:
    [doc_task_map] maps a document id to the task ids of its link rows, in
    row order, and [docs_by_expense] maps an expense id to the documents of
    its rows, in row order, a missing or empty title reading "Document". A
    key without rows has no entry, and rows with an absent or empty expense id
    are skipped. *)
Theorem listing_groups (dt_rows : list (string * string))
    (doc_rows : list (string * option string * option string)) :
  (forall doc,
     doc_task_map dt_rows !! doc
     = match map snd (List.filter (fun r => bool_decide (r.1 = doc)) dt_rows) with
       | [] => None
       | l => Some l
       end)
  /\ (forall e,
        docs_by_expense doc_rows !! e
        = match map (fun r => (r.1.1, or_else r.2 "Document"))
                  (List.filter (fun r => bool_decide (r.1.2 = Some e) && truthy e) doc_rows)
          with
          | [] => None
          | l => Some l
          end).
Proof.
  split.
  - intros doc. unfold doc_task_map.
    rewrite (group_fold_lookup _ (fun r => Some r.1) snd) by reflexivity.
    rewrite lookup_empty. simpl.
    assert (List.filter (fun r : string * string => bool_decide (Some r.1 = Some doc)) dt_rows
            = List.filter (fun r => bool_decide (r.1 = doc)) dt_rows) as ->; [| reflexivity].
    apply filter_ext. intros r. apply bool_decide_ext. split; congruence.
  - intros e. unfold docs_by_expense.
    rewrite (group_fold_lookup _
               (fun r : string * option string * option string =>
                  match r.1.2 with
                  | Some e => if truthy e then Some e else None
                  | None => None
                  end)
               (fun r => (r.1.1, or_else r.2 "Document"))).
    + rewrite lookup_empty. simpl.
      match goal with
      | |- match map _ ?a with _ => _ end = match map _ ?b with _ => _ end =>
          assert (a = b) as ->; [| reflexivity]
      end.
      apply filter_ext. intros [[doc_id exp_id] title]. simpl.
      destruct exp_id as [e' |]; [| now rewrite bool_decide_eq_false_2 by discriminate].
      destruct (decide (e' = e)) as [-> | Hne].
      * rewrite (bool_decide_eq_true_2 (Some e = Some e)) by reflexivity.
        destruct (truthy e); simpl;
          [apply bool_decide_eq_true_2; reflexivity
          | first [reflexivity | apply bool_decide_eq_false_2; discriminate]].
      * rewrite (bool_decide_eq_false_2 (Some e' = Some e)) by congruence.
        destruct (truthy e'); simpl;
          first [reflexivity | apply bool_decide_eq_false_2; congruence].
    + intros m [[doc_id exp_id] title]. simpl.
      destruct exp_id as [e' |]; [| reflexivity]. destruct (truthy e'); reflexivity.
Qed.
